(** * Prescription reminder bot: scheduling and escalation core

    A shallow embedding of the scheduling / escalation code of the
    repository (services/schedulerService.js, services/escalationService.js,
    controllers/escalationController.js, controllers/reminderController.js,
    queues/reminderQueue.js, queues/escalationQueue.js and the Mongoose
    schemas they write to), followed by the properties the specification
    states about them and by further properties of the same code.

    Conventions of the embedding:
    - a [Date] is its epoch value in milliseconds, a [Z];
    - an ObjectId is a [nat];
    - every [async] method is a computation in the monad [M]: it threads
      the [World] (document store, the two Bull queues, in-process timers,
      outbound notifications, log) and either returns or throws;
    - collaborators outside the repository (Twilio, text-to-speech, the
      wall clock, [process.env], the server's time zone) are read from an
      environment [Env]. *)

From Stdlib Require Import ZArith List String Ascii Bool Lia.
Import ListNotations.
Open Scope string_scope.
Open Scope Z_scope.

(* ================================================================= *)
(** ** The fragment of JavaScript semantics the code relies on *)

Module JS.

(** Values that reach the operators modelled below. *)
Inductive value : Type :=
| VUndefined
| VBool (b : bool)
| VNum (n : Z)
| VNaN
| VStr (s : string).

(** ToBoolean. *)
Definition truthy (v : value) : bool :=
  match v with
  | VUndefined => false
  | VBool b => b
  | VNum n => negb (n =? 0)
  | VNaN => false
  | VStr s => negb (String.eqb s "")
  end.

(** Unary [!]. *)
Definition not (v : value) : value := VBool (negb (truthy v)).

(** [===]: operands of different types are never equal, NaN is not
    equal to itself. *)
Definition strict_eq (a b : value) : bool :=
  match a, b with
  | VUndefined, VUndefined => true
  | VBool x, VBool y => Bool.eqb x y
  | VNum x, VNum y => x =? y
  | VStr x, VStr y => String.eqb x y
  | _, _ => false
  end.

(** ToNumber on the values above; [None] is NaN. *)
Definition to_number (v : value) : option Z :=
  match v with
  | VUndefined => None
  | VBool b => Some (if b then 1 else 0)
  | VNum n => Some n
  | VNaN => None
  | VStr _ => None
  end.

(** [a < b] on numbers: false as soon as one side is NaN. *)
Definition lt (a b : value) : bool :=
  match to_number a, to_number b with
  | Some x, Some y => x <? y
  | _, _ => false
  end.

(** A property read [obj[key]] on an object literal with string keys. *)
Fixpoint get {A : Type} (obj : list (string * A)) (key : string) : option A :=
  match obj with
  | [] => None
  | (k, v) :: rest => if String.eqb k key then Some v else get rest key
  end.

(** A property read on an object literal whose keys are numerals. *)
Fixpoint get_num {A : Type} (obj : list (Z * A)) (key : Z) : option A :=
  match obj with
  | [] => None
  | (k, v) :: rest => if k =? key then Some v else get_num rest key
  end.

(** [x || d] where [x] is a property read whose defined values are all
    truthy. *)
Definition or_else {A : Type} (x : option A) (d : A) : A :=
  match x with Some v => v | None => d end.

(** Lift an optional environment string to a value. *)
Definition of_env (x : option string) : value :=
  match x with Some s => VStr s | None => VUndefined end.

(* ---- strings ---- *)

Definition hex_val (c : ascii) : option Z :=
  let n := Z.of_nat (nat_of_ascii c) in
  if (48 <=? n) && (n <=? 57) then Some (n - 48)
  else if (97 <=? n) && (n <=? 102) then Some (n - 87)
  else if (65 <=? n) && (n <=? 70) then Some (n - 55)
  else None.

Definition is_space (c : ascii) : bool :=
  let n := nat_of_ascii c in
  (Nat.eqb n 32 || Nat.eqb n 9 || Nat.eqb n 10 || Nat.eqb n 11
   || Nat.eqb n 12 || Nat.eqb n 13)%bool.

Fixpoint skip_spaces (s : string) : string :=
  match s with
  | String c rest => if is_space c then skip_spaces rest else s
  | EmptyString => s
  end.

(** [s.split(sep)[0]] for a one-character separator. *)
Fixpoint before (sep : ascii) (s : string) : string :=
  match s with
  | EmptyString => EmptyString
  | String c rest =>
      if Ascii.eqb c sep then EmptyString else String c (before sep rest)
  end.

(** [s.split(sep)[1]] for a one-character separator: [None] is
    [undefined] (no separator in [s]). *)
Fixpoint after (sep : ascii) (s : string) : option string :=
  match s with
  | EmptyString => None
  | String c rest =>
      if Ascii.eqb c sep then Some (before sep rest) else after sep rest
  end.

(** Longest prefix of digits in the given radix, accumulated. *)
Fixpoint digits (radix : Z) (s : string) (seen : bool) (acc : Z)
  : option Z :=
  match s with
  | EmptyString => if seen then Some acc else None
  | String c rest =>
      match hex_val c with
      | Some d =>
          if d <? radix then digits radix rest true (acc * radix + d)
          else if seen then Some acc else None
      | None => if seen then Some acc else None
      end
  end.

(** [parseInt(s)] without a radix: leading white space, an optional
    sign, an optional [0x] prefix, then the longest run of digits;
    [None] is NaN. *)
Definition parseInt (s : string) : option Z :=
  let s := skip_spaces s in
  let '(neg, s) :=
    match s with
    | String "-" rest => (true, rest)
    | String "+" rest => (false, rest)
    | _ => (false, s)
    end in
  let r :=
    match s with
    | String "0" (String "x" rest) => digits 16 rest false 0
    | String "0" (String "X" rest) => digits 16 rest false 0
    | _ => digits 10 s false 0
    end in
  match r with
  | Some n => Some (if neg then - n else n)
  | None => None
  end.

Fixpoint all_spaces (s : string) : bool :=
  match s with
  | EmptyString => true
  | String c rest => is_space c && all_spaces rest
  end.

(** A numeral in the given radix that fills the whole string up to
    trailing white space. *)
Fixpoint numeral (radix : Z) (s : string) (seen : bool) (acc : Z)
  : option Z :=
  match s with
  | EmptyString => if seen then Some acc else None
  | String c rest =>
      match hex_val c with
      | Some d =>
          if d <? radix then numeral radix rest true (acc * radix + d)
          else None
      | None => if seen && all_spaces s then Some acc else None
      end
  end.

(** [Number(s)] on the strings a clock time is split into: white space
    is trimmed, the empty string is 0, a decimal integer with an
    optional sign or a [0x] / [0o] / [0b] integer is its value, any
    other text is NaN ([None]).  Literals with a decimal point or an
    exponent are outside this fragment. *)
Definition Number (s : string) : option Z :=
  let s := skip_spaces s in
  match s with
  | EmptyString => Some 0
  | String "-" rest =>
      match numeral 10 rest false 0 with
      | Some n => Some (- n)
      | None => None
      end
  | String "+" rest => numeral 10 rest false 0
  | String "0" (String "x" rest) => numeral 16 rest false 0
  | String "0" (String "X" rest) => numeral 16 rest false 0
  | String "0" (String "o" rest) => numeral 8 rest false 0
  | String "0" (String "O" rest) => numeral 8 rest false 0
  | String "0" (String "b" rest) => numeral 2 rest false 0
  | String "0" (String "B" rest) => numeral 2 rest false 0
  | _ => numeral 10 s false 0
  end.

(** [s.replace(pat, '')]: removes the first occurrence of [pat]. *)
Fixpoint strip_prefix (pat s : string) : option string :=
  match pat, s with
  | EmptyString, _ => Some s
  | String p pat', String c s' =>
      if Ascii.eqb p c then strip_prefix pat' s' else None
  | String _ _, EmptyString => None
  end.

Fixpoint remove_first (pat s : string) : string :=
  match strip_prefix pat s with
  | Some rest => rest
  | None =>
      match s with
      | EmptyString => EmptyString
      | String c s' => String c (remove_first pat s')
      end
  end.

End JS.

(* ================================================================= *)
(** ** Dates *)

Definition Date := Z.

Definition SECOND : Z := 1000.
Definition MINUTE : Z := 60 * 1000.
Definition HOUR : Z := 60 * 60 * 1000.
Definition DAY : Z := 24 * 60 * 60 * 1000.

Module DateLocal.

(** Local-time accessors of a [Date] for a process whose zone is a fixed
    offset [off] (milliseconds east of UTC).  Daylight-saving
    transitions are outside the model. *)

Definition localMs (off : Z) (d : Date) : Z := d + off.

Definition dayNumber (off : Z) (d : Date) : Z := localMs off d / DAY.

(** [d.getHours()]. *)
Definition getHours (off : Z) (d : Date) : Z :=
  (localMs off d mod DAY) / HOUR.

(** [d.getDay()]: 0 is Sunday; day 0 of the epoch was a Thursday. *)
Definition getDay (off : Z) (d : Date) : Z :=
  (dayNumber off d + 4) mod 7.

(** Civil date of a day number (proleptic Gregorian calendar). *)
Definition civil (days : Z) : Z * Z * Z :=
  let z := days + 719468 in
  let era := z / 146097 in
  let doe := z - era * 146097 in
  let yoe := (doe - doe / 1460 + doe / 36524 - doe / 146096) / 365 in
  let doy := doe - (365 * yoe + yoe / 4 - yoe / 100) in
  let mp := (5 * doy + 2) / 153 in
  let d := doy - (153 * mp + 2) / 5 + 1 in
  let m := if mp <? 10 then mp + 3 else mp - 9 in
  let y := yoe + era * 400 + (if m <=? 2 then 1 else 0) in
  (y, m, d).

(** [d.getDate()]: day of the month. *)
Definition getDate (off : Z) (d : Date) : Z :=
  let '(_, _, dom) := civil (dayNumber off d) in dom.

(** [d.setHours(h, m, 0, 0)]: same local calendar day, given local clock
    time; a NaN argument yields an invalid date ([None]). *)
Definition setHours (off : Z) (d : Date) (h m : option Z) : option Date :=
  match h, m with
  | Some h, Some m => Some (dayNumber off d * DAY + h * HOUR + m * MINUTE - off)
  | _, _ => None
  end.

(** [d.setDate(d.getDate() + 1)]: the next calendar day, same local
    clock time. *)
Definition nextDay (d : Date) : Date := d + DAY.

End DateLocal.

(* ================================================================= *)
(** ** Documents (models/User.js, Medication.js, Schedule.js,
       Escalation.js) *)

Definition ObjectId := nat.

(** User *)

Record QuietHours := {
  qh_enabled : bool;
  qh_start : string;
  qh_end : string
}.

Record UserSettings := {
  us_voiceReminders : bool;
  us_escalationEnabled : bool;
  us_quietHours : QuietHours
}.

Record Caregiver := {
  cg_phoneNumber : string;
  cg_relationship : option string
}.

Record Subscription := {
  sub_type : string;
  sub_validUntil : option Date;
  sub_clinicId : option ObjectId
}.

Record User := {
  u_id : ObjectId;
  u_phoneNumber : string;
  u_whatsappId : string;
  u_name : string;
  u_language : string;
  u_timezone : option string;
  u_settings : UserSettings;
  u_caregivers : list Caregiver;
  u_subscription : Subscription
}.

(** Medication *)

Record TimeSlot := {
  ts_time : string;
  ts_dose : string
}.

Record MedSchedule := {
  ms_times : list TimeSlot;
  ms_frequency : string;
  ms_daysOfWeek : list Z;
  ms_dayOfMonth : option Z;
  ms_startDate : option Date;
  ms_endDate : option Date;
  ms_duration : option Z
}.

Record Medication := {
  m_id : ObjectId;
  m_userId : ObjectId;
  m_nickname : string;
  m_form : option string;               (* encryptedData.form *)
  m_schedule : MedSchedule;
  m_criticalMedication : bool;          (* medical.criticalMedication *)
  m_adherenceRate : Z;                  (* adherence.rate *)
  m_snoozeEnabled : bool                (* settings.snoozeEnabled *)
}.

(** Schedule: one occurrence *)

Record Dose := {
  dose_amount : string;
  dose_unit : string
}.

Record ReminderEntry := {
  re_sentAt : Date;
  re_type : string;
  re_delivered : bool
}.

Record EscalationState := {
  es_level : Z;
  es_lastEscalatedAt : option Date;
  es_caregiverAlerted : option bool;
  es_caregiverAlertedAt : option Date
}.

Record Schedule := {
  s_id : ObjectId;
  s_userId : ObjectId;
  s_medicationId : ObjectId;
  s_scheduledTime : Date;
  s_dose : Dose;
  s_status : string;
  s_reminders : list ReminderEntry;
  s_escalation : EscalationState
}.

(** Escalation record *)

Record CaregiverBlock := {
  cb_notified : bool;
  cb_phoneNumber : string;
  cb_relationship : option string;
  cb_notifiedAt : Date
}.

Record Resolution := {
  res_resolved : option bool;
  res_resolvedAt : option Date;
  res_resolvedBy : option string;
  res_outcome : option string
}.

Record EscalationMeta := {
  em_criticalMedication : bool;
  em_adherenceRate : Z
}.

Record Escalation := {
  e_id : ObjectId;
  e_userId : ObjectId;
  e_medicationId : ObjectId;
  e_scheduleId : ObjectId;
  e_level : Z;
  e_type : string;
  e_status : string;
  e_caregiver : option CaregiverBlock;
  e_resolution : Resolution;
  e_metadata : EscalationMeta
}.

(** The [enum] and [min]/[max] validators of the schemas. *)

Definition scheduleStatusEnum : list string :=
  ["pending"; "sent"; "taken"; "missed"; "snoozed"; "skipped"].

Definition escalationTypeEnum : list string :=
  ["reminder"; "urgent"; "voice_call"; "caregiver"; "clinic"].

Definition escalationStatusEnum : list string :=
  ["pending"; "sent"; "delivered"; "responded"; "failed"].

Definition inEnum (enum : list string) (s : string) : bool :=
  existsb (String.eqb s) enum.

(* ================================================================= *)
(** ** Bull queues *)

Inductive JobState := Delayed | Waiting | Active | Completed | Failed.

Definition JobState_eqb (a b : JobState) : bool :=
  match a, b with
  | Delayed, Delayed | Waiting, Waiting | Active, Active
  | Completed, Completed | Failed, Failed => true
  | _, _ => false
  end.

(** Payload of a ['send-reminder'] job. *)
Record ReminderData := {
  rd_scheduleId : ObjectId;
  rd_isSnoozed : bool;
  rd_scheduledTime : Date
}.

(** Payload of a ['process-escalation'] job. *)
Record EscalationData := {
  ed_scheduleId : ObjectId;
  ed_level : Z;
  ed_scheduledFor : Date
}.

(** The custom job id: kind, occurrence, optional level and the
    creation timestamp, i.e. ["reminder-<id>-<now>"] and
    ["escalation-<id>-<level>-<now>"]. *)
Record JobId := {
  jid_kind : string;
  jid_scheduleId : ObjectId;
  jid_level : option Z;
  jid_stamp : Z
}.

Record Job (D : Type) := {
  job_name : string;
  job_data : D;
  job_delay : Z;
  job_id : JobId;
  job_state : JobState
}.
Arguments job_name {D} _.
Arguments job_data {D} _.
Arguments job_delay {D} _.
Arguments job_id {D} _.
Arguments job_state {D} _.

(** [queue.add(name, data, {delay, jobId})]: the job waits in the delayed
    set when its delay is positive and is immediately waiting otherwise
    (Bull clamps a negative delay to zero).  The custom job ids carry the
    creation timestamp and are taken to be distinct from call to call. *)
Definition Bull_add {D : Type} (q : list (Job D)) (name : string)
  (data : D) (delay : Z) (jid : JobId) : Job D * list (Job D) :=
  let j := {| job_name := name; job_data := data; job_delay := delay;
              job_id := jid;
              job_state := if 0 <? delay then Delayed else Waiting |} in
  (j, (q ++ [j])%list).

(** [queue.getJobs(states)]. *)
Definition Bull_getJobs {D : Type} (q : list (Job D))
  (states : list JobState) : list (Job D) :=
  filter (fun j => existsb (JobState_eqb (job_state j)) states) q.

(* ================================================================= *)
(** ** Outbound notifications, timers, log *)

(** [getTimeAgo]'s three wordings. *)
Inductive TimeAgo :=
| MinutesAgo (minutes : Z)     (* "<n> minutes ago" *)
| OverAnHourAgo                (* "over an hour ago" *)
| HoursAgo (hours : Z).        (* "<n> hours ago" *)

(** Message bodies are kept as the template they are built from and the
    values interpolated into it. *)
Inductive Template :=
| TUrgentReminder (due : TimeAgo)     (* "URGENT REMINDER ... was due ..." *)
| TVoiceUrgent (due : TimeAgo)        (* "Urgent reminder: Your ... was due ..." *)
| TPleaseRespond                      (* "Please respond:" *)
| TCaregiverAlert (name : string) (due : TimeAgo)
    (relationship : option string)    (* "Caregiver Alert ..." *)
| TCriticalAlert (critical : bool)    (* "CRITICAL ALERT ..." *)
| TReminder (dose : string * string)  (* one of the three reminder wordings *)
| TReplyWith.                         (* "Reply with:" *)

Inductive QuickReplies :=
| QRNone
| QRUrgent                 (* Taking now / In 15 mins / Skip today *)
| QRVoice                  (* Taken / Taking soon / Skip *)
| QRCaregiver              (* I'll check now / Call them / Already taken *)
| QRTakenSnoozeSkip        (* Taken / Snooze 30min / Skip *)
| QRTakenSkip              (* Taken / Skip *)
| QRFollowUp.              (* Taken / Snooze / Skip *)

Inductive Outbound :=
| WaMessage (to : string) (body : Template) (replies : QuickReplies)
| WaVoiceNote (to : string) (audioUrl : string)
| VoiceCall (to : string) (from : string) (language : string).

Definition isVoiceCall (o : Outbound) : bool :=
  match o with VoiceCall _ _ _ => true | _ => false end.

(** A pending [setTimeout(() => this.checkAndEscalate(id, level), ms)]. *)
Record Timer := {
  tm_delay : Z;
  tm_scheduleId : ObjectId;
  tm_nextLevel : Z
}.

Inductive LogLevel := LInfo | LWarn | LError.

Record LogEntry := {
  log_level : LogLevel;
  log_message : string
}.

(* ================================================================= *)
(** ** World and environment *)

Record World := {
  w_ticks : nat;                        (* clock reads so far *)
  w_nextId : ObjectId;
  w_users : list User;
  w_medications : list Medication;
  w_schedules : list Schedule;
  w_escalations : list Escalation;
  w_reminderJobs : list (Job ReminderData);
  w_escalationJobs : list (Job EscalationData);
  w_timers : list Timer;
  w_outbox : list Outbound;
  w_log : list LogEntry
}.

Record CallArgs := {
  call_to : string;
  call_from : string;
  call_language : string
}.

Record Env := {
  (** value of the n-th read of the wall clock *)
  env_clock : nat -> Date;
  (** the server's zone, milliseconds east of UTC *)
  env_tzOffset : Z;
  (** [process.env.ENABLE_VOICE_CALLS] *)
  env_ENABLE_VOICE_CALLS : option string;
  (** [process.env.TWILIO_WHATSAPP_NUMBER] *)
  env_TWILIO_WHATSAPP_NUMBER : option string;
  (** whether the free identifier [User] of schedulerService.js, which
      the module does not import, resolves to the User model *)
  env_globalUser : bool;
  (** Twilio [messages.create]: does the send succeed *)
  env_messagesCreate : Outbound -> bool;
  (** text-to-speech [generateAudio(text, language)]: whether the audio
      was already cached, and its URL *)
  env_generateAudio : Template -> string -> option (bool * string);
  (** Twilio [calls.create]: the call sid *)
  env_callsCreate : CallArgs -> option string
}.

Inductive Error :=
| ReferenceError (name : string)
| TypeError (what : string)
| ValidationError (path : string)
| TransportError (what : string)
| PlainError (message : string)
| FuelExhausted.

Inductive Result (A : Type) :=
| Ok (a : A)
| Throw (e : Error).
Arguments Ok {A} _.
Arguments Throw {A} _.

(** An effectful computation. *)
Definition M (A : Type) : Type := World -> Result A * World.

Definition ret {A} (a : A) : M A := fun w => (Ok a, w).

Definition throw {A} (e : Error) : M A := fun w => (Throw e, w).

Definition bind {A B} (m : M A) (k : A -> M B) : M B :=
  fun w =>
    match m w with
    | (Ok a, w') => k a w'
    | (Throw e, w') => (Throw e, w')
    end.

(** [try { body } catch (error) { handler }]. *)
Definition try_catch {A} (body : M A) (handler : Error -> M A) : M A :=
  fun w =>
    match body w with
    | (Ok a, w') => (Ok a, w')
    | (Throw e, w') => handler e w'
    end.

Declare Scope monad_scope.
Delimit Scope monad_scope with monad.
Notation "x <- m ;; k" := (bind m (fun x => k))
  (at level 61, m at next level, right associativity) : monad_scope.
Notation "m ;;; k" := (bind m (fun _ => k))
  (at level 61, right associativity) : monad_scope.
Open Scope monad_scope.

(** [for (const x of xs) { await body(x) }]. *)
Fixpoint forEach {A} (xs : list A) (body : A -> M unit) : M unit :=
  match xs with
  | [] => ret tt
  | x :: rest => body x ;;; forEach rest body
  end.

(* ================================================================= *)
(** ** World updates *)

Definition set_ticks (n : nat) (w : World) : World :=
  {| w_ticks := n; w_nextId := w_nextId w; w_users := w_users w;
     w_medications := w_medications w; w_schedules := w_schedules w;
     w_escalations := w_escalations w; w_reminderJobs := w_reminderJobs w;
     w_escalationJobs := w_escalationJobs w; w_timers := w_timers w;
     w_outbox := w_outbox w; w_log := w_log w |}.

Definition set_nextId (n : ObjectId) (w : World) : World :=
  {| w_ticks := w_ticks w; w_nextId := n; w_users := w_users w;
     w_medications := w_medications w; w_schedules := w_schedules w;
     w_escalations := w_escalations w; w_reminderJobs := w_reminderJobs w;
     w_escalationJobs := w_escalationJobs w; w_timers := w_timers w;
     w_outbox := w_outbox w; w_log := w_log w |}.

Definition set_schedules (l : list Schedule) (w : World) : World :=
  {| w_ticks := w_ticks w; w_nextId := w_nextId w; w_users := w_users w;
     w_medications := w_medications w; w_schedules := l;
     w_escalations := w_escalations w; w_reminderJobs := w_reminderJobs w;
     w_escalationJobs := w_escalationJobs w; w_timers := w_timers w;
     w_outbox := w_outbox w; w_log := w_log w |}.

Definition set_escalations (l : list Escalation) (w : World) : World :=
  {| w_ticks := w_ticks w; w_nextId := w_nextId w; w_users := w_users w;
     w_medications := w_medications w; w_schedules := w_schedules w;
     w_escalations := l; w_reminderJobs := w_reminderJobs w;
     w_escalationJobs := w_escalationJobs w; w_timers := w_timers w;
     w_outbox := w_outbox w; w_log := w_log w |}.

Definition set_reminderJobs (l : list (Job ReminderData)) (w : World)
  : World :=
  {| w_ticks := w_ticks w; w_nextId := w_nextId w; w_users := w_users w;
     w_medications := w_medications w; w_schedules := w_schedules w;
     w_escalations := w_escalations w; w_reminderJobs := l;
     w_escalationJobs := w_escalationJobs w; w_timers := w_timers w;
     w_outbox := w_outbox w; w_log := w_log w |}.

Definition set_escalationJobs (l : list (Job EscalationData)) (w : World)
  : World :=
  {| w_ticks := w_ticks w; w_nextId := w_nextId w; w_users := w_users w;
     w_medications := w_medications w; w_schedules := w_schedules w;
     w_escalations := w_escalations w; w_reminderJobs := w_reminderJobs w;
     w_escalationJobs := l; w_timers := w_timers w;
     w_outbox := w_outbox w; w_log := w_log w |}.

Definition set_timers (l : list Timer) (w : World) : World :=
  {| w_ticks := w_ticks w; w_nextId := w_nextId w; w_users := w_users w;
     w_medications := w_medications w; w_schedules := w_schedules w;
     w_escalations := w_escalations w; w_reminderJobs := w_reminderJobs w;
     w_escalationJobs := w_escalationJobs w; w_timers := l;
     w_outbox := w_outbox w; w_log := w_log w |}.

Definition set_outbox (l : list Outbound) (w : World) : World :=
  {| w_ticks := w_ticks w; w_nextId := w_nextId w; w_users := w_users w;
     w_medications := w_medications w; w_schedules := w_schedules w;
     w_escalations := w_escalations w; w_reminderJobs := w_reminderJobs w;
     w_escalationJobs := w_escalationJobs w; w_timers := w_timers w;
     w_outbox := l; w_log := w_log w |}.

Definition set_log (l : list LogEntry) (w : World) : World :=
  {| w_ticks := w_ticks w; w_nextId := w_nextId w; w_users := w_users w;
     w_medications := w_medications w; w_schedules := w_schedules w;
     w_escalations := w_escalations w; w_reminderJobs := w_reminderJobs w;
     w_escalationJobs := w_escalationJobs w; w_timers := w_timers w;
     w_outbox := w_outbox w; w_log := l |}.

Definition gets {A} (f : World -> A) : M A := fun w => (Ok (f w), w).

Definition modify (f : World -> World) : M unit := fun w => (Ok tt, f w).

(** [logger.info / warn / error]. *)
Definition logEntry (lvl : LogLevel) (msg : string) (w : World) : World :=
  set_log (w_log w ++ [{| log_level := lvl; log_message := msg |}])%list w.

Module logger.
Definition info (msg : string) : M unit := modify (logEntry LInfo msg).
Definition warn (msg : string) : M unit := modify (logEntry LWarn msg).
Definition error (msg : string) : M unit := modify (logEntry LError msg).
End logger.

(** [setTimeout(callback, ms)]. *)
Definition setTimeout (t : Timer) : M unit :=
  modify (fun w => set_timers (w_timers w ++ [t])%list w).

(** A fresh ObjectId. *)
Definition freshId : M ObjectId :=
  fun w => (Ok (w_nextId w), set_nextId (S (w_nextId w)) w).

(** Dereferencing a populated path: a null document throws. *)
Definition deref {A} (what : string) (x : option A) : M A :=
  match x with
  | Some a => ret a
  | None => throw (TypeError what)
  end.

(* ================================================================= *)
(** ** The models' query interface (Mongoose) *)

Module UserModel.
Definition lookup (id : ObjectId) (w : World) : option User :=
  find (fun u => Nat.eqb (u_id u) id) (w_users w).

Definition findById (id : ObjectId) : M (option User) :=
  gets (lookup id).
End UserModel.

Module MedicationModel.
Definition lookup (id : ObjectId) (w : World) : option Medication :=
  find (fun m => Nat.eqb (m_id m) id) (w_medications w).

Definition findById (id : ObjectId) : M (option Medication) :=
  gets (lookup id).
End MedicationModel.

Module ScheduleModel.

(** The document with the given [_id], if any. *)
Definition lookup (id : ObjectId) (w : World) : option Schedule :=
  find (fun s => Nat.eqb (s_id s) id) (w_schedules w).

Definition findById (id : ObjectId) : M (option Schedule) :=
  gets (lookup id).

(** [Schedule.create(doc)]: defaults, validation, insertion. *)
Definition create (userId medicationId : ObjectId) (scheduledTime : Date)
  (dose : Dose) (status : string) : M Schedule :=
  if inEnum scheduleStatusEnum status then
    id <- freshId ;;
    let doc := {| s_id := id; s_userId := userId;
                  s_medicationId := medicationId;
                  s_scheduledTime := scheduledTime; s_dose := dose;
                  s_status := status; s_reminders := [];
                  s_escalation :=
                    {| es_level := 0; es_lastEscalatedAt := None;
                       es_caregiverAlerted := None;
                       es_caregiverAlertedAt := None |} |} in
    modify (fun w => set_schedules (w_schedules w ++ [doc])%list w) ;;;
    ret doc
  else throw (ValidationError "status").

(** [doc.save()] of a document loaded from the collection. *)
Definition save (doc : Schedule) : M unit :=
  modify (fun w =>
    set_schedules
      (map (fun s => if Nat.eqb (s_id s) (s_id doc) then doc else s)
           (w_schedules w)) w).

Definition with_status (st : string) (s : Schedule) : Schedule :=
  {| s_id := s_id s; s_userId := s_userId s;
     s_medicationId := s_medicationId s;
     s_scheduledTime := s_scheduledTime s; s_dose := s_dose s;
     s_status := st; s_reminders := s_reminders s;
     s_escalation := s_escalation s |}.


Definition with_reminders (l : list ReminderEntry) (s : Schedule)
  : Schedule :=
  {| s_id := s_id s; s_userId := s_userId s;
     s_medicationId := s_medicationId s;
     s_scheduledTime := s_scheduledTime s; s_dose := s_dose s;
     s_status := s_status s; s_reminders := l;
     s_escalation := s_escalation s |}.

Definition with_escalation (e : EscalationState) (s : Schedule)
  : Schedule :=
  {| s_id := s_id s; s_userId := s_userId s;
     s_medicationId := s_medicationId s;
     s_scheduledTime := s_scheduledTime s; s_dose := s_dose s;
     s_status := s_status s; s_reminders := s_reminders s;
     s_escalation := e |}.

(** [Schedule.updateMany({medicationId, status}, {status: st'})];
    update operations do not run the schema validators.  Returns
    [modifiedCount]. *)
Definition updateMany_status (medicationId : ObjectId) (st st' : string)
  : M nat :=
  let hit s :=
    Nat.eqb (s_medicationId s) medicationId && String.eqb (s_status s) st in
  n <- gets (fun w => List.length (filter hit (w_schedules w))) ;;
  modify (fun w =>
    set_schedules
      (map (fun s => if hit s then with_status st' s else s)
           (w_schedules w)) w) ;;;
  ret n.

(** [Schedule.find({medicationId, status, scheduledTime: {$gte: t}})]. *)
Definition find_from (medicationId : ObjectId) (st : string) (t : Date)
  : M (list Schedule) :=
  gets (fun w =>
    filter (fun s =>
              Nat.eqb (s_medicationId s) medicationId
              && String.eqb (s_status s) st
              && (t <=? s_scheduledTime s))
           (w_schedules w)).

End ScheduleModel.

Module EscalationModel.

(** [Escalation.create(doc)]: [status] defaults to ['pending']; the
    document is validated against the schema ([level] within 1..5,
    [type] and [status] within their enums) before it is inserted. *)
Definition create (userId medicationId scheduleId : ObjectId)
  (level : Z) (type : string) (meta : EscalationMeta) : M Escalation :=
  if negb ((1 <=? level) && (level <=? 5)) then
    throw (ValidationError "level")
  else if negb (inEnum escalationTypeEnum type) then
    throw (ValidationError "type")
  else
    id <- freshId ;;
    let doc := {| e_id := id; e_userId := userId;
                  e_medicationId := medicationId;
                  e_scheduleId := scheduleId; e_level := level;
                  e_type := type; e_status := "pending";
                  e_caregiver := None;
                  e_resolution :=
                    {| res_resolved := None; res_resolvedAt := None;
                       res_resolvedBy := None; res_outcome := None |};
                  e_metadata := meta |} in
    modify (fun w => set_escalations (w_escalations w ++ [doc])%list w) ;;;
    ret doc.

Definition save (doc : Escalation) : M unit :=
  modify (fun w =>
    set_escalations
      (map (fun e => if Nat.eqb (e_id e) (e_id doc) then doc else e)
           (w_escalations w)) w).

Definition with_caregiver (c : CaregiverBlock) (e : Escalation)
  : Escalation :=
  {| e_id := e_id e; e_userId := e_userId e;
     e_medicationId := e_medicationId e; e_scheduleId := e_scheduleId e;
     e_level := e_level e; e_type := e_type e; e_status := e_status e;
     e_caregiver := Some c; e_resolution := e_resolution e;
     e_metadata := e_metadata e |}.



End EscalationModel.

(* ================================================================= *)
(** ** config/constants.js *)

Module CONSTANTS.

Definition TIMEOUTS : list (string * Z) :=
  [ ("REMINDER_SNOOZE", 30 * 60 * 1000);
    ("ESCALATION_DELAY", 15 * 60 * 1000);
    ("RESPONSE_TIMEOUT", 60 * 60 * 1000);
    ("SESSION_TIMEOUT", 24 * 60 * 60 * 1000) ].

Definition LIMITS : list (string * Z) :=
  [ ("MAX_MEDICATIONS", 20);
    ("MAX_REMINDERS_PER_DAY", 10);
    ("MAX_CAREGIVERS", 3);
    ("MAX_IMAGE_SIZE", 10 * 1024 * 1024);
    ("MAX_NICKNAME_LENGTH", 50) ].

(** A property read on one of the tables, as a JavaScript value. *)
Definition read (table : list (string * Z)) (key : string) : JS.value :=
  match JS.get table key with
  | Some n => JS.VNum n
  | None => JS.VUndefined
  end.

End CONSTANTS.

(** [Date.now()] / [new Date()]: one read of the wall clock. *)
Definition now (env : Env) : M Date :=
  fun w => (Ok (env_clock env (w_ticks w)), set_ticks (S (w_ticks w)) w).

(* ================================================================= *)
(** ** queues/reminderQueue.js *)

Module ReminderQueue.
Section WithEnv.
Context (env : Env).

Definition addReminder (scheduleId : ObjectId) (scheduledTime : Date)
  (isSnoozed : bool) : M (option (Job ReminderData)) :=
  t <- now env ;;
  let delay := scheduledTime - t in
  if delay <? 0 then
    logger.warn "Attempted to schedule reminder in the past" ;;;
    ret None
  else
    stamp <- now env ;;
    job <- (fun w =>
              let '(j, q) :=
                Bull_add (w_reminderJobs w) "send-reminder"
                  {| rd_scheduleId := scheduleId;
                     rd_isSnoozed := isSnoozed;
                     rd_scheduledTime := scheduledTime |}
                  delay
                  {| jid_kind := "reminder"; jid_scheduleId := scheduleId;
                     jid_level := None; jid_stamp := stamp |} in
              (Ok j, set_reminderJobs q w)) ;;
    logger.info "Reminder queued" ;;;
    ret (Some job).

(** Every job of [toRemove], i.e. every delayed or waiting job of the
    occurrence, is taken out of the queue by [job.remove()]. *)
Definition removeByScheduleId (scheduleId : ObjectId) : M nat :=
  jobs <- gets (fun w => Bull_getJobs (w_reminderJobs w) [Delayed; Waiting]) ;;
  let toRemove :=
    filter (fun job => Nat.eqb (rd_scheduleId (job_data job)) scheduleId)
           jobs in
  modify (fun w =>
    set_reminderJobs
      (filter (fun job =>
                 negb (existsb (JobState_eqb (job_state job))
                               [Delayed; Waiting]
                       && Nat.eqb (rd_scheduleId (job_data job)) scheduleId))
              (w_reminderJobs w)) w) ;;;
  logger.info "Removed reminder jobs" ;;;
  ret (List.length toRemove).

(** The body only logs: the job payload carries no medication id. *)
Definition removeByMedicationId (medicationId : ObjectId) : M unit :=
  logger.info "Removing reminders by medication ID".

End WithEnv.
End ReminderQueue.

(* ================================================================= *)
(** ** queues/escalationQueue.js *)

Module EscalationQueue.
Section WithEnv.
Context (env : Env).

Definition addEscalation (scheduleId : ObjectId) (level : Z)
  (scheduledFor : Date) : M (Job EscalationData) :=
  t <- now env ;;
  let delay := scheduledFor - t in
  stamp <- now env ;;
  job <- (fun w =>
            let '(j, q) :=
              Bull_add (w_escalationJobs w) "process-escalation"
                {| ed_scheduleId := scheduleId; ed_level := level;
                   ed_scheduledFor := scheduledFor |}
                delay
                {| jid_kind := "escalation"; jid_scheduleId := scheduleId;
                   jid_level := Some level; jid_stamp := stamp |} in
            (Ok j, set_escalationJobs q w)) ;;
  logger.info "Escalation queued" ;;;
  ret job.

(** Every job of [toRemove], i.e. every delayed or waiting job of the
    occurrence, is taken out of the queue by [job.remove()]. *)
Definition removeByScheduleId (scheduleId : ObjectId) : M nat :=
  jobs <- gets (fun w =>
                 Bull_getJobs (w_escalationJobs w) [Delayed; Waiting]) ;;
  let toRemove :=
    filter (fun job => Nat.eqb (ed_scheduleId (job_data job)) scheduleId)
           jobs in
  modify (fun w =>
    set_escalationJobs
      (filter (fun job =>
                 negb (existsb (JobState_eqb (job_state job))
                               [Delayed; Waiting]
                       && Nat.eqb (ed_scheduleId (job_data job)) scheduleId))
              (w_escalationJobs w)) w) ;;;
  logger.info "Removed escalation jobs" ;;;
  ret (List.length toRemove).

End WithEnv.
End EscalationQueue.

(* ================================================================= *)
(** ** services/escalationService.js *)

Module EscalationService.
Section WithEnv.
Context (env : Env).

Definition delays : list (Z * Z) :=
  [ (1, 30 * 60 * 1000);
    (2, 15 * 60 * 1000);
    (3, 15 * 60 * 1000);
    (4, 10 * 60 * 1000);
    (5, 5 * 60 * 1000) ].

Definition getEscalationDelay (level : Z) : Z :=
  JS.or_else (JS.get_num delays level) (30 * 60 * 1000).

Definition scheduleEscalation (scheduleId : ObjectId) (level : Z)
  : M unit :=
  try_catch
    (let delay := getEscalationDelay level in
     t <- now env ;;
     _ <- EscalationQueue.addEscalation env scheduleId level (t + delay) ;;
     logger.info "Escalation scheduled")
    (fun error =>
       logger.error "Error scheduling escalation:" ;;;
       throw error).


End WithEnv.
End EscalationService.

(* ================================================================= *)
(** ** services/schedulerService.js *)

Module SchedulerService.
Section WithEnv.
Context (env : Env).

Definition shouldScheduleToday (medication : Medication) (date : Date)
  : bool :=
  let sch := m_schedule medication in
  if String.eqb (ms_frequency sch) "daily" then true
  else if String.eqb (ms_frequency sch) "weekly" then
    let dayOfWeek := DateLocal.getDay (env_tzOffset env) date in
    existsb (Z.eqb dayOfWeek) (ms_daysOfWeek sch)
  else if String.eqb (ms_frequency sch) "monthly" then
    let dayOfMonth := DateLocal.getDate (env_tzOffset env) date in
    match ms_dayOfMonth sch with
    | Some d => dayOfMonth =? d
    | None => false
    end
  else false.

(** [moment.tz(date, zone).toDate()]: the instant of a [Date] does not
    depend on the zone it is viewed in. *)
Definition moment_tz_toDate (d : option Date) (timezone : string)
  : option Date := d.

(** [None] is an invalid date. *)
Definition getScheduledTime (date : Date) (timeString : string)
  (timezone : string) : option Date :=
  let hours := JS.Number (JS.before ":" timeString) in
  let minutes :=
    match JS.after ":" timeString with
    | Some t => JS.Number t
    | None => None
    end in
  let scheduled := DateLocal.setHours (env_tzOffset env) date hours minutes in
  moment_tz_toDate scheduled timezone.

(** [medication.encryptedData.form || 'unit']. *)
Definition doseUnit (medication : Medication) : string :=
  match m_form medication with
  | Some f => if String.eqb f "" then "unit" else f
  | None => "unit"
  end.

(** One pass of [for (const timeSlot of medication.schedule.times)];
    the guard is [scheduledTime > new Date()], which an invalid date
    fails. *)
Definition slotStep (medication : Medication) (timezone : string)
  (currentDate : Date) (timeSlot : TimeSlot) (schedules : list Schedule)
  : M (list Schedule) :=
  let scheduledTime :=
    getScheduledTime currentDate (ts_time timeSlot) timezone in
  t <- now env ;;
  match scheduledTime with
  | Some st =>
      if t <? st then
        schedule <- ScheduleModel.create (m_userId medication)
                      (m_id medication) st
                      {| dose_amount := ts_dose timeSlot;
                         dose_unit := doseUnit medication |}
                      "pending" ;;
        _ <- ReminderQueue.addReminder env (s_id schedule) st false ;;
        ret (schedules ++ [schedule])%list
      else ret schedules
  | None => ret schedules
  end.

Fixpoint slotLoop (medication : Medication) (timezone : string)
  (currentDate : Date) (slots : list TimeSlot) (schedules : list Schedule)
  : M (list Schedule) :=
  match slots with
  | [] => ret schedules
  | timeSlot :: rest =>
      schedules' <- slotStep medication timezone currentDate timeSlot
                      schedules ;;
      slotLoop medication timezone currentDate rest schedules'
  end.

(** [currentDate <= endDate]; an invalid end date compares false. *)
Definition notAfter (currentDate : Date) (endDate : option Date) : bool :=
  match endDate with
  | Some e => currentDate <=? e
  | None => false
  end.

(** [while (currentDate <= endDate) { ... }], unrolled at most [fuel]
    times. *)
Fixpoint dayLoop (fuel : nat) (medication : Medication) (timezone : string)
  (endDate : option Date) (currentDate : Date) (schedules : list Schedule)
  : M (list Schedule) :=
  if notAfter currentDate endDate then
    match fuel with
    | O => throw FuelExhausted
    | S fuel' =>
        schedules' <-
          (if shouldScheduleToday medication currentDate then
             slotLoop medication timezone currentDate
                      (ms_times (m_schedule medication)) schedules
           else ret schedules) ;;
        dayLoop fuel' medication timezone endDate
                (DateLocal.nextDay currentDate) schedules'
    end
  else ret schedules.

(** Number of calendar days the walk visits. *)
Definition daysToWalk (startDate : Date) (endDate : option Date) : nat :=
  match endDate with
  | Some e => Z.to_nat ((e - startDate) / DAY + 1)
  | None => O
  end.

Definition createSchedules (medication : Medication)
  : M (list Schedule) :=
  try_catch
    (user <- (if env_globalUser env
              then UserModel.findById (m_userId medication)
              else throw (ReferenceError "User")) ;;
     user <- deref "user.timezone" user ;;
     let timezone := JS.or_else (u_timezone user) "UTC" in
     startDate <- match ms_startDate (m_schedule medication) with
                  | Some d => ret d
                  | None => now env
                  end ;;
     let endDate :=
       match ms_endDate (m_schedule medication) with
       | Some e => Some e
       | None =>
           match ms_duration (m_schedule medication) with
           | Some duration => Some (startDate + duration * 24 * 60 * 60 * 1000)
           | None => None
           end
       end in
     schedules <- dayLoop (daysToWalk startDate endDate) medication timezone
                    endDate startDate [] ;;
     logger.info "Schedules created" ;;;
     ret schedules)
    (fun error =>
       logger.error "Error creating schedules:" ;;;
       throw error).


Definition pauseMedicationSchedules (medicationId : ObjectId) : M nat :=
  try_catch
    (modifiedCount <-
       ScheduleModel.updateMany_status medicationId "pending" "paused" ;;
     ReminderQueue.removeByMedicationId medicationId ;;;
     logger.info "Medication schedules paused" ;;;
     ret modifiedCount)
    (fun error =>
       logger.error "Error pausing schedules:" ;;;
       throw error).

Definition resumeMedicationSchedules (medicationId : ObjectId) : M nat :=
  try_catch
    (_ <- MedicationModel.findById medicationId ;;
     t <- now env ;;
     schedules <- ScheduleModel.find_from medicationId "paused" t ;;
     forEach schedules (fun schedule =>
       let schedule := ScheduleModel.with_status "pending" schedule in
       ScheduleModel.save schedule ;;;
       _ <- ReminderQueue.addReminder env (s_id schedule)
              (s_scheduledTime schedule) false ;;
       ret tt) ;;;
     logger.info "Medication schedules resumed" ;;;
     ret (List.length schedules))
    (fun error =>
       logger.error "Error resuming schedules:" ;;;
       throw error).


Fixpoint bulkLoop (medications : list Medication)
  (allSchedules : list Schedule) : M (list Schedule) :=
  match medications with
  | [] => ret allSchedules
  | medication :: rest =>
      schedules <- createSchedules medication ;;
      bulkLoop rest (allSchedules ++ schedules)%list
  end.

Definition bulkCreateSchedules (userId : ObjectId)
  (medications : list Medication) : M (list Schedule) :=
  allSchedules <- bulkLoop medications [] ;;
  logger.info "Bulk schedules created" ;;;
  ret allSchedules.

End WithEnv.
End SchedulerService.

(* ================================================================= *)
(** ** services/whatsappService.js and services/voiceService.js *)

Module WhatsAppService.
Section WithEnv.
Context (env : Env).

(** [to.startsWith('whatsapp:') ? to : `whatsapp:${to}`]. *)
Definition address (to : string) : string :=
  match JS.strip_prefix "whatsapp:" to with
  | Some _ => to
  | None => "whatsapp:" ++ to
  end.

Definition sendMessage (to : string) (text : Template)
  (quickReplies : QuickReplies) : M unit :=
  let msg := WaMessage (address to) text quickReplies in
  if env_messagesCreate env msg then
    modify (fun w => set_outbox (w_outbox w ++ [msg])%list w) ;;;
    logger.info "WhatsApp message sent"
  else
    logger.error "Failed to send WhatsApp message:" ;;;
    throw (TransportError "messages.create").

Definition sendVoiceNote (to : string) (audioUrl : string) : M unit :=
  let msg := WaVoiceNote (address to) audioUrl in
  if env_messagesCreate env msg then
    modify (fun w => set_outbox (w_outbox w ++ [msg])%list w) ;;;
    logger.info "Voice note sent"
  else
    logger.error "Failed to send voice note:" ;;;
    throw (TransportError "messages.create").

End WithEnv.
End WhatsAppService.

Module VoiceService.
Section WithEnv.
Context (env : Env).

Definition generateAudio (text : Template) (language : string)
  : M string :=
  match env_generateAudio env text language with
  | Some (true, url) => logger.info "Using cached audio" ;;; ret url
  | Some (false, url) => logger.info "Audio generated" ;;; ret url
  | None =>
      logger.error "Error generating audio:" ;;;
      throw (TransportError "synthesizeSpeech")
  end.

End WithEnv.
End VoiceService.

(* ================================================================= *)
(** ** controllers/escalationController.js *)

(** [Schedule.findById(id).populate('userId').populate('medicationId')]:
    the document with both references resolved; a dangling reference
    populates as null. *)
Definition findById_populated (scheduleId : ObjectId)
  : M (option (Schedule * option User * option Medication)) :=
  schedule <- ScheduleModel.findById scheduleId ;;
  match schedule with
  | None => ret None
  | Some s =>
      user <- UserModel.findById (s_userId s) ;;
      medication <- MedicationModel.findById (s_medicationId s) ;;
      ret (Some (s, user, medication))
  end.

Module EscalationController.
Section WithEnv.
Context (env : Env).

Definition types : list (Z * string) :=
  [ (1, "urgent");
    (2, "voice_reminder");
    (3, "voice_call");
    (4, "caregiver");
    (5, "clinic") ].

Definition getEscalationType (level : Z) : string :=
  JS.or_else (JS.get_num types level) "unknown".

Definition getTimeAgo (date : Date) : M TimeAgo :=
  t <- now env ;;
  let minutes := (t - date) / 60000 in
  if minutes <? 60 then ret (MinutesAgo minutes)
  else if minutes <? 120 then ret OverAnHourAgo
  else ret (HoursAgo (minutes / 60)).

Definition getTwilioLanguage (language : string) : string :=
  JS.or_else
    (JS.get [ ("en", "en-US"); ("zu", "en-ZA"); ("hi", "hi-IN");
              ("ha", "en-NG"); ("sw", "sw-KE"); ("pt", "pt-BR");
              ("es", "es-MX") ] language)
    "en-US".

Definition sendUrgentReminder (user : User) (medication : Medication)
  (schedule : Schedule) : M unit :=
  due <- getTimeAgo (s_scheduledTime schedule) ;;
  WhatsAppService.sendMessage env (u_whatsappId user)
    (TUrgentReminder due) QRUrgent ;;;
  logger.info "Urgent reminder sent".

Definition sendVoiceReminder (user : User) (medication : Medication)
  (schedule : Schedule) : M unit :=
  if negb (us_voiceReminders (u_settings user)) then
    sendUrgentReminder user medication schedule
  else
    due <- getTimeAgo (s_scheduledTime schedule) ;;
    audioUrl <- VoiceService.generateAudio env (TVoiceUrgent due)
                  (u_language user) ;;
    WhatsAppService.sendVoiceNote env (u_whatsappId user) audioUrl ;;;
    WhatsAppService.sendMessage env (u_whatsappId user)
      TPleaseRespond QRVoice ;;;
    logger.info "Voice reminder sent".

(** The guard of [makeVoiceCall], as written:
    [!process.env.ENABLE_VOICE_CALLS === 'true']. *)
Definition voiceCallsDisabled : bool :=
  JS.strict_eq (JS.not (JS.of_env (env_ENABLE_VOICE_CALLS env)))
               (JS.VStr "true").

Definition makeVoiceCall (user : User) (medication : Medication)
  (schedule : Schedule) : M unit :=
  if voiceCallsDisabled then
    sendVoiceReminder user medication schedule
  else
    try_catch
      (let language := getTwilioLanguage (u_language user) in
       _ <- getTimeAgo (s_scheduledTime schedule) ;;
       number <- deref "TWILIO_WHATSAPP_NUMBER.replace"
                   (env_TWILIO_WHATSAPP_NUMBER env) ;;
       let args := {| call_to := u_phoneNumber user;
                      call_from := JS.remove_first "whatsapp:" number;
                      call_language := language |} in
       match env_callsCreate env args with
       | Some sid =>
           modify (fun w =>
             set_outbox
               (w_outbox w ++ [VoiceCall (call_to args) (call_from args)
                                         (call_language args)])%list w) ;;;
           logger.info "Voice call initiated"
       | None => throw (TransportError "calls.create")
       end)
      (fun error =>
         logger.error "Voice call failed:" ;;;
         sendVoiceReminder user medication schedule).

(** Returns the schedule document as the caller holds it afterwards
    (the method mutates the caller's object). *)
Definition alertCaregiver (user : User) (medication : Medication)
  (schedule : Schedule) (escalation : Escalation) : M Schedule :=
  match u_caregivers user with
  | [] => logger.warn "No caregivers to alert" ;;; ret schedule
  | caregiver :: _ =>
      due <- getTimeAgo (s_scheduledTime schedule) ;;
      try_catch
        (WhatsAppService.sendMessage env (cg_phoneNumber caregiver)
           (TCaregiverAlert (u_name user) due (cg_relationship caregiver))
           QRCaregiver ;;;
         notifiedAt <- now env ;;
         EscalationModel.save
           (EscalationModel.with_caregiver
              {| cb_notified := true;
                 cb_phoneNumber := cg_phoneNumber caregiver;
                 cb_relationship := cg_relationship caregiver;
                 cb_notifiedAt := notifiedAt |} escalation) ;;;
         alertedAt <- now env ;;
         let schedule :=
           ScheduleModel.with_escalation
             {| es_level := es_level (s_escalation schedule);
                es_lastEscalatedAt :=
                  es_lastEscalatedAt (s_escalation schedule);
                es_caregiverAlerted := Some true;
                es_caregiverAlertedAt := Some alertedAt |} schedule in
         ScheduleModel.save schedule ;;;
         logger.info "Caregiver alerted" ;;;
         ret schedule)
        (fun error =>
           logger.error "Failed to alert caregiver:" ;;;
           ret schedule)
  end.

Definition alertClinic (user : User) (medication : Medication)
  (schedule : Schedule) (escalation : Escalation) : M unit :=
  match sub_clinicId (u_subscription user) with
  | None => logger.warn "No clinic associated with user"
  | Some _ =>
      logger.info "Clinic alert would be sent" ;;;
      WhatsAppService.sendMessage env (u_whatsappId user)
        (TCriticalAlert (m_criticalMedication medication)) QRNone
  end.

Definition handleEscalation (scheduleId : ObjectId) (level : Z) : M unit :=
  try_catch
    (found <- findById_populated scheduleId ;;
     match found with
     | None => logger.info "Schedule no longer needs escalation"
     | Some (schedule, user, medication) =>
         if negb (String.eqb (s_status schedule) "sent") then
           logger.info "Schedule no longer needs escalation"
         else
           user <- deref "user._id" user ;;
           medication <- deref "medication._id" medication ;;
           escalation <-
             EscalationModel.create (u_id user) (m_id medication)
               (s_id schedule) level (getEscalationType level)
               {| em_criticalMedication := m_criticalMedication medication;
                  em_adherenceRate := m_adherenceRate medication |} ;;
           logger.info "Starting escalation" ;;;
           schedule <-
             (if level =? 1 then
                sendUrgentReminder user medication schedule ;;; ret schedule
              else if level =? 2 then
                sendVoiceReminder user medication schedule ;;; ret schedule
              else if level =? 3 then
                makeVoiceCall user medication schedule ;;; ret schedule
              else if level =? 4 then
                alertCaregiver user medication schedule escalation
              else if level =? 5 then
                alertClinic user medication schedule escalation ;;;
                ret schedule
              else
                logger.warn "Unknown escalation level" ;;; ret schedule) ;;
           lastEscalatedAt <- now env ;;
           ScheduleModel.save
             (ScheduleModel.with_escalation
                {| es_level := level;
                   es_lastEscalatedAt := Some lastEscalatedAt;
                   es_caregiverAlerted :=
                     es_caregiverAlerted (s_escalation schedule);
                   es_caregiverAlertedAt :=
                     es_caregiverAlertedAt (s_escalation schedule) |}
                schedule) ;;;
           if JS.lt (JS.VNum level)
                    (CONSTANTS.read CONSTANTS.LIMITS "MAX_ESCALATION_LEVEL")
           then
             match JS.get CONSTANTS.TIMEOUTS "ESCALATION_DELAY" with
             | Some ms =>
                 setTimeout {| tm_delay := ms; tm_scheduleId := scheduleId;
                               tm_nextLevel := level + 1 |}
             | None =>
                 setTimeout {| tm_delay := 0; tm_scheduleId := scheduleId;
                               tm_nextLevel := level + 1 |}
             end
           else ret tt
     end)
    (fun error =>
       logger.error "Escalation error:" ;;;
       throw error).

Definition checkAndEscalate (scheduleId : ObjectId) (nextLevel : Z)
  : M unit :=
  schedule <- ScheduleModel.findById scheduleId ;;
  match schedule with
  | None => logger.info "Schedule resolved, canceling escalation"
  | Some s =>
      if negb (String.eqb (s_status s) "sent") then
        logger.info "Schedule resolved, canceling escalation"
      else handleEscalation scheduleId nextLevel
  end.

End WithEnv.
End EscalationController.

(* ================================================================= *)
(** ** controllers/reminderController.js *)

Module ReminderController.
Section WithEnv.
Context (env : Env).

(** Number comparisons whose operands may be NaN ([None]). *)
Definition num_le (a b : option Z) : bool :=
  match a, b with Some x, Some y => x <=? y | _, _ => false end.

Definition num_lt (a b : option Z) : bool :=
  match a, b with Some x, Some y => x <? y | _, _ => false end.

Definition num_ge (a b : option Z) : bool := num_le b a.

(** [parseInt(clock.split(':')[0])]. *)
Definition parseHour (clock : string) : option Z :=
  JS.parseInt (JS.before ":" clock).

Definition isQuietHours (user : User) : M bool :=
  let quietHours := us_quietHours (u_settings user) in
  if negb (qh_enabled quietHours) then ret false
  else
    t <- now env ;;
    let currentHour := Some (DateLocal.getHours (env_tzOffset env) t) in
    let start := parseHour (qh_start quietHours) in
    let end_ := parseHour (qh_end quietHours) in
    if num_le start end_ then
      ret (num_ge currentHour start && num_lt currentHour end_)
    else
      ret (num_ge currentHour start || num_lt currentHour end_).

(** [user.isSubscribed()]. *)
Definition isSubscribed (user : User) : M bool :=
  if String.eqb (sub_type (u_subscription user)) "premium" then
    t <- now env ;;
    ret (num_lt (Some t) (sub_validUntil (u_subscription user)))
  else ret false.

(** The wording is drawn at random among three templates with the same
    interpolated values. *)
Definition buildReminderMessage (dose : Dose) : Template :=
  TReminder (dose_amount dose, dose_unit dose).

Definition sendTextReminder (user : User) (message : Template)
  (medication : Medication) : M unit :=
  let quickReplies :=
    if m_snoozeEnabled medication then QRTakenSnoozeSkip else QRTakenSkip in
  WhatsAppService.sendMessage env (u_whatsappId user) message quickReplies.

Definition sendVoiceReminder (user : User) (message : Template) : M unit :=
  audioUrl <- VoiceService.generateAudio env message (u_language user) ;;
  WhatsAppService.sendVoiceNote env (u_whatsappId user) audioUrl ;;;
  WhatsAppService.sendMessage env (u_whatsappId user) TReplyWith QRFollowUp.

Definition sendReminder (scheduleId : ObjectId) : M unit :=
  try_catch
    (found <- findById_populated scheduleId ;;
     match found with
     | None => ret tt
     | Some (schedule, user, medication) =>
         if negb (String.eqb (s_status schedule) "pending") then ret tt
         else
           user <- deref "user.settings" user ;;
           quiet <- isQuietHours user ;;
           if quiet then
             logger.info "Skipping reminder during quiet hours"
           else
             medication <- deref "medication.getDisplayName" medication ;;
             let message := buildReminderMessage (s_dose schedule) in
             voice <- (if us_voiceReminders (u_settings user)
                       then isSubscribed user else ret false) ;;
             (if voice then sendVoiceReminder user message
              else sendTextReminder user message medication) ;;;
             sentAt <- now env ;;
             ScheduleModel.save
               (ScheduleModel.with_reminders
                  (s_reminders schedule
                   ++ [{| re_sentAt := sentAt; re_type := "initial";
                          re_delivered := true |}])%list
                  (ScheduleModel.with_status "sent" schedule)) ;;;
             (if us_escalationEnabled (u_settings user)
              then EscalationService.scheduleEscalation env scheduleId 1
              else ret tt) ;;;
             logger.info "Reminder sent"
     end)
    (fun error =>
       logger.error "Error sending reminder:" ;;;
       throw error).

End WithEnv.
End ReminderController.

(* ================================================================= *)
(** ** queues/workers *)

Module Workers.
Section WithEnv.
Context (env : Env).

(** The ['process-escalation'] processor; the result is
    [{success: true, scheduleId, level}]. *)
Definition escalationProcessor (job : Job EscalationData)
  : M (bool * ObjectId * Z) :=
  let scheduleId := ed_scheduleId (job_data job) in
  let level := ed_level (job_data job) in
  try_catch
    (logger.info "Processing escalation" ;;;
     EscalationController.handleEscalation env scheduleId level ;;;
     ret (true, scheduleId, level))
    (fun error =>
       logger.error "Escalation worker error:" ;;;
       throw error).

(** The ['send-reminder'] processor. *)
Definition reminderProcessor (job : Job ReminderData)
  : M (bool * ObjectId) :=
  let scheduleId := rd_scheduleId (job_data job) in
  try_catch
    (logger.info "Processing reminder" ;;;
     ReminderController.sendReminder env scheduleId ;;;
     ret (true, scheduleId))
    (fun error =>
       logger.error "Reminder worker error:" ;;;
       throw error).

End WithEnv.
End Workers.

(* ================================================================= *)
(** ** Scenarios used to exercise the code *)

Module Scenario.

(** Monday 2024-01-15, 00:00 and 09:00 server-local time. *)
Definition day0 : Date := 19737 * DAY.
Definition nineAM : Date := day0 + 9 * HOUR.

(** A deployment whose collaborators all succeed, with voice calls not
    enabled; each clock read is one millisecond after the previous
    one, starting at [start]. *)
Definition env (start : Date) (globalUser : bool)
  (enableVoiceCalls : option string) : Env :=
  {| env_clock := fun n => start + Z.of_nat n;
     env_tzOffset := 0;
     env_ENABLE_VOICE_CALLS := enableVoiceCalls;
     env_TWILIO_WHATSAPP_NUMBER := Some "whatsapp:+14155238886";
     env_globalUser := globalUser;
     env_messagesCreate := fun _ => true;
     env_generateAudio := fun _ _ => Some (false, "https://audio/1.mp3");
     env_callsCreate := fun _ => Some "CA1" |}.

Definition alice : User :=
  {| u_id := 1%nat; u_phoneNumber := "+27820000001";
     u_whatsappId := "whatsapp:+27820000001"; u_name := "Alice";
     u_language := "en"; u_timezone := None;
     u_settings :=
       {| us_voiceReminders := false; us_escalationEnabled := true;
          us_quietHours := {| qh_enabled := false; qh_start := "22:00";
                              qh_end := "07:00" |} |};
     u_caregivers := [];
     u_subscription := {| sub_type := "free"; sub_validUntil := None;
                          sub_clinicId := None |} |}.

(** Alice with quiet hours switched on, 22:00 to 07:00. *)
Definition aliceQuiet : User :=
  {| u_id := 1%nat; u_phoneNumber := u_phoneNumber alice;
     u_whatsappId := u_whatsappId alice; u_name := u_name alice;
     u_language := u_language alice; u_timezone := u_timezone alice;
     u_settings :=
       {| us_voiceReminders := false; us_escalationEnabled := true;
          us_quietHours := {| qh_enabled := true; qh_start := "22:00";
                              qh_end := "07:00" |} |};
     u_caregivers := []; u_subscription := u_subscription alice |}.

(** [{frequency: daily, times: [08:00, 20:00], duration: 7}] starting
    on [day0]. *)
Definition twiceDaily : Medication :=
  {| m_id := 2%nat; m_userId := 1%nat; m_nickname := "Morning pill";
     m_form := Some "tablet";
     m_schedule :=
       {| ms_times := [ {| ts_time := "08:00"; ts_dose := "1" |};
                        {| ts_time := "20:00"; ts_dose := "1" |} ];
          ms_frequency := "daily"; ms_daysOfWeek := [];
          ms_dayOfMonth := None; ms_startDate := Some day0;
          ms_endDate := None; ms_duration := Some 7 |};
     m_criticalMedication := false; m_adherenceRate := 100;
     m_snoozeEnabled := true |}.

(** One occurrence of [twiceDaily], due at 08:00 on [day0]. *)
Definition occurrence (status : string) : Schedule :=
  {| s_id := 10%nat; s_userId := 1%nat; s_medicationId := 2%nat;
     s_scheduledTime := day0 + 8 * HOUR;
     s_dose := {| dose_amount := "1"; dose_unit := "tablet" |};
     s_status := status; s_reminders := [];
     s_escalation := {| es_level := 0; es_lastEscalatedAt := None;
                        es_caregiverAlerted := None;
                        es_caregiverAlertedAt := None |} |}.

(** The reminder job queued for [occurrence]. *)
Definition reminderJob : Job ReminderData :=
  {| job_name := "send-reminder";
     job_data := {| rd_scheduleId := 10%nat; rd_isSnoozed := false;
                    rd_scheduledTime := day0 + 8 * HOUR |};
     job_delay := 3600000;
     job_id := {| jid_kind := "reminder"; jid_scheduleId := 10%nat;
                  jid_level := None; jid_stamp := day0 |};
     job_state := Delayed |}.

Definition world (user : User) (schedules : list Schedule)
  (reminderJobs : list (Job ReminderData)) : World :=
  {| w_ticks := O; w_nextId := 100%nat; w_users := [user];
     w_medications := [twiceDaily]; w_schedules := schedules;
     w_escalations := []; w_reminderJobs := reminderJobs;
     w_escalationJobs := []; w_timers := []; w_outbox := [];
     w_log := [] |}.

End Scenario.

(* ================================================================= *)
(** ** Vocabulary of the specification *)

(** Everything a handler can act on -- documents, both queues, timers and
    sent notifications -- is the same in the two worlds; only the log and
    the number of clock reads may differ. *)
Definition untouched (w w' : World) : Prop :=
  w_nextId w' = w_nextId w /\
  w_users w' = w_users w /\
  w_medications w' = w_medications w /\
  w_schedules w' = w_schedules w /\
  w_escalations w' = w_escalations w /\
  w_reminderJobs w' = w_reminderJobs w /\
  w_escalationJobs w' = w_escalationJobs w /\
  w_timers w' = w_timers w /\
  w_outbox w' = w_outbox w.

(** Exactly one line was appended to the log. *)
Definition logged (lvl : LogLevel) (msg : string) (w w' : World) : Prop :=
  w_log w' = (w_log w ++ [{| log_level := lvl; log_message := msg |}])%list.

(** The occurrence is absent or is no longer in status ['sent']. *)
Definition resolved (scheduleId : ObjectId) (w : World) : Prop :=
  ScheduleModel.lookup scheduleId w = None \/
  exists s, ScheduleModel.lookup scheduleId w = Some s /\ s_status s <> "sent".

(** The local hour lies inside the quiet window [start, end_), where a
    window whose start is after its end wraps past midnight. *)
Definition insideQuietWindow (start end_ hour : Z) : Prop :=
  (start <= end_ /\ start <= hour < end_) \/
  (end_ < start /\ (start <= hour \/ hour < end_)).

(** A job that has not fired yet. *)
Definition notYetFired {D : Type} (j : Job D) : Prop :=
  job_state j = Delayed \/ job_state j = Waiting.



(** The wall clock never goes backwards. *)
Definition clockMonotone (env : Env) : Prop :=
  forall i j : nat, (i <= j)%nat -> env_clock env i <= env_clock env j.

(** Due strictly after the [t0]-th clock read, the one that marks the time
    of the call. *)
Definition futureOccurrence (env : Env) (t0 : nat) (s : Schedule) : Prop :=
  env_clock env t0 < s_scheduledTime s.

Definition futureJob (env : Env) (t0 : nat) (j : Job ReminderData) : Prop :=
  env_clock env t0 < rd_scheduledTime (job_data j).

(** From [w1] to [w2] the occurrences [added] were persisted and the jobs
    [jobs] enqueued, all due after the call time. *)
Definition expands (env : Env) (t0 : nat) (w1 w2 : World)
  (added : list Schedule) (jobs : list (Job ReminderData)) : Prop :=
  (w_ticks w1 <= w_ticks w2)%nat
  /\ w_schedules w2 = (w_schedules w1 ++ added)%list
  /\ w_reminderJobs w2 = (w_reminderJobs w1 ++ jobs)%list
  /\ Forall (futureOccurrence env t0) added
  /\ Forall (futureJob env t0) jobs.

(** A computation that leaves the escalation queue and the in-process
    timers as they are. *)
Definition keepsChain {A : Type} (m : M A) : Prop :=
  forall w,
    w_escalationJobs (snd (m w)) = w_escalationJobs w
    /\ w_timers (snd (m w)) = w_timers w.

(** Hours, counted from midnight of the start day, at which the given
    occurrences are due. *)
Definition dueHours (l : list Schedule) : list Z :=
  map (fun s => (s_scheduledTime s - Scenario.day0) / HOUR) l.

(* ================================================================= *)
(** * Further code of the cited files *)

(** ** queues/reminderQueue.js: queue statistics *)

Record QueueStats := {
  qs_waiting : nat;
  qs_active : nat;
  qs_completed : nat;
  qs_failed : nat;
  qs_delayed : nat;
  qs_total : nat
}.

Module ReminderQueueStats.

(** [queue.getWaitingCount()] and its siblings: the number of jobs in one
    state. *)
Definition countIn {D : Type} (st : JobState) (q : list (Job D)) : nat :=
  List.length (Bull_getJobs q [st]).

Definition getQueueStats : M QueueStats :=
  waiting <- gets (fun w => countIn Waiting (w_reminderJobs w)) ;;
  active <- gets (fun w => countIn Active (w_reminderJobs w)) ;;
  completed <- gets (fun w => countIn Completed (w_reminderJobs w)) ;;
  failed <- gets (fun w => countIn Failed (w_reminderJobs w)) ;;
  delayed <- gets (fun w => countIn Delayed (w_reminderJobs w)) ;;
  ret {| qs_waiting := waiting; qs_active := active;
         qs_completed := completed; qs_failed := failed;
         qs_delayed := delayed;
         qs_total := (waiting + active + delayed)%nat |}.

End ReminderQueueStats.

(** ** services/whatsappService.js: bulk sending *)

Module WhatsAppBulk.
Section WithEnv.
Context (env : Env).

(** One pass of the loop: the entry pushed onto [results] is
    [{success, recipient, ...}]. *)
Definition sendOne (recipient : string) (text : Template)
  (quickReplies : QuickReplies) : M (bool * string) :=
  try_catch
    (WhatsAppService.sendMessage env recipient text quickReplies ;;;
     ret (true, recipient))
    (fun error =>
       logger.error "Failed to send to recipient:" ;;;
       ret (false, recipient)).

Fixpoint bulkLoop (recipients : list string) (text : Template)
  (quickReplies : QuickReplies) (results : list (bool * string))
  : M (list (bool * string)) :=
  match recipients with
  | [] => ret results
  | recipient :: rest =>
      r <- sendOne recipient text quickReplies ;;
      bulkLoop rest text quickReplies (results ++ [r])%list
  end.

Definition sendBulkMessages (recipients : list string) (text : Template)
  (quickReplies : QuickReplies) : M (list (bool * string)) :=
  bulkLoop recipients text quickReplies [].

End WithEnv.
End WhatsAppBulk.

(* ================================================================= *)
(** ** Further scenarios and vocabulary *)

(** A deployment whose transports are all down. *)
Definition offlineEnv : Env :=
  {| env_clock := fun n => Scenario.nineAM + Z.of_nat n;
     env_tzOffset := 0;
     env_ENABLE_VOICE_CALLS := None;
     env_TWILIO_WHATSAPP_NUMBER := None;
     env_globalUser := true;
     env_messagesCreate := fun _ => false;
     env_generateAudio := fun _ _ => None;
     env_callsCreate := fun _ => None |}.

(** Alice with her daughter registered as caregiver. *)
Definition aliceWithCaregiver : User :=
  {| u_id := 1%nat; u_phoneNumber := u_phoneNumber Scenario.alice;
     u_whatsappId := u_whatsappId Scenario.alice;
     u_name := u_name Scenario.alice;
     u_language := u_language Scenario.alice;
     u_timezone := u_timezone Scenario.alice;
     u_settings := u_settings Scenario.alice;
     u_caregivers := [{| cg_phoneNumber := "+27820000002";
                         cg_relationship := Some "daughter" |}];
     u_subscription := u_subscription Scenario.alice |}.

(** Alice affiliated to a clinic. *)
Definition aliceAtClinic : User :=
  {| u_id := 1%nat; u_phoneNumber := u_phoneNumber Scenario.alice;
     u_whatsappId := u_whatsappId Scenario.alice;
     u_name := u_name Scenario.alice;
     u_language := u_language Scenario.alice;
     u_timezone := u_timezone Scenario.alice;
     u_settings := u_settings Scenario.alice;
     u_caregivers := [];
     u_subscription := {| sub_type := "clinic"; sub_validUntil := None;
                          sub_clinicId := Some 7%nat |} |}.

(** An occurrence in status 'sent' in a world where its subject and its
    medication exist. *)
Definition sentWorld (user : User) : World :=
  Scenario.world user [Scenario.occurrence "sent"] [].

(** What the escalation handler needs to act: an occurrence in status
    'sent' whose subject and medication exist. *)
Definition escalationDue (w : World) (scheduleId : ObjectId)
  (schedule : Schedule) (user : User) (medication : Medication) : Prop :=
  ScheduleModel.lookup scheduleId w = Some schedule
  /\ s_status schedule = "sent"
  /\ UserModel.lookup (s_userId schedule) w = Some user
  /\ MedicationModel.lookup (s_medicationId schedule) w = Some medication.

(** The escalation record the handler creates for a level. *)
Definition escalationRecord (w : World) (schedule : Schedule) (user : User)
  (medication : Medication) (level : Z) : Escalation :=
  {| e_id := w_nextId w; e_userId := u_id user;
     e_medicationId := m_id medication; e_scheduleId := s_id schedule;
     e_level := level;
     e_type := EscalationController.getEscalationType level;
     e_status := "pending"; e_caregiver := None;
     e_resolution := {| res_resolved := None; res_resolvedAt := None;
                        res_resolvedBy := None; res_outcome := None |};
     e_metadata :=
       {| em_criticalMedication := m_criticalMedication medication;
          em_adherenceRate := m_adherenceRate medication |} |}.

(** The occurrence with its escalation sub-state stamped. *)
Definition stampedAt (level : Z) (t : Date) (schedule : Schedule)
  : Schedule :=
  ScheduleModel.with_escalation
    {| es_level := level; es_lastEscalatedAt := Some t;
       es_caregiverAlerted := es_caregiverAlerted (s_escalation schedule);
       es_caregiverAlertedAt :=
         es_caregiverAlertedAt (s_escalation schedule) |}
    schedule.

(** The urgent reminder of level 1. *)
Definition urgentReminder (user : User) (due : TimeAgo) : Outbound :=
  WaMessage (WhatsAppService.address (u_whatsappId user))
    (TUrgentReminder due) QRUrgent.

(** The alert sent to a caregiver at level 4. *)
Definition caregiverAlert (user : User) (caregiver : Caregiver)
  (due : TimeAgo) : Outbound :=
  WaMessage (WhatsAppService.address (cg_phoneNumber caregiver))
    (TCaregiverAlert (u_name user) due (cg_relationship caregiver))
    QRCaregiver.

(** The final alert sent to the subject at level 5. *)
Definition criticalAlert (user : User) (medication : Medication)
  : Outbound :=
  WaMessage (WhatsAppService.address (u_whatsappId user))
    (TCriticalAlert (m_criticalMedication medication)) QRNone.

(** The occurrence after a caregiver was alerted at [alertedAt] and level
    4 was stamped at [t]. *)
Definition caregiverStamped (alertedAt t : Date) (schedule : Schedule)
  : Schedule :=
  ScheduleModel.with_escalation
    {| es_level := 4; es_lastEscalatedAt := Some t;
       es_caregiverAlerted := Some true;
       es_caregiverAlertedAt := Some alertedAt |}
    schedule.

(** A level the handler can act on: the schema accepts both the number
    and the type computed from it. *)
Definition actionableLevel (level : Z) : Prop :=
  level = 1 \/ level = 3 \/ level = 4 \/ level = 5.

(** No escalation record already carries the id the next created document
    will get. *)
Definition freshNextId (w : World) : Prop :=
  Forall (fun e => e_id e <> w_nextId w) (w_escalations w).


(** The filter of [resumeMedicationSchedules]: a paused occurrence of the
    medication that is due at [t] or later. *)
Definition resumable (medicationId : ObjectId) (t : Date) (s : Schedule)
  : bool :=
  Nat.eqb (s_medicationId s) medicationId
  && String.eqb (s_status s) "paused"
  && (t <=? s_scheduledTime s).

(** The filter of [pauseMedicationSchedules]: a pending occurrence of the
    medication. *)
Definition pausable (medicationId : ObjectId) (s : Schedule) : bool :=
  Nat.eqb (s_medicationId s) medicationId && String.eqb (s_status s) "pending".

(** Document ids are unique in the collection. *)
Definition uniqueIds (w : World) : Prop := NoDup (map s_id (w_schedules w)).

(** The occurrence [s] is what expansion creates for [slot] on the
    calendar day of [day]. *)
Definition slotOccurrence (env : Env) (medication : Medication)
  (timezone : string) (day : Date) (slot : TimeSlot) (s : Schedule) : Prop :=
  SchedulerService.getScheduledTime env day (ts_time slot) timezone
  = Some (s_scheduledTime s)
  /\ s_userId s = m_userId medication
  /\ s_medicationId s = m_id medication
  /\ s_dose s = {| dose_amount := ts_dose slot;
                   dose_unit := SchedulerService.doseUnit medication |}
  /\ s_status s = "pending"
  /\ s_reminders s = []
  /\ es_level (s_escalation s) = 0.

(** The occurrence [s] comes from one slot of the medication on one
    qualifying day of the walk from [startDate] to [endDate]. *)
Definition expandedFrom (env : Env) (medication : Medication)
  (timezone : string) (startDate : Date) (endDate : option Date)
  (s : Schedule) : Prop :=
  exists (k : nat) (slot : TimeSlot),
    SchedulerService.notAfter (startDate + Z.of_nat k * DAY) endDate = true
    /\ SchedulerService.shouldScheduleToday env medication
         (startDate + Z.of_nat k * DAY) = true
    /\ In slot (ms_times (m_schedule medication))
    /\ slotOccurrence env medication timezone
         (startDate + Z.of_nat k * DAY) slot s.

(** The window of the walk, as [createSchedules] computes it. *)
Definition walkStart (env : Env) (w : World) (medication : Medication)
  : Date :=
  match ms_startDate (m_schedule medication) with
  | Some d => d
  | None => env_clock env (w_ticks w)
  end.

Definition walkEnd (env : Env) (w : World) (medication : Medication)
  : option Date :=
  match ms_endDate (m_schedule medication) with
  | Some e => Some e
  | None =>
      match ms_duration (m_schedule medication) with
      | Some duration =>
          Some (walkStart env w medication + duration * 24 * 60 * 60 * 1000)
      | None => None
      end
  end.

(** A slot whose clock time is a well-formed time of day. *)
Definition wellFormedSlot (slot : TimeSlot) : Prop :=
  exists (h m : Z) (t : string),
    JS.Number (JS.before ":" (ts_time slot)) = Some h
    /\ JS.after ":" (ts_time slot) = Some t
    /\ JS.Number t = Some m
    /\ 0 <= h < 24 /\ 0 <= m < 60.

(** A schedule definition from which expansion can make nothing. *)
Definition barren (medication : Medication) : Prop :=
  let sch := m_schedule medication in
  (ms_endDate sch = None /\ ms_duration sch = None)
  \/ ms_times sch = []
  \/ (ms_frequency sch <> "daily" /\ ms_frequency sch <> "weekly"
      /\ ms_frequency sch <> "monthly")
  \/ (ms_frequency sch = "weekly" /\ ms_daysOfWeek sch = [])
  \/ (ms_frequency sch = "monthly" /\ ms_dayOfMonth sch = None).

(** [Scenario.twiceDaily] taken on Mondays and Wednesdays only. *)
Definition mondayWednesday : Medication :=
  {| m_id := 2%nat; m_userId := 1%nat; m_nickname := "Morning pill";
     m_form := None;
     m_schedule :=
       {| ms_times := [ {| ts_time := "08:00"; ts_dose := "1" |};
                        {| ts_time := "20:00"; ts_dose := "1" |} ];
          ms_frequency := "weekly"; ms_daysOfWeek := [1; 3];
          ms_dayOfMonth := None; ms_startDate := Some Scenario.day0;
          ms_endDate := None; ms_duration := Some 7 |};
     m_criticalMedication := false; m_adherenceRate := 100;
     m_snoozeEnabled := true |}.

(** [Scenario.twiceDaily] with neither an end date nor a duration. *)
Definition openEnded : Medication :=
  {| m_id := 2%nat; m_userId := 1%nat; m_nickname := "Morning pill";
     m_form := Some "tablet";
     m_schedule :=
       {| ms_times := [ {| ts_time := "08:00"; ts_dose := "1" |};
                        {| ts_time := "20:00"; ts_dose := "1" |} ];
          ms_frequency := "daily"; ms_daysOfWeek := [];
          ms_dayOfMonth := None; ms_startDate := Some Scenario.day0;
          ms_endDate := None; ms_duration := None |};
     m_criticalMedication := false; m_adherenceRate := 100;
     m_snoozeEnabled := true |}.

(** What one stretch of the expansion adds: documents appended to the
    collection under consecutive fresh ids, each satisfying [P], and
    reminder jobs that each belong to one of them. *)
Definition adds (P : Schedule -> Prop) (w1 w2 : World)
  (added : list Schedule) : Prop :=
  w_schedules w2 = (w_schedules w1 ++ added)%list
  /\ w_nextId w2 = (w_nextId w1 + List.length added)%nat
  /\ map s_id added = seq (w_nextId w1) (List.length added)
  /\ Forall P added
  /\ (exists jobs,
         w_reminderJobs w2 = (w_reminderJobs w1 ++ jobs)%list
         /\ Forall (fun j =>
                      exists s, In s added
                        /\ job_data j
                           = {| rd_scheduleId := s_id s;
                                rd_isSnoozed := false;
                                rd_scheduledTime := s_scheduledTime s |})
                   jobs)
  /\ w_outbox w2 = w_outbox w1
  /\ w_escalationJobs w2 = w_escalationJobs w1
  /\ w_users w2 = w_users w1.

(** The occurrence [s] is a pending occurrence of one of [medications],
    for that medication's patient. *)
Definition occurrenceOf (medications : list Medication) (s : Schedule)
  : Prop :=
  exists medication,
    In medication medications
    /\ s_medicationId s = m_id medication
    /\ s_userId s = m_userId medication
    /\ s_status s = "pending".

(** A medication of a patient who has no [User] document. *)
Definition strayMedication : Medication :=
  {| m_id := 3%nat; m_userId := 7%nat; m_nickname := "Evening pill";
     m_form := None;
     m_schedule := m_schedule Scenario.twiceDaily;
     m_criticalMedication := false; m_adherenceRate := 100;
     m_snoozeEnabled := true |}.

(** The occurrence as [sendReminder] saves it after a successful send. *)
Definition sentAt (t : Date) (schedule : Schedule) : Schedule :=
  ScheduleModel.with_reminders
    (s_reminders schedule
     ++ [{| re_sentAt := t; re_type := "initial"; re_delivered := true |}])%list
    (ScheduleModel.with_status "sent" schedule).

(** What the text path of [sendReminder] needs: a pending occurrence whose
    subject and medication exist, quiet hours off, voice reminders off. *)
Definition textReminderDue (w : World) (scheduleId : ObjectId)
  (schedule : Schedule) (user : User) (medication : Medication) : Prop :=
  ScheduleModel.lookup scheduleId w = Some schedule
  /\ s_status schedule = "pending"
  /\ UserModel.lookup (s_userId schedule) w = Some user
  /\ MedicationModel.lookup (s_medicationId schedule) w = Some medication
  /\ qh_enabled (us_quietHours (u_settings user)) = false
  /\ us_voiceReminders (u_settings user) = false.

(** The message [sendTextReminder] builds. *)
Definition textReminder (schedule : Schedule) (user : User)
  (medication : Medication) : Outbound :=
  WaMessage (WhatsAppService.address (u_whatsappId user))
    (TReminder (dose_amount (s_dose schedule), dose_unit (s_dose schedule)))
    (if m_snoozeEnabled medication then QRTakenSnoozeSkip else QRTakenSkip).

(** A pending occurrence for Alice in a world where she, the medication
    and the occurrence exist. *)
Definition pendingWorld : World :=
  Scenario.world Scenario.alice [Scenario.occurrence "pending"] [].

(** A world where the occurrence's subject has been deleted. *)
Definition orphanWorld : World :=
  {| w_ticks := O; w_nextId := 100%nat; w_users := [];
     w_medications := [Scenario.twiceDaily];
     w_schedules := [Scenario.occurrence "sent"];
     w_escalations := []; w_reminderJobs := []; w_escalationJobs := [];
     w_timers := []; w_outbox := []; w_log := [] |}.

(** A deployment where Twilio refuses every call but messages go
    through. *)
Definition noCallsEnv : Env :=
  {| env_clock := fun n => Scenario.nineAM + Z.of_nat n;
     env_tzOffset := 0;
     env_ENABLE_VOICE_CALLS := Some "true";
     env_TWILIO_WHATSAPP_NUMBER := Some "whatsapp:+14155238886";
     env_globalUser := true;
     env_messagesCreate := fun _ => true;
     env_generateAudio := fun _ _ => None;
     env_callsCreate := fun _ => None |}.

(** A paused occurrence of Alice's medication, due at 20:00 on the start
    day. *)
Definition pausedEvening : Schedule :=
  {| s_id := 11%nat; s_userId := 1%nat; s_medicationId := 2%nat;
     s_scheduledTime := Scenario.day0 + 20 * HOUR;
     s_dose := {| dose_amount := "1"; dose_unit := "tablet" |};
     s_status := "paused"; s_reminders := [];
     s_escalation := {| es_level := 0; es_lastEscalatedAt := None;
                        es_caregiverAlerted := None;
                        es_caregiverAlertedAt := None |} |}.

(** The morning occurrence (08:00, already past at 09:00) and the evening
    one, both paused. *)
Definition pausedWorld : World :=
  Scenario.world Scenario.alice [Scenario.occurrence "paused"; pausedEvening]
    [].

(* ================================================================= *)
(** * Properties *)

(** ** Sanity checks of the JavaScript fragment *)

Example civil_2024_01_15 : DateLocal.civil 19737 = (2024, 1, 15).
Proof. reflexivity. Qed.

Example getDay_2024_01_15 : DateLocal.getDay 0 Scenario.day0 = 1.
Proof. reflexivity. Qed.

Example parseInt_examples :
  map JS.parseInt ["22"; " 07"; "7pm"; "0x1f"; "-3"; ""; "abc"]
  = [Some 22; Some 7; Some 7; Some 31; Some (-3); None; None].
Proof. reflexivity. Qed.

Example Number_examples :
  map JS.Number ["08"; "20 "; ""; "0x10"; "8h"; "-1"]
  = [Some 8; Some 20; Some 0; Some 16; None; Some (-1)].
Proof. reflexivity. Qed.

Example getScheduledTime_0800 :
  SchedulerService.getScheduledTime (Scenario.env Scenario.nineAM true None)
    Scenario.nineAM "08:00" "UTC"
  = Some (Scenario.day0 + 8 * HOUR).
Proof. reflexivity. Qed.

(** ** Frame lemmas *)

Lemma untouched_refl w : untouched w w.
Proof. repeat split. Qed.

Lemma untouched_logEntry lvl msg w : untouched w (logEntry lvl msg w).
Proof. repeat split. Qed.

Lemma untouched_set_ticks n w : untouched w (set_ticks n w).
Proof. repeat split. Qed.

Lemma untouched_trans w1 w2 w3 :
  untouched w1 w2 -> untouched w2 w3 -> untouched w1 w3.
Proof.
  unfold untouched; intros H1 H2.
  repeat match goal with H : _ /\ _ |- _ => destruct H end.
  repeat split; congruence.
Qed.

Create HintDb world.
#[local] Hint Resolve untouched_refl untouched_logEntry untouched_set_ticks
  : world.


(** ** Race check of the escalation handler *)

(** C2. When the occurrence no longer exists or is not in status 'sent',
    the escalation handler (and the timer path [checkAndEscalate]) returns
    normally having sent nothing, created no escalation record, written
    nothing to the occurrence and scheduled no next level: the world is
    untouched apart from one info line in the log. *)
Theorem handleEscalation_skips_resolved :
  forall (env : Env) (w : World) (scheduleId : ObjectId) (level : Z),
    resolved scheduleId w ->
    (exists w',
        EscalationController.handleEscalation env scheduleId level w
        = (Ok tt, w')
        /\ untouched w w'
        /\ w_ticks w' = w_ticks w
        /\ logged LInfo "Schedule no longer needs escalation" w w')
    /\
    (exists w',
        EscalationController.checkAndEscalate env scheduleId level w
        = (Ok tt, w')
        /\ untouched w w'
        /\ w_ticks w' = w_ticks w
        /\ logged LInfo "Schedule resolved, canceling escalation" w w').
Proof.
  intros env w scheduleId level Hres.
  cbv [EscalationController.handleEscalation
         EscalationController.checkAndEscalate try_catch bind
         findById_populated ScheduleModel.findById gets ret].
  destruct Hres as [Hnone | [s [Hsome Hst]]].
  - rewrite Hnone.
    split; eexists; (split; [reflexivity |]); repeat split.
  - rewrite Hsome. cbv [UserModel.findById MedicationModel.findById gets].
    apply String.eqb_neq in Hst. rewrite Hst. cbn [negb].
    split; eexists; (split; [reflexivity |]); repeat split.
Qed.

Lemma handleEscalation_skips_resolved_witness :
  resolved 10%nat
    (Scenario.world Scenario.alice [Scenario.occurrence "taken"] [])
  /\ exists w',
      EscalationController.handleEscalation
        (Scenario.env Scenario.nineAM true None) 10%nat 2
        (Scenario.world Scenario.alice [Scenario.occurrence "taken"] [])
      = (Ok tt, w')
      /\ w_outbox w' = [] /\ w_escalations w' = [] /\ w_timers w' = []
      /\ w_escalationJobs w' = []
      /\ w_schedules w' = [Scenario.occurrence "taken"].
Proof.
  assert (H : resolved 10%nat
    (Scenario.world Scenario.alice [Scenario.occurrence "taken"] [])).
  { right. exists (Scenario.occurrence "taken").
    split; [reflexivity | discriminate]. }
  split; [exact H |].
  destruct (handleEscalation_skips_resolved
              (Scenario.env Scenario.nineAM true None) _ 10%nat 2 H)
    as [[w' [Hrun [Hun _]]] _].
  exists w'. split; [exact Hrun |].
  destruct Hun as (_ & _ & _ & Hs & He & _ & Hq & Ht & Ho).
  repeat split; assumption.
Defined.


(** ** Quiet hours *)

Lemma isQuietHours_inside :
  forall (env : Env) (w : World) (user : User) (start end_ : Z),
    qh_enabled (us_quietHours (u_settings user)) = true ->
    ReminderController.parseHour (qh_start (us_quietHours (u_settings user)))
    = Some start ->
    ReminderController.parseHour (qh_end (us_quietHours (u_settings user)))
    = Some end_ ->
    insideQuietWindow start end_
      (DateLocal.getHours (env_tzOffset env) (env_clock env (w_ticks w))) ->
    ReminderController.isQuietHours env user w
    = (Ok true, set_ticks (S (w_ticks w)) w).
Proof.
  intros env w user start end_ Hen Hs He Hin.
  unfold ReminderController.isQuietHours.
  rewrite Hen, Hs, He. cbn [negb].
  unfold bind, now, ret, ReminderController.num_ge,
    ReminderController.num_le, ReminderController.num_lt.
  destruct Hin as [[Hle [H1 H2]] | [Hlt Hor]].
  - apply Z.leb_le in Hle. rewrite Hle.
    apply Z.leb_le in H1. apply Z.ltb_lt in H2. rewrite H1, H2. reflexivity.
  - assert (Hf : (start <=? end_) = false) by (apply Z.leb_gt; exact Hlt).
    rewrite Hf.
    destruct Hor as [H | H].
    + apply Z.leb_le in H. rewrite H. reflexivity.
    + apply Z.ltb_lt in H. rewrite H. rewrite orb_true_r. reflexivity.
Qed.

(** The quiet-hours branch of [sendReminder], run to its end. *)
Lemma sendReminder_during_quiet_hours :
  forall (env : Env) (w : World) (scheduleId : ObjectId)
         (schedule : Schedule) (user : User) (start end_ : Z),
    ScheduleModel.lookup scheduleId w = Some schedule ->
    s_status schedule = "pending" ->
    UserModel.lookup (s_userId schedule) w = Some user ->
    qh_enabled (us_quietHours (u_settings user)) = true ->
    ReminderController.parseHour (qh_start (us_quietHours (u_settings user)))
    = Some start ->
    ReminderController.parseHour (qh_end (us_quietHours (u_settings user)))
    = Some end_ ->
    insideQuietWindow start end_
      (DateLocal.getHours (env_tzOffset env) (env_clock env (w_ticks w))) ->
    ReminderController.sendReminder env scheduleId w
    = (Ok tt,
       logEntry LInfo "Skipping reminder during quiet hours"
         (set_ticks (S (w_ticks w)) w)).
Proof.
  intros env w scheduleId schedule user start end_
         Hs Hst Hu Hen Hstart Hend Hin.
  unfold ReminderController.sendReminder, try_catch.
  unfold bind at 1.
  unfold findById_populated, ScheduleModel.findById, UserModel.findById,
    MedicationModel.findById.
  unfold bind at 1. unfold gets at 1. rewrite Hs.
  unfold bind at 1. unfold gets at 1. rewrite Hu.
  unfold bind at 1. unfold gets at 1. unfold ret at 1.
  rewrite Hst, String.eqb_refl. cbn [negb].
  unfold bind at 1. unfold deref, ret at 1.
  unfold bind at 1.
  rewrite (isQuietHours_inside env w user start end_ Hen Hstart Hend Hin).
  reflexivity.
Qed.

(** C10. A reminder that fires for a pending occurrence while its
    subject's quiet hours are enabled and the current local hour is inside
    the quiet window (wrapping windows included) is dropped: the handler
    returns normally, nothing is sent, the occurrence document is
    unchanged (still 'pending'), no escalation job and no replacement
    reminder job is enqueued; only an info line is logged.  The worker
    reports the job as successful, so the queue does not retry it
    either. *)
Theorem sendReminder_quiet_hours_drops :
  forall (env : Env) (w : World) (scheduleId : ObjectId)
         (schedule : Schedule) (user : User) (start end_ : Z),
    ScheduleModel.lookup scheduleId w = Some schedule ->
    s_status schedule = "pending" ->
    UserModel.lookup (s_userId schedule) w = Some user ->
    qh_enabled (us_quietHours (u_settings user)) = true ->
    ReminderController.parseHour (qh_start (us_quietHours (u_settings user)))
    = Some start ->
    ReminderController.parseHour (qh_end (us_quietHours (u_settings user)))
    = Some end_ ->
    insideQuietWindow start end_
      (DateLocal.getHours (env_tzOffset env) (env_clock env (w_ticks w))) ->
    (exists w',
        ReminderController.sendReminder env scheduleId w = (Ok tt, w')
        /\ untouched w w'
        /\ ScheduleModel.lookup scheduleId w' = Some schedule
        /\ logged LInfo "Skipping reminder during quiet hours" w w')
    /\
    (forall job : Job ReminderData,
        rd_scheduleId (job_data job) = scheduleId ->
        exists w',
          Workers.reminderProcessor env job w = (Ok (true, scheduleId), w')
          /\ untouched w w'
          /\ ScheduleModel.lookup scheduleId w' = Some schedule).
Proof.
  intros env w scheduleId schedule user start end_
         Hs Hst Hu Hen Hstart Hend Hin.
  split.
  - rewrite (sendReminder_during_quiet_hours env w scheduleId schedule user
               start end_ Hs Hst Hu Hen Hstart Hend Hin).
    eexists. split; [reflexivity |]. repeat split. exact Hs.
  - intros job Hjob.
    unfold Workers.reminderProcessor, try_catch.
    unfold bind at 1. unfold logger.info at 1. unfold modify at 1.
    unfold bind at 1. rewrite Hjob.
    rewrite (sendReminder_during_quiet_hours env
               (logEntry LInfo "Processing reminder" w) scheduleId schedule
               user start end_ Hs Hst Hu Hen Hstart Hend Hin).
    eexists. split; [reflexivity |]. repeat split. exact Hs.
Qed.

Lemma sendReminder_quiet_hours_drops_witness :
  insideQuietWindow 22 7 23
  /\ exists w',
      ReminderController.sendReminder
        (Scenario.env (Scenario.day0 + 23 * HOUR) true None) 10%nat
        (Scenario.world Scenario.aliceQuiet [Scenario.occurrence "pending"]
           [Scenario.reminderJob])
      = (Ok tt, w')
      /\ w_outbox w' = []
      /\ w_schedules w' = [Scenario.occurrence "pending"]
      /\ w_escalationJobs w' = []
      /\ w_reminderJobs w' = [Scenario.reminderJob].
Proof.
  assert (Hin : insideQuietWindow 22 7 23) by (right; lia).
  split; [exact Hin |].
  destruct (sendReminder_quiet_hours_drops
              (Scenario.env (Scenario.day0 + 23 * HOUR) true None)
              (Scenario.world Scenario.aliceQuiet
                 [Scenario.occurrence "pending"] [Scenario.reminderJob])
              10%nat (Scenario.occurrence "pending") Scenario.aliceQuiet
              22 7 eq_refl eq_refl eq_refl eq_refl eq_refl eq_refl Hin)
    as [[w' [Hrun [Hun _]]] _].
  exists w'. split; [exact Hrun |].
  destruct Hun as (_ & _ & _ & Hsch & _ & Hr & Hq & _ & Ho).
  repeat split; assumption.
Defined.


(** ** Enqueueing and cancelling *)

(** C4. A reminder whose scheduled time is strictly before the current
    time is refused: [addReminder] returns no job, the reminder queue (and
    everything else but the log) is untouched and a warning is logged.
    An escalation is always enqueued and returned, whatever the sign of
    its computed delay [scheduledFor - now]. *)
Theorem addReminder_refuses_past_addEscalation_accepts :
  forall (env : Env) (w : World),
    (forall (scheduleId : ObjectId) (scheduledTime : Date) (isSnoozed : bool),
        scheduledTime < env_clock env (w_ticks w) ->
        exists w',
          ReminderQueue.addReminder env scheduleId scheduledTime isSnoozed w
          = (Ok None, w')
          /\ untouched w w'
          /\ logged LWarn "Attempted to schedule reminder in the past" w w')
    /\
    (forall (scheduleId : ObjectId) (level : Z) (scheduledFor : Date),
        exists job w',
          EscalationQueue.addEscalation env scheduleId level scheduledFor w
          = (Ok job, w')
          /\ w_escalationJobs w' = (w_escalationJobs w ++ [job])%list
          /\ job_name job = "process-escalation"
          /\ job_data job = {| ed_scheduleId := scheduleId;
                               ed_level := level;
                               ed_scheduledFor := scheduledFor |}
          /\ job_delay job = scheduledFor - env_clock env (w_ticks w)).
Proof.
  intros env w. split.
  - intros scheduleId scheduledTime isSnoozed Hpast.
    unfold ReminderQueue.addReminder, bind, now.
    assert (Hneg : (scheduledTime - env_clock env (w_ticks w) <? 0) = true)
      by (apply Z.ltb_lt; lia).
    rewrite Hneg.
    eexists. split; [reflexivity |]. repeat split.
  - intros scheduleId level scheduledFor.
    unfold EscalationQueue.addEscalation, bind, now, Bull_add.
    do 2 eexists. split; [reflexivity |]. repeat split.
Qed.

Lemma addReminder_refuses_past_addEscalation_accepts_witness :
  Scenario.day0 + 8 * HOUR < Scenario.nineAM
  /\ (exists w',
        ReminderQueue.addReminder (Scenario.env Scenario.nineAM true None)
          10%nat (Scenario.day0 + 8 * HOUR) false
          (Scenario.world Scenario.alice [] [])
        = (Ok None, w')
        /\ w_reminderJobs w' = []).
Proof.
  assert (Hpast : Scenario.day0 + 8 * HOUR < Scenario.nineAM)
    by (vm_compute; reflexivity).
  split; [exact Hpast |].
  destruct (proj1 (addReminder_refuses_past_addEscalation_accepts
                     (Scenario.env Scenario.nineAM true None)
                     (Scenario.world Scenario.alice [] []))
              10%nat (Scenario.day0 + 8 * HOUR) false Hpast)
    as [w' [Hrun [Hun _]]].
  exists w'. split; [exact Hrun |].
  destruct Hun as (_ & _ & _ & _ & _ & Hr & _). exact Hr.
Defined.




(** ** Schedule expansion *)

Section Expansion.
Context (env : Env) (Hmono : clockMonotone env).
(** index of the clock read that marks the time of the call *)
Context (t0 : nat).

Lemma expands_refl w : expands env t0 w w [] [].
Proof.
  unfold expands. rewrite !app_nil_r. repeat split; auto.
Qed.

Lemma expands_trans w1 w2 w3 a1 a2 j1 j2 :
  expands env t0 w1 w2 a1 j1 -> expands env t0 w2 w3 a2 j2 ->
  expands env t0 w1 w3 (a1 ++ a2) (j1 ++ j2).
Proof.
  intros (Ht1 & Hs1 & Hj1 & Hf1 & Hg1) (Ht2 & Hs2 & Hj2 & Hf2 & Hg2).
  unfold expands. rewrite Hs2, Hs1, Hj2, Hj1, !app_assoc.
  repeat split; try (apply Forall_app; split; assumption). lia.
Qed.

Lemma expands_log w1 w2 a j lvl msg :
  expands env t0 w1 w2 a j -> expands env t0 w1 (logEntry lvl msg w2) a j.
Proof. intros H. exact H. Qed.

Lemma slotStep_expands medication timezone currentDate timeSlot acc w1 :
  (t0 <= w_ticks w1)%nat ->
  exists w2 added jobs,
    SchedulerService.slotStep env medication timezone currentDate timeSlot
      acc w1 = (Ok (acc ++ added)%list, w2)
    /\ expands env t0 w1 w2 added jobs.
Proof.
  intros Ht0.
  unfold SchedulerService.slotStep.
  destruct (SchedulerService.getScheduledTime env currentDate
              (ts_time timeSlot) timezone) as [st |].
  - unfold bind at 1. unfold now at 1.
    destruct (env_clock env (w_ticks w1) <? st) eqn:Hlt.
    + apply Z.ltb_lt in Hlt.
      assert (Hfut : env_clock env t0 < st).
      { pose proof (Hmono t0 (w_ticks w1) Ht0). lia. }
      unfold ScheduleModel.create.
      change (inEnum scheduleStatusEnum "pending") with true.
      cbv beta iota.
      unfold ReminderQueue.addReminder, bind, freshId, modify, now, ret,
        logger.warn, logger.info, Bull_add.
      cbn [w_ticks set_ticks set_nextId set_schedules w_nextId
           w_schedules w_reminderJobs w_log logEntry set_log].
      destruct (st - env_clock env (S (w_ticks w1)) <? 0) eqn:Hd.
      * do 3 eexists. split; [reflexivity |].
        unfold expands; cbn.
        split; [lia |]. split; [reflexivity |].
        split; [instantiate (1 := []); rewrite app_nil_r; reflexivity |].
        split; [| constructor].
        constructor; [exact Hfut | constructor].
      * do 3 eexists. split; [reflexivity |].
        unfold expands; cbn.
        split; [lia |]. split; [reflexivity |].
        split; [reflexivity |].
        split; (constructor; [exact Hfut | constructor]).
    + exists (set_ticks (S (w_ticks w1)) w1), [], [].
      rewrite app_nil_r. split; [reflexivity |].
      unfold expands; cbn. rewrite !app_nil_r.
      repeat split; auto.
  - exists (set_ticks (S (w_ticks w1)) w1), [], [].
    rewrite app_nil_r. split; [reflexivity |].
    unfold expands; cbn. rewrite !app_nil_r.
    repeat split; auto.
Qed.

Lemma slotLoop_expands medication timezone currentDate slots :
  forall acc w1,
    (t0 <= w_ticks w1)%nat ->
    exists w2 added jobs,
      SchedulerService.slotLoop env medication timezone currentDate slots
        acc w1 = (Ok (acc ++ added)%list, w2)
      /\ expands env t0 w1 w2 added jobs.
Proof.
  induction slots as [| timeSlot rest IH]; intros acc w1 Ht0.
  - exists w1, [], []. rewrite app_nil_r. split; [reflexivity |].
    apply expands_refl.
  - cbn [SchedulerService.slotLoop]. unfold bind at 1.
    destruct (slotStep_expands medication timezone currentDate timeSlot
                acc w1 Ht0) as (w2 & a1 & j1 & Hrun1 & Hexp1).
    rewrite Hrun1.
    assert (Ht2 : (t0 <= w_ticks w2)%nat) by (destruct Hexp1; lia).
    destruct (IH (acc ++ a1)%list w2 Ht2) as (w3 & a2 & j2 & Hrun2 & Hexp2).
    rewrite Hrun2.
    exists w3, (a1 ++ a2)%list, (j1 ++ j2)%list.
    rewrite app_assoc. split; [reflexivity |].
    eapply expands_trans; eassumption.
Qed.

Lemma daysToWalk_step (currentDate e : Date) :
  currentDate <= e ->
  SchedulerService.daysToWalk currentDate (Some e)
  = S (SchedulerService.daysToWalk (DateLocal.nextDay currentDate) (Some e)).
Proof.
  intros Hle. unfold SchedulerService.daysToWalk, DateLocal.nextDay.
  replace (e - (currentDate + DAY)) with ((e - currentDate) + (-1) * DAY)
    by lia.
  rewrite Z.div_add by discriminate.
  assert (0 <= (e - currentDate) / DAY).
  { apply Z.div_pos; [lia | reflexivity]. }
  lia.
Qed.

(** The day walk has enough fuel: it terminates normally. *)
Lemma dayLoop_expands medication timezone endDate :
  forall fuel currentDate acc w1,
    (t0 <= w_ticks w1)%nat ->
    (SchedulerService.daysToWalk currentDate endDate <= fuel)%nat ->
    exists w2 added jobs,
      SchedulerService.dayLoop env fuel medication timezone endDate
        currentDate acc w1 = (Ok (acc ++ added)%list, w2)
      /\ expands env t0 w1 w2 added jobs.
Proof.
  induction fuel as [| fuel IH]; intros currentDate acc w1 Ht0 Hfuel.
  - cbn [SchedulerService.dayLoop].
    destruct (SchedulerService.notAfter currentDate endDate) eqn:Hna.
    + destruct endDate as [e |]; [| discriminate].
      cbn in Hna. apply Z.leb_le in Hna.
      rewrite (daysToWalk_step _ _ Hna) in Hfuel. lia.
    + exists w1, [], []. rewrite app_nil_r. split; [reflexivity |].
      apply expands_refl.
  - cbn [SchedulerService.dayLoop].
    destruct (SchedulerService.notAfter currentDate endDate) eqn:Hna.
    + destruct endDate as [e |]; [| discriminate].
      cbn in Hna. apply Z.leb_le in Hna.
      rewrite (daysToWalk_step _ _ Hna) in Hfuel.
      unfold bind at 1.
      assert (Hday : exists w2 a1 j1,
                 (if SchedulerService.shouldScheduleToday env medication
                       currentDate
                  then SchedulerService.slotLoop env medication timezone
                         currentDate (ms_times (m_schedule medication)) acc
                  else ret acc) w1 = (Ok (acc ++ a1)%list, w2)
                 /\ expands env t0 w1 w2 a1 j1).
      { destruct (SchedulerService.shouldScheduleToday env medication
                    currentDate).
        - apply slotLoop_expands. exact Ht0.
        - exists w1, [], []. rewrite app_nil_r. split; [reflexivity |].
          apply expands_refl. }
      destruct Hday as (w2 & a1 & j1 & Hrun1 & Hexp1).
      rewrite Hrun1.
      assert (Ht2 : (t0 <= w_ticks w2)%nat) by (destruct Hexp1; lia).
      destruct (IH (DateLocal.nextDay currentDate) (acc ++ a1)%list w2 Ht2)
        as (w3 & a2 & j2 & Hrun2 & Hexp2); [lia |].
      rewrite Hrun2.
      exists w3, (a1 ++ a2)%list, (j1 ++ j2)%list.
      rewrite app_assoc. split; [reflexivity |].
      eapply expands_trans; eassumption.
    + exists w1, [], []. rewrite app_nil_r. split; [reflexivity |].
      apply expands_refl.
Qed.

End Expansion.

(** C5. Whatever the schedule definition, expansion terminates (the day
    walk never runs out of fuel) and every occurrence it returns and
    persists, and every reminder job it enqueues, is due strictly after
    the time of the call; and a day-slot combination whose due time is
    not strictly after the current time leaves no occurrence, no
    document and no job behind. *)
Theorem createSchedules_only_future :
  forall (env : Env) (w : World) (medication : Medication),
    clockMonotone env ->
    (exists r w' added jobs,
        SchedulerService.createSchedules env medication w = (r, w')
        /\ r <> Throw FuelExhausted
        /\ (forall l, r = Ok l -> l = added)
        /\ w_schedules w' = (w_schedules w ++ added)%list
        /\ w_reminderJobs w' = (w_reminderJobs w ++ jobs)%list
        /\ Forall (fun s => env_clock env (w_ticks w) < s_scheduledTime s)
                  added
        /\ Forall (fun j => env_clock env (w_ticks w)
                            < rd_scheduledTime (job_data j)) jobs)
    /\
    (forall (timezone : string) (currentDate : Date) (timeSlot : TimeSlot)
            (acc : list Schedule) (w1 : World),
        (forall st,
            SchedulerService.getScheduledTime env currentDate
              (ts_time timeSlot) timezone = Some st ->
            st <= env_clock env (w_ticks w1)) ->
        exists w2,
          SchedulerService.slotStep env medication timezone currentDate
            timeSlot acc w1 = (Ok acc, w2)
          /\ untouched w1 w2
          /\ w_log w2 = w_log w1).
Proof.
  intros env w medication Hmono. split.
  - unfold SchedulerService.createSchedules, try_catch.
    unfold bind at 1.
    destruct (env_globalUser env).
    + unfold UserModel.findById, gets.
      destruct (UserModel.lookup (m_userId medication) w) as [user |].
      * unfold bind at 1. unfold deref, ret at 1.
        unfold bind at 1.
        assert (Hstart : exists startDate w1,
                   match ms_startDate (m_schedule medication) with
                   | Some d => ret d
                   | None => now env
                   end w = (Ok startDate, w1)
                   /\ expands env (w_ticks w) w w1 [] []).
        { destruct (ms_startDate (m_schedule medication)) as [d |].
          - exists d, w. split; [reflexivity | apply expands_refl].
          - exists (env_clock env (w_ticks w)), (set_ticks (S (w_ticks w)) w).
            split; [reflexivity |].
            unfold expands; cbn. rewrite !app_nil_r.
            repeat split; auto. }
        destruct Hstart as (startDate & w1 & Hrun0 & Hexp0).
        rewrite Hrun0.
        set (endDate :=
               match ms_endDate (m_schedule medication) with
               | Some e => Some e
               | None =>
                   match ms_duration (m_schedule medication) with
                   | Some duration =>
                       Some (startDate + duration * 24 * 60 * 60 * 1000)
                   | None => None
                   end
               end).
        unfold bind at 1.
        assert (Ht1 : (w_ticks w <= w_ticks w1)%nat) by (destruct Hexp0; lia).
        destruct (dayLoop_expands env Hmono (w_ticks w) medication
                    (JS.or_else (u_timezone user) "UTC") endDate
                    (SchedulerService.daysToWalk startDate endDate)
                    startDate [] w1 Ht1 (le_n _))
          as (w2 & added & jobs & Hrun & Hexp).
        rewrite Hrun.
        pose proof (expands_trans env (w_ticks w) _ _ _ _ _ _ _ Hexp0 Hexp)
          as (_ & Hs & Hj & Hf & Hg).
        exists (Ok added), (logEntry LInfo "Schedules created" w2), added, jobs.
        split; [reflexivity |].
        split; [discriminate |].
        split; [intros l Hl; inversion Hl; reflexivity |].
        repeat split; assumption.
      * exists (Throw (TypeError "user.timezone")),
          (logEntry LError "Error creating schedules:" w), [], [].
        split; [reflexivity |].
        split; [discriminate |].
        split; [intros l Hl; discriminate |].
        cbn. rewrite !app_nil_r. repeat split; constructor.
    + exists (Throw (ReferenceError "User")),
        (logEntry LError "Error creating schedules:" w), [], [].
      split; [reflexivity |].
      split; [discriminate |].
      split; [intros l Hl; discriminate |].
      cbn. rewrite !app_nil_r. repeat split; constructor.
  - intros timezone currentDate timeSlot acc w1 Hpast.
    unfold SchedulerService.slotStep.
    destruct (SchedulerService.getScheduledTime env currentDate
                (ts_time timeSlot) timezone) as [st |].
    + unfold bind, now.
      assert (Hf : (env_clock env (w_ticks w1) <? st) = false).
      { apply Z.ltb_ge. apply Hpast. reflexivity. }
      rewrite Hf.
      eexists. split; [reflexivity |]. repeat split.
    + unfold bind, now.
      eexists. split; [reflexivity |]. repeat split.
Qed.

Lemma scenario_clock_monotone start globalUser voice :
  clockMonotone (Scenario.env start globalUser voice).
Proof.
  intros i j Hij. cbn. lia.
Defined.

Lemma createSchedules_only_future_witness :
  clockMonotone (Scenario.env Scenario.nineAM true None)
  /\ exists r w' added jobs,
      SchedulerService.createSchedules
        (Scenario.env Scenario.nineAM true None) Scenario.twiceDaily
        (Scenario.world Scenario.alice [] []) = (r, w')
      /\ r <> Throw FuelExhausted
      /\ (forall l, r = Ok l -> l = added)
      /\ w_schedules w' = ([] ++ added)%list
      /\ w_reminderJobs w' = ([] ++ jobs)%list
      /\ Forall (fun s => Scenario.nineAM + 0 < s_scheduledTime s) added
      /\ Forall (fun j => Scenario.nineAM + 0
                          < rd_scheduledTime (job_data j)) jobs.
Proof.
  split.
  - apply scenario_clock_monotone.
  - exact (proj1 (createSchedules_only_future
                    (Scenario.env Scenario.nineAM true None)
                    (Scenario.world Scenario.alice [] [])
                    Scenario.twiceDaily
                    (scenario_clock_monotone Scenario.nineAM true None))).
Defined.

(* ----------------------------------------------------------------- *)
(** ** Chain continuation *)

(** The delay table of the escalation service. *)
Lemma getEscalationDelay_table :
  EscalationService.getEscalationDelay 1 = 30 * MINUTE
  /\ EscalationService.getEscalationDelay 2 = 15 * MINUTE
  /\ EscalationService.getEscalationDelay 3 = 15 * MINUTE
  /\ EscalationService.getEscalationDelay 4 = 10 * MINUTE
  /\ EscalationService.getEscalationDelay 5 = 5 * MINUTE
  /\ (forall level, ~ (1 <= level <= 5) ->
        EscalationService.getEscalationDelay level = 30 * MINUTE).
Proof.
  repeat split.
  intros level Hout.
  unfold EscalationService.getEscalationDelay, EscalationService.delays.
  cbn [JS.get_num].
  destruct (Z.eqb_spec 1 level); [lia |].
  destruct (Z.eqb_spec 2 level); [lia |].
  destruct (Z.eqb_spec 3 level); [lia |].
  destruct (Z.eqb_spec 4 level); [lia |].
  destruct (Z.eqb_spec 5 level); [lia |].
  reflexivity.
Qed.

(** [CONSTANTS.LIMITS] has no [MAX_ESCALATION_LEVEL]: the guard of the
    continuation compares against [undefined] and is false at every
    level. *)
Lemma continuation_guard_false (level : Z) :
  JS.lt (JS.VNum level)
        (CONSTANTS.read CONSTANTS.LIMITS "MAX_ESCALATION_LEVEL") = false.
Proof. reflexivity. Qed.

Lemma keepsChain_ret {A} (a : A) : keepsChain (ret a).
Proof. intros w. split; reflexivity. Qed.

Lemma keepsChain_throw {A} (e : Error) : keepsChain (@throw A e).
Proof. intros w. split; reflexivity. Qed.

Lemma keepsChain_bind {A B} (m : M A) (k : A -> M B) :
  keepsChain m -> (forall a, keepsChain (k a)) -> keepsChain (bind m k).
Proof.
  intros Hm Hk w. unfold bind.
  specialize (Hm w). destruct (m w) as [[a | e] w1]; cbn in *.
  - specialize (Hk a w1). destruct Hk, Hm. split; congruence.
  - exact Hm.
Qed.

Lemma keepsChain_try_catch {A} (m : M A) (h : Error -> M A) :
  keepsChain m -> (forall e, keepsChain (h e)) -> keepsChain (try_catch m h).
Proof.
  intros Hm Hh w. unfold try_catch.
  specialize (Hm w). destruct (m w) as [[a | e] w1]; cbn in *.
  - exact Hm.
  - specialize (Hh e w1). destruct Hh, Hm. split; congruence.
Qed.

Lemma keepsChain_gets {A} (f : World -> A) : keepsChain (gets f).
Proof. intros w. split; reflexivity. Qed.

Lemma keepsChain_now env : keepsChain (now env).
Proof. intros w. split; reflexivity. Qed.

Lemma keepsChain_freshId : keepsChain freshId.
Proof. intros w. split; reflexivity. Qed.

Lemma keepsChain_info msg : keepsChain (logger.info msg).
Proof. intros w. split; reflexivity. Qed.

Lemma keepsChain_warn msg : keepsChain (logger.warn msg).
Proof. intros w. split; reflexivity. Qed.

Lemma keepsChain_error msg : keepsChain (logger.error msg).
Proof. intros w. split; reflexivity. Qed.

Lemma keepsChain_outbox (f : World -> list Outbound) :
  keepsChain (modify (fun w => set_outbox (f w) w)).
Proof. intros w. split; reflexivity. Qed.

Lemma keepsChain_schedule_save doc : keepsChain (ScheduleModel.save doc).
Proof. intros w. split; reflexivity. Qed.

Lemma keepsChain_escalation_save doc : keepsChain (EscalationModel.save doc).
Proof. intros w. split; reflexivity. Qed.

Lemma keepsChain_deref {A} what (x : option A) : keepsChain (deref what x).
Proof. destruct x; intros w; split; reflexivity. Qed.

Create HintDb chain.
#[local] Hint Resolve keepsChain_ret keepsChain_throw keepsChain_gets
  keepsChain_now keepsChain_freshId keepsChain_info keepsChain_warn
  keepsChain_error keepsChain_outbox keepsChain_schedule_save
  keepsChain_escalation_save keepsChain_deref : chain.

(** Walks a computation built from the combinators of [M]. *)
Ltac chain_step :=
  match goal with
  | |- keepsChain (bind _ _) => apply keepsChain_bind; [| intros]
  | |- keepsChain (try_catch _ _) => apply keepsChain_try_catch; [| intros]
  | |- keepsChain (if ?b then _ else _) => destruct b
  | |- keepsChain (match ?x with _ => _ end) => destruct x
  | |- keepsChain _ => solve [auto with chain]
  end.

Lemma keepsChain_sendMessage env to text replies :
  keepsChain (WhatsAppService.sendMessage env to text replies).
Proof. unfold WhatsAppService.sendMessage. repeat chain_step. Qed.

Lemma keepsChain_sendVoiceNote env to url :
  keepsChain (WhatsAppService.sendVoiceNote env to url).
Proof. unfold WhatsAppService.sendVoiceNote. repeat chain_step. Qed.

Lemma keepsChain_generateAudio env text language :
  keepsChain (VoiceService.generateAudio env text language).
Proof. unfold VoiceService.generateAudio. repeat chain_step. Qed.

#[local] Hint Resolve keepsChain_sendMessage keepsChain_sendVoiceNote
  keepsChain_generateAudio : chain.

Lemma keepsChain_getTimeAgo env date :
  keepsChain (EscalationController.getTimeAgo env date).
Proof. unfold EscalationController.getTimeAgo. repeat chain_step. Qed.

#[local] Hint Resolve keepsChain_getTimeAgo : chain.

Lemma keepsChain_sendUrgentReminder env user medication schedule :
  keepsChain
    (EscalationController.sendUrgentReminder env user medication schedule).
Proof. unfold EscalationController.sendUrgentReminder. repeat chain_step. Qed.

#[local] Hint Resolve keepsChain_sendUrgentReminder : chain.

Lemma keepsChain_sendVoiceReminder env user medication schedule :
  keepsChain
    (EscalationController.sendVoiceReminder env user medication schedule).
Proof. unfold EscalationController.sendVoiceReminder. repeat chain_step. Qed.

#[local] Hint Resolve keepsChain_sendVoiceReminder : chain.

Lemma keepsChain_makeVoiceCall env user medication schedule :
  keepsChain (EscalationController.makeVoiceCall env user medication schedule).
Proof. unfold EscalationController.makeVoiceCall. repeat chain_step. Qed.

Lemma keepsChain_alertCaregiver env user medication schedule escalation :
  keepsChain
    (EscalationController.alertCaregiver env user medication schedule
       escalation).
Proof. unfold EscalationController.alertCaregiver. repeat chain_step. Qed.

Lemma keepsChain_alertClinic env user medication schedule escalation :
  keepsChain
    (EscalationController.alertClinic env user medication schedule escalation).
Proof. unfold EscalationController.alertClinic. repeat chain_step. Qed.

Lemma keepsChain_escalation_create userId medicationId scheduleId level type
  meta :
  keepsChain
    (EscalationModel.create userId medicationId scheduleId level type meta).
Proof.
  unfold EscalationModel.create. repeat chain_step.
Qed.

Lemma keepsChain_findById_populated scheduleId :
  keepsChain (findById_populated scheduleId).
Proof.
  unfold findById_populated, ScheduleModel.findById, UserModel.findById,
    MedicationModel.findById.
  repeat chain_step.
Qed.

#[local] Hint Resolve keepsChain_makeVoiceCall keepsChain_alertCaregiver
  keepsChain_alertClinic keepsChain_escalation_create
  keepsChain_findById_populated : chain.

(** As written, the escalation handler never enqueues an escalation job
    and never arms a timer, at any level and in any world. *)
Lemma handleEscalation_keepsChain env scheduleId level :
  keepsChain (EscalationController.handleEscalation env scheduleId level).
Proof.
  unfold EscalationController.handleEscalation.
  rewrite continuation_guard_false.
  repeat chain_step.
Qed.

(** C1 (evaluated at level 1 for an occurrence in status 'sent'). The
    handler acts on the level -- the urgent reminder is sent, the level-1
    record is created, the occurrence is stamped with level 1 -- and
    then schedules nothing: afterwards the escalation queue holds no job
    for level 2 and no timer is armed, where the specification expects a
    level-2 job with a 15 minute delay. *)
Theorem handleEscalation_level1_schedules_no_next_level :
  let env := Scenario.env Scenario.nineAM true None in
  let w := Scenario.world Scenario.alice [Scenario.occurrence "sent"] [] in
  let r := EscalationController.handleEscalation env 10%nat 1 w in
  fst r = Ok tt
  /\ w_outbox (snd r)
     = [WaMessage "whatsapp:+27820000001" (TUrgentReminder OverAnHourAgo)
          QRUrgent]
  /\ map (fun e => (e_level e, e_type e)) (w_escalations (snd r))
     = [(1, "urgent")]
  /\ map (fun s => es_level (s_escalation s)) (w_schedules (snd r)) = [1]
  /\ w_escalationJobs (snd r) = []
  /\ w_timers (snd r) = []
  /\ EscalationService.getEscalationDelay 2 = 15 * MINUTE.
Proof. vm_compute. repeat split. Qed.

(* ----------------------------------------------------------------- *)
(** ** Pausing a medication *)

(** Pausing turns exactly the pending occurrences of the medication into
    paused ones. *)
Lemma pauseMedicationSchedules_statuses medicationId w :
  exists n w',
    SchedulerService.pauseMedicationSchedules medicationId w = (Ok n, w')
    /\ Forall2
         (fun s s' =>
            if Nat.eqb (s_medicationId s) medicationId
               && String.eqb (s_status s) "pending"
            then s' = ScheduleModel.with_status "paused" s
            else s' = s)
         (w_schedules w) (w_schedules w')
    /\ w_reminderJobs w' = w_reminderJobs w.
Proof.
  unfold SchedulerService.pauseMedicationSchedules, try_catch,
    ScheduleModel.updateMany_status, ReminderQueue.removeByMedicationId,
    bind, gets, modify, logger.info, ret.
  do 2 eexists. split; [reflexivity |]. cbn.
  split; [| reflexivity].
  induction (w_schedules w) as [| s l IH]; cbn; constructor; [| exact IH].
  destruct (Nat.eqb (s_medicationId s) medicationId
            && String.eqb (s_status s) "pending"); reflexivity.
Qed.

(** A reminder job that fires for an occurrence that is not pending does
    nothing. *)
Lemma sendReminder_skips_non_pending env w scheduleId s :
  ScheduleModel.lookup scheduleId w = Some s ->
  s_status s <> "pending" ->
  ReminderController.sendReminder env scheduleId w = (Ok tt, w).
Proof.
  intros Hs Hst.
  unfold ReminderController.sendReminder, try_catch.
  unfold bind at 1.
  unfold findById_populated, ScheduleModel.findById, UserModel.findById,
    MedicationModel.findById.
  unfold bind at 1. unfold gets at 1. rewrite Hs.
  unfold bind at 1. unfold gets at 1.
  unfold bind at 1. unfold gets at 1. unfold ret at 1.
  apply String.eqb_neq in Hst. rewrite Hst. reflexivity.
Qed.

(** C6 (evaluated on a medication with one pending occurrence whose
    reminder job is queued). Pausing reports one modified occurrence and
    the occurrence is 'paused', but its reminder job is still in the
    reminder queue, in state delayed: [removeByMedicationId] only logs. *)
Theorem pauseMedicationSchedules_leaves_jobs_queued :
  let w := Scenario.world Scenario.alice [Scenario.occurrence "pending"]
             [Scenario.reminderJob] in
  let r := SchedulerService.pauseMedicationSchedules 2%nat w in
  fst r = Ok 1%nat
  /\ map s_status (w_schedules (snd r)) = ["paused"]
  /\ w_reminderJobs (snd r) = [Scenario.reminderJob]
  /\ job_state Scenario.reminderJob = Delayed
  /\ rd_scheduleId (job_data Scenario.reminderJob) = 10%nat.
Proof. vm_compute. repeat split. Qed.

(* ----------------------------------------------------------------- *)
(** ** The seven-day scenario *)

(** C7 (evaluated on [{daily, [08:00, 20:00], duration 7}] starting at
    midnight, called at 09:00 local on the start day). With the [User]
    binding resolved the expansion returns 15 occurrences, not 13: the
    walk visits days 0 to 7 inclusive, so the 20:00 slot of day 0 and
    both slots of days 1..7 are created.  In the module as shipped
    [User] is not imported and the call throws before creating
    anything. *)
Theorem createSchedules_seven_day_scenario :
  let w := Scenario.world Scenario.alice [] [] in
  (exists l w',
      SchedulerService.createSchedules
        (Scenario.env Scenario.nineAM true None) Scenario.twiceDaily w
      = (Ok l, w')
      /\ List.length l = 15%nat
      /\ dueHours l = [20; 32; 44; 56; 68; 80; 92; 104; 116; 128; 140; 152;
                       164; 176; 188]
      /\ w_schedules w' = l
      /\ List.length (w_reminderJobs w') = 15%nat)
  /\ (exists w',
        SchedulerService.createSchedules
          (Scenario.env Scenario.nineAM false None) Scenario.twiceDaily w
        = (Throw (ReferenceError "User"), w')
        /\ w_schedules w' = []
        /\ w_reminderJobs w' = []).
Proof.
  split.
  - do 2 eexists. split; [vm_compute; reflexivity |].
    vm_compute. repeat split.
  - eexists. split; [vm_compute; reflexivity |].
    vm_compute. repeat split.
Qed.

(* ----------------------------------------------------------------- *)
(** ** Level 3 *)

(** The guard [!process.env.ENABLE_VOICE_CALLS === 'true'] compares a
    boolean with a string: it is false whatever the variable holds. *)
Lemma voiceCallsDisabled_never env :
  EscalationController.voiceCallsDisabled env = false.
Proof. reflexivity. Qed.

(** When the call cannot be placed, level 3 falls back to the level-2
    behaviour. *)
Lemma makeVoiceCall_falls_back env w user medication schedule :
  env_TWILIO_WHATSAPP_NUMBER env = None
  \/ (forall args, env_callsCreate env args = None) ->
  EscalationController.makeVoiceCall env user medication schedule w
  = EscalationController.sendVoiceReminder env user medication schedule
      (logEntry LError "Voice call failed:"
         (set_ticks (S (w_ticks w)) w)).
Proof.
  intros Hfail.
  unfold EscalationController.makeVoiceCall.
  rewrite voiceCallsDisabled_never.
  unfold try_catch. unfold bind at 1.
  unfold EscalationController.getTimeAgo.
  unfold bind at 1. unfold now at 1.
  assert (Hret : forall (A : Type) (b1 b2 : bool) (x y z : A) (w0 : World),
             (if b1 then ret x else if b2 then ret y else ret z) w0
             = (Ok (if b1 then x else if b2 then y else z), w0)).
  { intros A b1 b2 x y z w0. destruct b1, b2; reflexivity. }
  rewrite Hret.
  destruct Hfail as [Hnum | Hcall].
  - rewrite Hnum. reflexivity.
  - destruct (env_TWILIO_WHATSAPP_NUMBER env) as [number |].
    + unfold bind at 1. unfold deref, ret at 1. rewrite Hcall. reflexivity.
    + reflexivity.
Qed.

(** C8 (evaluated at level 3 with voice calling switched off, i.e.
    ENABLE_VOICE_CALLS unset or 'false'). The voice call is placed all the
    same and the level-2 voice reminder is not sent. *)
Theorem handleEscalation_level3_calls_when_disabled :
  let w := Scenario.world Scenario.alice [Scenario.occurrence "sent"] [] in
  (let r := EscalationController.handleEscalation
              (Scenario.env Scenario.nineAM true None) 10%nat 3 w in
   fst r = Ok tt
   /\ w_outbox (snd r) = [VoiceCall "+27820000001" "+14155238886" "en-US"])
  /\
  (let r := EscalationController.handleEscalation
              (Scenario.env Scenario.nineAM true (Some "false")) 10%nat 3 w in
   fst r = Ok tt
   /\ w_outbox (snd r) = [VoiceCall "+27820000001" "+14155238886" "en-US"]).
Proof. vm_compute. repeat split. Qed.

(* ----------------------------------------------------------------- *)
(** ** Escalation records *)

Lemma getEscalationType_table :
  EscalationController.getEscalationType 1 = "urgent"
  /\ EscalationController.getEscalationType 2 = "voice_reminder"
  /\ EscalationController.getEscalationType 3 = "voice_call"
  /\ EscalationController.getEscalationType 4 = "caregiver"
  /\ EscalationController.getEscalationType 5 = "clinic".
Proof. repeat split. Qed.

(** The schema accepts the computed type of every level but level 2. *)
Lemma escalation_types_against_schema :
  map (fun level =>
         inEnum escalationTypeEnum
           (EscalationController.getEscalationType level))
      [1; 2; 3; 4; 5]
  = [true; false; true; true; true].
Proof. reflexivity. Qed.

(** For any occurrence in status 'sent' whose references resolve, the
    level-2 handler is rejected by the schema before it acts. *)
Lemma handleEscalation_level2_rejected env w scheduleId s user medication :
  ScheduleModel.lookup scheduleId w = Some s ->
  s_status s = "sent" ->
  UserModel.lookup (s_userId s) w = Some user ->
  MedicationModel.lookup (s_medicationId s) w = Some medication ->
  EscalationController.handleEscalation env scheduleId 2 w
  = (Throw (ValidationError "type"), logEntry LError "Escalation error:" w).
Proof.
  intros Hs Hst Hu Hm.
  unfold EscalationController.handleEscalation, try_catch.
  unfold bind at 1.
  unfold findById_populated, ScheduleModel.findById, UserModel.findById,
    MedicationModel.findById.
  unfold bind at 1. unfold gets at 1. rewrite Hs.
  unfold bind at 1. unfold gets at 1. rewrite Hu.
  unfold bind at 1. unfold gets at 1. rewrite Hm. unfold ret at 1.
  rewrite Hst, String.eqb_refl. cbn [negb].
  unfold bind at 1. unfold deref at 1. unfold ret at 1.
  unfold bind at 1. unfold deref at 1. unfold ret at 1.
  unfold bind at 1.
  reflexivity.
Qed.

(** C9 (evaluated at level 2 for an occurrence in status 'sent'). The
    computed type 'voice_reminder' is not in the schema's enum:
    [Escalation.create] is rejected, the handler throws, no escalation
    record exists afterwards and nothing was sent. *)
Theorem handleEscalation_level2_creates_no_record :
  let env := Scenario.env Scenario.nineAM true None in
  let w := Scenario.world Scenario.alice [Scenario.occurrence "sent"] [] in
  let r := EscalationController.handleEscalation env 10%nat 2 w in
  EscalationController.getEscalationType 2 = "voice_reminder"
  /\ inEnum escalationTypeEnum "voice_reminder" = false
  /\ fst r = Throw (ValidationError "type")
  /\ w_escalations (snd r) = []
  /\ w_outbox (snd r) = []
  /\ map (fun s => es_level (s_escalation s)) (w_schedules (snd r)) = [0].
Proof. vm_compute. repeat split. Qed.

(* ================================================================= *)
(** * Further properties of the code *)

(** ** Running the monad *)

Lemma bind_ok {A B} (m : M A) (k : A -> M B) (w w' : World) (a : A) :
  m w = (Ok a, w') -> bind m k w = k a w'.
Proof. intros H. unfold bind. rewrite H. reflexivity. Qed.

Lemma bind_throw {A B} (m : M A) (k : A -> M B) (w w' : World) (e : Error) :
  m w = (Throw e, w') -> bind m k w = (Throw e, w').
Proof. intros H. unfold bind. rewrite H. reflexivity. Qed.

Lemma try_catch_ok {A} (m : M A) (h : Error -> M A) (w w' : World) (a : A) :
  m w = (Ok a, w') -> try_catch m h w = (Ok a, w').
Proof. intros H. unfold try_catch. rewrite H. reflexivity. Qed.

Lemma try_catch_throw {A} (m : M A) (h : Error -> M A) (w w' : World)
  (e : Error) :
  m w = (Throw e, w') -> try_catch m h w = h e w'.
Proof. intros H. unfold try_catch. rewrite H. reflexivity. Qed.

Lemma findById_populated_run (scheduleId : ObjectId) (w : World) :
  findById_populated scheduleId w
  = (Ok match ScheduleModel.lookup scheduleId w with
        | Some s =>
            Some (s, UserModel.lookup (s_userId s) w,
                  MedicationModel.lookup (s_medicationId s) w)
        | None => None
        end, w).
Proof.
  unfold findById_populated, ScheduleModel.findById, UserModel.findById,
    MedicationModel.findById, bind, gets, ret.
  destruct (ScheduleModel.lookup scheduleId w); reflexivity.
Qed.

(** ** Queues *)

(** X1. A reminder whose due time is not before the current
    time is accepted: exactly one job is appended to the reminder queue,
    carrying the occurrence id, the snooze flag and the due time, with
    delay [due - now]; it is delayed when that delay is positive and
    waiting when the reminder is due at this very instant.  Nothing but
    the queue, the clock and the log changes. *)
Theorem addReminder_accepts_due :
  forall (env : Env) (w : World) (scheduleId : ObjectId)
         (scheduledTime : Date) (isSnoozed : bool),
    env_clock env (w_ticks w) <= scheduledTime ->
    exists job w',
      ReminderQueue.addReminder env scheduleId scheduledTime isSnoozed w
      = (Ok (Some job), w')
      /\ w_reminderJobs w' = (w_reminderJobs w ++ [job])%list
      /\ job_data job = {| rd_scheduleId := scheduleId;
                           rd_isSnoozed := isSnoozed;
                           rd_scheduledTime := scheduledTime |}
      /\ job_delay job = scheduledTime - env_clock env (w_ticks w)
      /\ (job_state job = Waiting <-> scheduledTime = env_clock env (w_ticks w))
      /\ notYetFired job
      /\ w_schedules w' = w_schedules w
      /\ w_escalationJobs w' = w_escalationJobs w
      /\ w_outbox w' = w_outbox w.
Proof.
  intros env w scheduleId scheduledTime isSnoozed Hdue.
  unfold ReminderQueue.addReminder, bind, now, Bull_add, logger.info,
    modify, ret.
  assert (Hneg : (scheduledTime - env_clock env (w_ticks w) <? 0) = false)
    by (apply Z.ltb_ge; lia).
  rewrite Hneg.
  do 2 eexists. split; [reflexivity |].
  cbn [w_reminderJobs w_schedules w_escalationJobs w_outbox set_ticks
       set_reminderJobs logEntry set_log job_data job_delay job_state
       w_ticks].
  repeat split.
  - destruct (0 <? scheduledTime - env_clock env (w_ticks w)) eqn:Hpos.
    + discriminate.
    + intros _. apply Z.ltb_ge in Hpos. lia.
  - intros Heq.
    assert (Hpos : (0 <? scheduledTime - env_clock env (w_ticks w)) = false)
      by (apply Z.ltb_ge; lia).
    rewrite Hpos. reflexivity.
  - unfold notYetFired. cbn.
    destruct (0 <? scheduledTime - env_clock env (w_ticks w)); auto.
Qed.

Lemma addReminder_accepts_due_witness :
  Scenario.nineAM <= Scenario.nineAM
  /\ exists job w',
      ReminderQueue.addReminder (Scenario.env Scenario.nineAM true None)
        10%nat Scenario.nineAM true (Scenario.world Scenario.alice [] [])
      = (Ok (Some job), w')
      /\ w_reminderJobs w' = [job]
      /\ job_delay job = 0.
Proof.
  assert (Hdue : Scenario.nineAM <= Scenario.nineAM) by lia.
  split; [exact Hdue |].
  destruct (addReminder_accepts_due (Scenario.env Scenario.nineAM true None)
              (Scenario.world Scenario.alice [] []) 10%nat Scenario.nineAM
              true Hdue)
    as (job & w' & Hrun & Hq & _ & Hd & _).
  exists job, w'. split; [exact Hrun |]. split; [exact Hq |].
  rewrite Hd. apply Z.sub_diag.
Defined.







Lemma count_states {D : Type} (q : list (Job D)) :
  (ReminderQueueStats.countIn Waiting q + ReminderQueueStats.countIn Active q
   + ReminderQueueStats.countIn Delayed q
   + ReminderQueueStats.countIn Completed q
   + ReminderQueueStats.countIn Failed q)%nat = List.length q.
Proof.
  unfold ReminderQueueStats.countIn, Bull_getJobs.
  induction q as [| j q IH]; [reflexivity |].
  cbn [filter existsb List.length].
  destruct (job_state j); cbn in *; lia.
Qed.

Lemma count_app {D : Type} (st : JobState) (q1 q2 : list (Job D)) :
  ReminderQueueStats.countIn st (q1 ++ q2)
  = (ReminderQueueStats.countIn st q1 + ReminderQueueStats.countIn st q2)%nat.
Proof.
  unfold ReminderQueueStats.countIn, Bull_getJobs.
  rewrite filter_app, length_app. reflexivity.
Qed.

(** X3. The statistics read the queue without changing
    anything; every job is counted in exactly one of the five states, so
    [total] (waiting + active + delayed) is the number of jobs that are
    neither completed nor failed; and accepting one more reminder raises
    [total] by exactly one. *)
Theorem getQueueStats_counts :
  forall (env : Env) (w : World),
    exists stats,
      ReminderQueueStats.getQueueStats w = (Ok stats, w)
      /\ (qs_total stats + qs_completed stats + qs_failed stats)%nat
         = List.length (w_reminderJobs w)
      /\ qs_total stats
         = List.length
             (filter (fun j =>
                        negb (JobState_eqb (job_state j) Completed
                              || JobState_eqb (job_state j) Failed))
                     (w_reminderJobs w))
      /\ (forall scheduleId scheduledTime isSnoozed job w',
             ReminderQueue.addReminder env scheduleId scheduledTime
               isSnoozed w = (Ok (Some job), w') ->
             exists stats',
               ReminderQueueStats.getQueueStats w' = (Ok stats', w')
               /\ qs_total stats' = S (qs_total stats)).
Proof.
  intros env w.
  unfold ReminderQueueStats.getQueueStats, bind, gets, ret.
  eexists. split; [reflexivity |].
  cbn [qs_total qs_completed qs_failed].
  split; [| split].
  - pose proof (count_states (w_reminderJobs w)). lia.
  - unfold ReminderQueueStats.countIn, Bull_getJobs.
    induction (w_reminderJobs w) as [| j q IH]; [reflexivity |].
    cbn [filter existsb List.length].
    destruct (job_state j); cbn in *; lia.
  - intros scheduleId scheduledTime isSnoozed job w' Hadd.
    eexists. split; [reflexivity |].
    cbn [qs_total].
    unfold ReminderQueue.addReminder, bind, now, Bull_add, logger.info,
      logger.warn, modify, ret in Hadd.
    destruct (scheduledTime - env_clock env (w_ticks w) <? 0);
      [discriminate |].
    inversion Hadd; subst; clear Hadd.
    cbn [w_reminderJobs set_reminderJobs logEntry set_log set_ticks].
    rewrite !count_app.
    unfold ReminderQueueStats.countIn at 2 4 6. unfold Bull_getJobs.
    cbn [filter existsb job_state].
    destruct (0 <? scheduledTime - env_clock env (w_ticks w)); cbn; lia.
Qed.

(** ** Escalation scheduling *)



(** ** Wording of elapsed time *)

(** X5. The elapsed time since the due date is worded in whole
    minutes below one hour (a due date still in the future gives a
    negative count), as "over an hour" from 60 to 119 minutes, and in
    whole hours, at least two, from then on. *)
Theorem getTimeAgo_wording :
  forall (env : Env) (w : World) (date : Date),
    let elapsed := env_clock env (w_ticks w) - date in
    exists r,
      EscalationController.getTimeAgo env date w
      = (Ok r, set_ticks (S (w_ticks w)) w)
      /\ match r with
         | MinutesAgo n =>
             n < 60 /\ n * MINUTE <= elapsed < (n + 1) * MINUTE
         | OverAnHourAgo => 60 * MINUTE <= elapsed < 120 * MINUTE
         | HoursAgo h =>
             2 <= h /\ h * HOUR <= elapsed < (h + 1) * HOUR
         end.
Proof.
  intros env w date elapsed.
  unfold EscalationController.getTimeAgo, bind, now.
  fold elapsed.
  pose proof (Z.div_mod elapsed 60000 ltac:(lia)) as Hdm.
  pose proof (Z.mod_pos_bound elapsed 60000 ltac:(lia)) as Hmb.
  destruct (elapsed / 60000 <? 60) eqn:H60.
  - eexists. split; [reflexivity |].
    apply Z.ltb_lt in H60. unfold MINUTE. lia.
  - apply Z.ltb_ge in H60.
    destruct (elapsed / 60000 <? 120) eqn:H120.
    + eexists. split; [reflexivity |].
      apply Z.ltb_lt in H120. unfold MINUTE. lia.
    + apply Z.ltb_ge in H120.
      eexists. split; [reflexivity |].
      pose proof (Z.div_mod (elapsed / 60000) 60 ltac:(lia)) as Hdm2.
      pose proof (Z.mod_pos_bound (elapsed / 60000) 60 ltac:(lia)) as Hmb2.
      unfold HOUR. lia.
Qed.

(** ** Quiet hours *)

(** X6. With quiet hours switched off the answer is no and
    the clock is not even read.  With quiet hours on and well-formed
    bounds, the answer is yes exactly when the local hour lies in the
    window from [start] (inclusive) to [end] (exclusive), a window whose
    start is after its end wrapping past midnight; in particular equal
    bounds make an empty window. *)
Theorem isQuietHours_window :
  forall (env : Env) (w : World) (user : User) (start end_ : Z),
    ReminderController.parseHour (qh_start (us_quietHours (u_settings user)))
    = Some start ->
    ReminderController.parseHour (qh_end (us_quietHours (u_settings user)))
    = Some end_ ->
    let hour :=
      DateLocal.getHours (env_tzOffset env) (env_clock env (w_ticks w)) in
    exists b w',
      ReminderController.isQuietHours env user w = (Ok b, w')
      /\ untouched w w'
      /\ (qh_enabled (us_quietHours (u_settings user)) = false -> w' = w)
      /\ (b = true <->
          qh_enabled (us_quietHours (u_settings user)) = true
          /\ insideQuietWindow start end_ hour)
      /\ (start = end_ -> b = false).
Proof.
  intros env w user start end_ Hs He hour.
  unfold ReminderController.isQuietHours.
  destruct (qh_enabled (us_quietHours (u_settings user))) eqn:Hen;
    cbn [negb].
  - rewrite Hs, He.
    unfold bind, now, ret, ReminderController.num_ge,
      ReminderController.num_le, ReminderController.num_lt.
    fold hour. unfold insideQuietWindow.
    destruct (Z.leb_spec start end_) as [Hle | Hgt].
    + exists ((start <=? hour) && (hour <? end_)),
             (set_ticks (S (w_ticks w)) w).
      split; [reflexivity |]. split; [repeat split |].
      split; [discriminate |].
      split.
      * rewrite andb_true_iff, Z.leb_le, Z.ltb_lt.
        split; [intros [H1 H2]; split; [reflexivity | left; lia] |].
        intros [_ [[_ H] | [H _]]]; lia.
      * intros Heq. subst end_. apply andb_false_iff.
        destruct (Z.leb_spec start hour); [right; apply Z.ltb_ge; lia |].
        left; reflexivity.
    + exists ((start <=? hour) || (hour <? end_)),
             (set_ticks (S (w_ticks w)) w).
      split; [reflexivity |]. split; [repeat split |].
      split; [discriminate |].
      split.
      * rewrite orb_true_iff, Z.leb_le, Z.ltb_lt.
        split; [intros H; split; [reflexivity | right; lia] |].
        intros [_ [[H _] | [_ H]]]; lia.
      * intros Heq. lia.
  - exists false, w. split; [reflexivity |].
    split; [repeat split |]. split; [reflexivity |].
    split.
    + split; [discriminate | intros [H _]; discriminate].
    + reflexivity.
Qed.

Lemma isQuietHours_window_witness :
  ReminderController.parseHour "22:00" = Some 22
  /\ ReminderController.parseHour "07:00" = Some 7
  /\ exists b w',
      ReminderController.isQuietHours
        (Scenario.env Scenario.nineAM true None) Scenario.aliceQuiet
        (Scenario.world Scenario.aliceQuiet [] []) = (Ok b, w')
      /\ (b = true <-> true = true /\ insideQuietWindow 22 7 9).
Proof.
  split; [reflexivity |]. split; [reflexivity |].
  destruct (isQuietHours_window (Scenario.env Scenario.nineAM true None)
              (Scenario.world Scenario.aliceQuiet [] []) Scenario.aliceQuiet
              22 7 eq_refl eq_refl)
    as (b & w' & Hrun & _ & _ & Hiff & _).
  exists b, w'. split; [exact Hrun | exact Hiff].
Defined.

(** ** Outbound messages *)

Lemma strip_prefix_app (pat : string) :
  forall s rest, JS.strip_prefix pat s = Some rest -> s = pat ++ rest.
Proof.
  induction pat as [| p pat IH]; intros s rest H.
  - destruct s; cbn in H; inversion H; reflexivity.
  - destruct s as [| c s]; [discriminate |].
    cbn [JS.strip_prefix] in H.
    destruct (Ascii.eqb p c) eqn:Hc; [| discriminate].
    apply Ascii.eqb_eq in Hc. subst c.
    cbn. f_equal. apply IH. exact H.
Qed.

Lemma address_prefixed (to : string) :
  JS.strip_prefix "whatsapp:" (WhatsAppService.address to) <> None.
Proof.
  unfold WhatsAppService.address.
  destruct (JS.strip_prefix "whatsapp:" to) eqn:H.
  - rewrite H. discriminate.
  - cbn. discriminate.
Qed.

(** X7. A WhatsApp message is always addressed with the
    [whatsapp:] prefix, which is added when missing and never doubled.
    When the transport accepts the message it is the one message added
    to the outbox; when the transport fails the error is logged and
    rethrown and nothing is recorded as sent. *)
Theorem sendMessage_outcome :
  forall (env : Env) (w : World) (to : string) (text : Template)
         (replies : QuickReplies),
    let msg := WaMessage (WhatsAppService.address to) text replies in
    WhatsAppService.address (WhatsAppService.address to)
    = WhatsAppService.address to
    /\ (exists rest, WhatsAppService.address to = "whatsapp:" ++ rest)
    /\ (env_messagesCreate env msg = true ->
        exists w',
          WhatsAppService.sendMessage env to text replies w = (Ok tt, w')
          /\ w_outbox w' = (w_outbox w ++ [msg])%list
          /\ w_schedules w' = w_schedules w)
    /\ (env_messagesCreate env msg = false ->
        exists w',
          WhatsAppService.sendMessage env to text replies w
          = (Throw (TransportError "messages.create"), w')
          /\ untouched w w'
          /\ logged LError "Failed to send WhatsApp message:" w w').
Proof.
  intros env w to text replies msg.
  split; [| split; [| split]].
  - pose proof (address_prefixed to) as Hp.
    unfold WhatsAppService.address at 1.
    destruct (JS.strip_prefix "whatsapp:" (WhatsAppService.address to));
      [reflexivity | contradiction].
  - unfold WhatsAppService.address.
    destruct (JS.strip_prefix "whatsapp:" to) as [rest |] eqn:H.
    + exists rest. apply strip_prefix_app. exact H.
    + exists to. reflexivity.
  - intros Hok. unfold WhatsAppService.sendMessage. fold msg. rewrite Hok.
    unfold bind, modify, logger.info.
    eexists. split; [reflexivity |]. split; reflexivity.
  - intros Hko. unfold WhatsAppService.sendMessage. fold msg. rewrite Hko.
    unfold bind, logger.error, modify, throw.
    eexists. split; [reflexivity |]. split; [repeat split | reflexivity].
Qed.

Lemma sendOne_run env text replies r w :
  exists w',
    WhatsAppBulk.sendOne env r text replies w
    = (Ok (env_messagesCreate env
             (WaMessage (WhatsAppService.address r) text replies), r), w')
    /\ w_outbox w'
       = (w_outbox w
          ++ filter (env_messagesCreate env)
               [WaMessage (WhatsAppService.address r) text replies])%list
    /\ w_schedules w' = w_schedules w
    /\ w_escalationJobs w' = w_escalationJobs w
    /\ w_reminderJobs w' = w_reminderJobs w.
Proof.
  unfold WhatsAppBulk.sendOne, try_catch, WhatsAppService.sendMessage.
  cbn [filter].
  destruct (env_messagesCreate env
              (WaMessage (WhatsAppService.address r) text replies)).
  - unfold bind, modify, logger.info, ret.
    eexists. split; [reflexivity |]. repeat split.
  - unfold bind, throw, logger.error, modify, ret.
    eexists. split; [reflexivity |]. cbn. rewrite app_nil_r. repeat split.
Qed.

Lemma bulkLoop_spec env text replies :
  forall recipients results w,
    exists w',
      WhatsAppBulk.bulkLoop env recipients text replies results w
      = (Ok (results
             ++ map (fun r =>
                       (env_messagesCreate env
                          (WaMessage (WhatsAppService.address r) text replies),
                        r)) recipients)%list, w')
      /\ w_outbox w'
         = (w_outbox w
            ++ filter (env_messagesCreate env)
                 (map (fun r =>
                         WaMessage (WhatsAppService.address r) text replies)
                      recipients))%list
      /\ w_schedules w' = w_schedules w
      /\ w_escalationJobs w' = w_escalationJobs w
      /\ w_reminderJobs w' = w_reminderJobs w.
Proof.
  induction recipients as [| r rest IH]; intros results w.
  - exists w. cbn. rewrite !app_nil_r. repeat split.
  - cbn [WhatsAppBulk.bulkLoop map].
    destruct (sendOne_run env text replies r w)
      as (w1 & Hrun1 & Ho1 & Hs1 & He1 & Hr1).
    rewrite (bind_ok _ _ _ _ _ Hrun1).
    destruct (IH (results
                  ++ [(env_messagesCreate env
                         (WaMessage (WhatsAppService.address r) text replies),
                       r)])%list w1)
      as (w' & Hrun & Ho & Hs & He & Hr).
    exists w'. rewrite Hrun. rewrite <- app_assoc. cbn [app].
    split; [reflexivity |].
    rewrite Ho, Ho1, Hs, Hs1, He, He1, Hr, Hr1.
    rewrite <- app_assoc.
    change (WaMessage (WhatsAppService.address r) text replies
            :: map (fun r0 => WaMessage (WhatsAppService.address r0) text
                                replies) rest)
      with ([WaMessage (WhatsAppService.address r) text replies]
            ++ map (fun r0 => WaMessage (WhatsAppService.address r0) text
                                replies) rest)%list.
    rewrite filter_app. repeat split.
Qed.

(** X8. Bulk sending never throws: it returns one result
    per recipient, in order, whose success flag is the transport's answer
    for that recipient, and the outbox gains exactly the messages that
    were accepted; a failure for one recipient does not stop the
    following ones. *)
Theorem sendBulkMessages_reports_each :
  forall (env : Env) (w : World) (recipients : list string)
         (text : Template) (replies : QuickReplies),
    exists results w',
      WhatsAppBulk.sendBulkMessages env recipients text replies w
      = (Ok results, w')
      /\ map snd results = recipients
      /\ map fst results
         = map (fun r =>
                  env_messagesCreate env
                    (WaMessage (WhatsAppService.address r) text replies))
               recipients
      /\ w_outbox w'
         = (w_outbox w
            ++ filter (env_messagesCreate env)
                 (map (fun r =>
                         WaMessage (WhatsAppService.address r) text replies)
                      recipients))%list.
Proof.
  intros env w recipients text replies.
  unfold WhatsAppBulk.sendBulkMessages.
  destruct (bulkLoop_spec env text replies recipients [] w)
    as (w' & Hrun & Ho & _).
  eexists. exists w'. split; [exact Hrun |].
  cbn [app]. rewrite !map_map. cbn [fst snd].
  split; [apply map_id |]. split; [reflexivity | exact Ho].
Qed.

(** ** Documents saved back to the collection *)

Lemma lookup_after_save (doc : Schedule) (l : list Schedule) :
  find (fun s => Nat.eqb (s_id s) (s_id doc)) l <> None ->
  find (fun s => Nat.eqb (s_id s) (s_id doc))
       (map (fun s => if Nat.eqb (s_id s) (s_id doc) then doc else s) l)
  = Some doc.
Proof.
  induction l as [| x l IH]; cbn; [intros H; contradiction |].
  destruct (Nat.eqb (s_id x) (s_id doc)) eqn:Hx.
  - intros _. rewrite Nat.eqb_refl. reflexivity.
  - intros H. rewrite Hx. apply IH. exact H.
Qed.

Lemma lookup_other_after_save (doc : Schedule) (i : ObjectId)
  (l : list Schedule) :
  i <> s_id doc ->
  find (fun s => Nat.eqb (s_id s) i)
       (map (fun s => if Nat.eqb (s_id s) (s_id doc) then doc else s) l)
  = find (fun s => Nat.eqb (s_id s) i) l.
Proof.
  intros Hi.
  induction l as [| x l IH]; cbn; [reflexivity |].
  destruct (Nat.eqb (s_id x) (s_id doc)) eqn:Hx.
  - apply Nat.eqb_eq in Hx.
    assert (H1 : Nat.eqb (s_id doc) i = false)
      by (apply Nat.eqb_neq; congruence).
    assert (H2 : Nat.eqb (s_id x) i = false)
      by (apply Nat.eqb_neq; congruence).
    rewrite H1, H2. exact IH.
  - destruct (Nat.eqb (s_id x) i); [reflexivity | exact IH].
Qed.

Lemma lookup_id (i : ObjectId) (w : World) (s : Schedule) :
  ScheduleModel.lookup i w = Some s -> s_id s = i.
Proof.
  unfold ScheduleModel.lookup. intros H.
  apply find_some in H. destruct H as [_ H].
  apply Nat.eqb_eq. exact H.
Qed.

Lemma find_saved (l : list Schedule) (i : ObjectId) (schedule doc : Schedule) :
  find (fun s => Nat.eqb (s_id s) i) l = Some schedule ->
  s_id doc = s_id schedule ->
  find (fun s => Nat.eqb (s_id s) i)
       (map (fun s => if Nat.eqb (s_id s) (s_id doc) then doc else s) l)
  = Some doc.
Proof.
  intros Hs Hid.
  assert (Hi : s_id schedule = i).
  { apply find_some in Hs. destruct Hs as [_ H]. apply Nat.eqb_eq. exact H. }
  rewrite <- Hi, <- Hid.
  apply lookup_after_save.
  rewrite Hid, Hi, Hs. discriminate.
Qed.

Lemma lookup_saved (w : World) (i : ObjectId) (schedule doc : Schedule) :
  ScheduleModel.lookup i w = Some schedule ->
  s_id doc = s_id schedule ->
  find (fun s => Nat.eqb (s_id s) i)
       (map (fun s => if Nat.eqb (s_id s) (s_id doc) then doc else s)
            (w_schedules w))
  = Some doc.
Proof.
  intros Hs Hid.
  pose proof (lookup_id _ _ _ Hs) as Hi.
  rewrite <- Hi, <- Hid.
  apply lookup_after_save.
  rewrite Hid, Hi. unfold ScheduleModel.lookup in Hs. rewrite Hs.
  discriminate.
Qed.

(** ** Sending a reminder *)

(** X9. A reminder job that fires for an occurrence
    that no longer exists, or whose status is anything but 'pending'
    (already sent, snoozed, paused, taken, ...), does nothing at all: no
    message, no write, no log line, and the job completes normally. *)
Theorem sendReminder_ignores_inactive :
  forall (env : Env) (w : World) (scheduleId : ObjectId),
    (ScheduleModel.lookup scheduleId w = None
     \/ exists s, ScheduleModel.lookup scheduleId w = Some s
                  /\ s_status s <> "pending") ->
    ReminderController.sendReminder env scheduleId w = (Ok tt, w).
Proof.
  intros env w scheduleId Hin.
  unfold ReminderController.sendReminder.
  apply try_catch_ok.
  rewrite (bind_ok _ _ _ _ _ (findById_populated_run scheduleId w)).
  destruct Hin as [Hnone | [s [Hs Hst]]].
  - rewrite Hnone. reflexivity.
  - rewrite Hs. apply String.eqb_neq in Hst. rewrite Hst. reflexivity.
Qed.

Lemma sendReminder_ignores_inactive_witness :
  (ScheduleModel.lookup 10%nat
     (Scenario.world Scenario.alice [Scenario.occurrence "snoozed"] [])
   = None
   \/ exists s,
       ScheduleModel.lookup 10%nat
         (Scenario.world Scenario.alice [Scenario.occurrence "snoozed"] [])
       = Some s /\ s_status s <> "pending")
  /\ ReminderController.sendReminder
       (Scenario.env Scenario.nineAM true None) 10%nat
       (Scenario.world Scenario.alice [Scenario.occurrence "snoozed"] [])
     = (Ok tt,
        Scenario.world Scenario.alice [Scenario.occurrence "snoozed"] []).
Proof.
  assert (H : ScheduleModel.lookup 10%nat
     (Scenario.world Scenario.alice [Scenario.occurrence "snoozed"] [])
   = None
   \/ exists s,
       ScheduleModel.lookup 10%nat
         (Scenario.world Scenario.alice [Scenario.occurrence "snoozed"] [])
       = Some s /\ s_status s <> "pending").
  { right. exists (Scenario.occurrence "snoozed").
    split; [reflexivity | discriminate]. }
  split; [exact H |].
  apply (sendReminder_ignores_inactive
           (Scenario.env Scenario.nineAM true None) _ 10%nat H).
Defined.


Lemma sendReminder_text_run env w scheduleId schedule user medication :
  textReminderDue w scheduleId schedule user medication ->
  env_messagesCreate env (textReminder schedule user medication) = true ->
  exists w',
    ReminderController.sendReminder env scheduleId w = (Ok tt, w')
    /\ w_outbox w'
       = (w_outbox w ++ [textReminder schedule user medication])%list
    /\ w_schedules w'
       = map (fun s => if Nat.eqb (s_id s) (s_id schedule)
                       then sentAt (env_clock env (w_ticks w)) schedule
                       else s) (w_schedules w)
    /\ w_escalationJobs w'
       = (w_escalationJobs w
          ++ if us_escalationEnabled (u_settings user)
             then [{| job_name := "process-escalation";
                      job_data :=
                        {| ed_scheduleId := scheduleId; ed_level := 1;
                           ed_scheduledFor :=
                             env_clock env (S (w_ticks w)) + 30 * MINUTE |};
                      job_delay :=
                        env_clock env (S (w_ticks w)) + 30 * MINUTE
                        - env_clock env (S (S (w_ticks w)));
                      job_id :=
                        {| jid_kind := "escalation";
                           jid_scheduleId := scheduleId;
                           jid_level := Some 1;
                           jid_stamp :=
                             env_clock env (S (S (S (w_ticks w)))) |};
                      job_state :=
                        if 0 <? env_clock env (S (w_ticks w)) + 30 * MINUTE
                                - env_clock env (S (S (w_ticks w)))
                        then Delayed else Waiting |}]
             else [])%list
    /\ w_reminderJobs w' = w_reminderJobs w
    /\ w_escalations w' = w_escalations w
    /\ w_timers w' = w_timers w
    /\ w_users w' = w_users w
    /\ w_medications w' = w_medications w.
Proof.
  intros (Hs & Hst & Hu & Hm & Hq & Hv) Hok.
  unfold ReminderController.sendReminder, try_catch.
  rewrite (bind_ok _ _ _ _ _ (findById_populated_run scheduleId w)).
  rewrite Hs, Hu, Hm, Hst, String.eqb_refl. cbn [negb].
  unfold bind at 1. unfold deref at 1. unfold ret at 1.
  unfold bind at 1. unfold ReminderController.isQuietHours.
  rewrite Hq. cbn [negb]. unfold ret at 1.
  unfold bind at 1. unfold deref at 1. unfold ret at 1.
  unfold bind at 1. rewrite Hv. unfold ret at 1.
  unfold bind at 1.
  unfold ReminderController.sendTextReminder, WhatsAppService.sendMessage,
    ReminderController.buildReminderMessage.
  unfold textReminder in Hok. rewrite Hok.
  unfold bind at 1 2. unfold modify at 1. unfold logger.info at 1.
  unfold modify at 1.
  unfold bind at 1. unfold now at 1.
  unfold bind at 1. unfold ScheduleModel.save at 1. unfold modify at 1.
  unfold bind at 1.
  destruct (us_escalationEnabled (u_settings user)).
  - unfold EscalationService.scheduleEscalation, try_catch,
      EscalationQueue.addEscalation, bind, now, Bull_add, logger.info,
      modify, ret.
    eexists. split; [reflexivity |].
    cbn. repeat split.
  - unfold ret at 1, logger.info, modify.
    eexists. split; [reflexivity |].
    cbn. rewrite app_nil_r. repeat split.
Qed.

(** X10. For a pending occurrence outside quiet hours,
    on the text path and with a working transport, the reminder is sent
    to the subject, the occurrence becomes 'sent' and records one
    'initial' reminder entry stamped with the send time, and -- exactly
    when the subject has escalation enabled -- one level-1 escalation job
    is enqueued to fire 30 minutes later.  No reminder job is added. *)
Theorem sendReminder_marks_sent :
  forall (env : Env) (w : World) (scheduleId : ObjectId)
         (schedule : Schedule) (user : User) (medication : Medication),
    textReminderDue w scheduleId schedule user medication ->
    env_messagesCreate env (textReminder schedule user medication) = true ->
    exists w',
      ReminderController.sendReminder env scheduleId w = (Ok tt, w')
      /\ w_outbox w'
         = (w_outbox w ++ [textReminder schedule user medication])%list
      /\ ScheduleModel.lookup scheduleId w'
         = Some (sentAt (env_clock env (w_ticks w)) schedule)
      /\ (us_escalationEnabled (u_settings user) = true ->
          exists job,
            w_escalationJobs w' = (w_escalationJobs w ++ [job])%list
            /\ job_data job
               = {| ed_scheduleId := scheduleId; ed_level := 1;
                    ed_scheduledFor :=
                      env_clock env (S (w_ticks w)) + 30 * MINUTE |})
      /\ (us_escalationEnabled (u_settings user) = false ->
          w_escalationJobs w' = w_escalationJobs w)
      /\ w_reminderJobs w' = w_reminderJobs w.
Proof.
  intros env w scheduleId schedule user medication Hdue Hok.
  destruct (sendReminder_text_run env w scheduleId schedule user medication
              Hdue Hok)
    as (w' & Hrun & Ho & Hsch & Hesc & Hr & _).
  destruct Hdue as (Hs & _).
  exists w'. split; [exact Hrun |]. split; [exact Ho |].
  split; [| split; [| split; [| exact Hr]]].
  - unfold ScheduleModel.lookup. rewrite Hsch.
    rewrite <- (lookup_id _ _ _ Hs).
    change (s_id schedule)
      with (s_id (sentAt (env_clock env (w_ticks w)) schedule)).
    apply lookup_after_save.
    change (s_id (sentAt (env_clock env (w_ticks w)) schedule))
      with (s_id schedule).
    rewrite (lookup_id _ _ _ Hs).
    unfold ScheduleModel.lookup in Hs. rewrite Hs. discriminate.
  - intros Hen. rewrite Hen in Hesc.
    eexists. split; [exact Hesc | reflexivity].
  - intros Hen. rewrite Hen in Hesc. rewrite app_nil_r in Hesc. exact Hesc.
Qed.


Lemma pendingWorld_textReminderDue :
  textReminderDue pendingWorld 10%nat (Scenario.occurrence "pending")
    Scenario.alice Scenario.twiceDaily.
Proof. repeat split. Defined.

Lemma sendReminder_marks_sent_witness :
  textReminderDue pendingWorld 10%nat (Scenario.occurrence "pending")
    Scenario.alice Scenario.twiceDaily
  /\ exists w',
      ReminderController.sendReminder
        (Scenario.env Scenario.nineAM true None) 10%nat pendingWorld
      = (Ok tt, w')
      /\ ScheduleModel.lookup 10%nat w'
         = Some (sentAt Scenario.nineAM (Scenario.occurrence "pending")).
Proof.
  split; [exact pendingWorld_textReminderDue |].
  destruct (sendReminder_marks_sent
              (Scenario.env Scenario.nineAM true None) pendingWorld 10%nat
              (Scenario.occurrence "pending") Scenario.alice
              Scenario.twiceDaily pendingWorld_textReminderDue eq_refl)
    as (w' & Hrun & _ & Hl & _).
  exists w'. split; [exact Hrun |].
  rewrite Hl. reflexivity.
Defined.

(** X11. Delivering the same reminder job a second
    time after a successful send changes nothing: the occurrence is no
    longer pending, so the second run sends no second message and
    enqueues no second escalation. *)
Theorem sendReminder_redelivery_is_noop :
  forall (env env2 : Env) (w : World) (scheduleId : ObjectId)
         (schedule : Schedule) (user : User) (medication : Medication),
    textReminderDue w scheduleId schedule user medication ->
    env_messagesCreate env (textReminder schedule user medication) = true ->
    exists w',
      ReminderController.sendReminder env scheduleId w = (Ok tt, w')
      /\ ReminderController.sendReminder env2 scheduleId w' = (Ok tt, w').
Proof.
  intros env env2 w scheduleId schedule user medication Hdue Hok.
  destruct (sendReminder_text_run env w scheduleId schedule user medication
              Hdue Hok)
    as (w' & Hrun & _ & Hsch & _).
  destruct Hdue as (Hs & _).
  exists w'. split; [exact Hrun |].
  apply (sendReminder_skips_non_pending env2 w' scheduleId
           (sentAt (env_clock env (w_ticks w)) schedule)).
  - unfold ScheduleModel.lookup. rewrite Hsch.
    rewrite <- (lookup_id _ _ _ Hs).
    change (s_id schedule)
      with (s_id (sentAt (env_clock env (w_ticks w)) schedule)).
    apply lookup_after_save.
    change (s_id (sentAt (env_clock env (w_ticks w)) schedule))
      with (s_id schedule).
    rewrite (lookup_id _ _ _ Hs).
    unfold ScheduleModel.lookup in Hs. rewrite Hs. discriminate.
  - discriminate.
Qed.

Lemma sendReminder_redelivery_is_noop_witness :
  textReminderDue pendingWorld 10%nat (Scenario.occurrence "pending")
    Scenario.alice Scenario.twiceDaily
  /\ exists w',
      ReminderController.sendReminder
        (Scenario.env Scenario.nineAM true None) 10%nat pendingWorld
      = (Ok tt, w')
      /\ ReminderController.sendReminder
           (Scenario.env (Scenario.nineAM + MINUTE) true None) 10%nat w'
         = (Ok tt, w').
Proof.
  split; [exact pendingWorld_textReminderDue |].
  exact (sendReminder_redelivery_is_noop
           (Scenario.env Scenario.nineAM true None)
           (Scenario.env (Scenario.nineAM + MINUTE) true None)
           pendingWorld 10%nat (Scenario.occurrence "pending")
           Scenario.alice Scenario.twiceDaily
           pendingWorld_textReminderDue eq_refl).
Defined.

(** X12. When the transport refuses the reminder the
    handler logs and rethrows; the occurrence is left exactly as it was
    (still 'pending'), nothing is recorded as sent and no escalation is
    scheduled, so a retry of the job starts from the same state. *)
Theorem sendReminder_transport_failure_keeps_pending :
  forall (env : Env) (w : World) (scheduleId : ObjectId)
         (schedule : Schedule) (user : User) (medication : Medication),
    textReminderDue w scheduleId schedule user medication ->
    env_messagesCreate env (textReminder schedule user medication) = false ->
    exists w',
      ReminderController.sendReminder env scheduleId w
      = (Throw (TransportError "messages.create"), w')
      /\ untouched w w'
      /\ w_ticks w' = w_ticks w
      /\ ScheduleModel.lookup scheduleId w' = Some schedule.
Proof.
  intros env w scheduleId schedule user medication
         (Hs & Hst & Hu & Hm & Hq & Hv) Hko.
  unfold ReminderController.sendReminder, try_catch.
  rewrite (bind_ok _ _ _ _ _ (findById_populated_run scheduleId w)).
  rewrite Hs, Hu, Hm, Hst, String.eqb_refl. cbn [negb].
  unfold bind at 1. unfold deref at 1. unfold ret at 1.
  unfold bind at 1. unfold ReminderController.isQuietHours.
  rewrite Hq. cbn [negb]. unfold ret at 1.
  unfold bind at 1. unfold deref at 1. unfold ret at 1.
  unfold bind at 1. rewrite Hv. unfold ret at 1.
  unfold bind at 1.
  unfold ReminderController.sendTextReminder, WhatsAppService.sendMessage,
    ReminderController.buildReminderMessage.
  unfold textReminder in Hko. rewrite Hko.
  unfold bind, logger.error, modify, throw.
  eexists. split; [reflexivity |].
  split; [repeat split |]. split; [reflexivity | exact Hs].
Qed.

Lemma sendReminder_transport_failure_keeps_pending_witness :
  textReminderDue pendingWorld 10%nat (Scenario.occurrence "pending")
    Scenario.alice Scenario.twiceDaily
  /\ exists w',
      ReminderController.sendReminder
        offlineEnv 10%nat pendingWorld
      = (Throw (TransportError "messages.create"), w')
      /\ ScheduleModel.lookup 10%nat w' = Some (Scenario.occurrence "pending").
Proof.
  split; [exact pendingWorld_textReminderDue |].
  destruct (sendReminder_transport_failure_keeps_pending
              offlineEnv pendingWorld 10%nat (Scenario.occurrence "pending")
              Scenario.alice Scenario.twiceDaily
              pendingWorld_textReminderDue eq_refl)
    as (w' & Hrun & _ & _ & Hl).
  exists w'. split; [exact Hrun | exact Hl].
Defined.

(** ** The escalation handler, level by level *)

Lemma getTimeAgo_run env date w :
  exists due,
    EscalationController.getTimeAgo env date w
    = (Ok due, set_ticks (S (w_ticks w)) w).
Proof.
  unfold EscalationController.getTimeAgo, bind, now.
  destruct (_ <? 60); [eexists; reflexivity |].
  destruct (_ <? 120); eexists; reflexivity.
Qed.

Lemma sendMessage_ok env to text replies w :
  env_messagesCreate env (WaMessage (WhatsAppService.address to) text replies)
  = true ->
  WhatsAppService.sendMessage env to text replies w
  = (Ok tt,
     logEntry LInfo "WhatsApp message sent"
       (set_outbox
          (w_outbox w
           ++ [WaMessage (WhatsAppService.address to) text replies])%list w)).
Proof.
  intros H. unfold WhatsAppService.sendMessage. rewrite H. reflexivity.
Qed.

Lemma sendMessage_ko env to text replies w :
  env_messagesCreate env (WaMessage (WhatsAppService.address to) text replies)
  = false ->
  WhatsAppService.sendMessage env to text replies w
  = (Throw (TransportError "messages.create"),
     logEntry LError "Failed to send WhatsApp message:" w).
Proof.
  intros H. unfold WhatsAppService.sendMessage. rewrite H. reflexivity.
Qed.

(** Steps through the handler up to the creation of the record, for a
    level whose type the schema accepts. *)
Ltac escalation_prefix Hs Hst Hu Hm level :=
  unfold EscalationController.handleEscalation, try_catch;
  rewrite (bind_ok _ _ _ _ _ (findById_populated_run _ _));
  rewrite Hs, Hu, Hm, Hst, String.eqb_refl; cbn [negb];
  unfold bind at 1; unfold deref at 1; unfold ret at 1;
  unfold bind at 1; unfold deref at 1; unfold ret at 1;
  unfold bind at 1; unfold EscalationModel.create;
  change (negb ((1 <=? level) && (level <=? 5))) with false;
  change (negb (inEnum escalationTypeEnum
                  (EscalationController.getEscalationType level)))
    with false;
  cbv beta iota;
  unfold bind at 1; unfold freshId at 1;
  unfold bind at 1; unfold modify at 1; unfold ret at 1;
  unfold bind at 1; unfold logger.info at 1; unfold modify at 1;
  unfold bind at 1.

(** X13. At level 1, for an occurrence in status 'sent' and a
    working transport, the handler creates one pending record of type
    'urgent', sends the urgent reminder to the subject, and stamps the
    occurrence with level 1 and the escalation time; the occurrence stays
    in status 'sent'. *)
Theorem handleEscalation_level1_acts :
  forall (env : Env) (w : World) (scheduleId : ObjectId)
         (schedule : Schedule) (user : User) (medication : Medication),
    escalationDue w scheduleId schedule user medication ->
    (forall due, env_messagesCreate env (urgentReminder user due) = true) ->
    exists due w',
      EscalationController.handleEscalation env scheduleId 1 w = (Ok tt, w')
      /\ w_outbox w' = (w_outbox w ++ [urgentReminder user due])%list
      /\ w_escalations w'
         = (w_escalations w
            ++ [escalationRecord w schedule user medication 1])%list
      /\ e_type (escalationRecord w schedule user medication 1) = "urgent"
      /\ ScheduleModel.lookup scheduleId w'
         = Some (stampedAt 1 (env_clock env (S (w_ticks w))) schedule)
      /\ s_status (stampedAt 1 (env_clock env (S (w_ticks w))) schedule)
         = "sent".
Proof.
  intros env w scheduleId schedule user medication (Hs & Hst & Hu & Hm) Hok.
  escalation_prefix Hs Hst Hu Hm 1.
  cbn [Z.eqb Pos.eqb].
  unfold bind at 1.
  unfold EscalationController.sendUrgentReminder.
  unfold bind at 1.
  match goal with
  | |- context [EscalationController.getTimeAgo env ?d ?w1] =>
      destruct (getTimeAgo_run env d w1) as [due Hdue]; rewrite Hdue
  end.
  unfold bind at 1.
  rewrite sendMessage_ok by apply Hok.
  unfold logger.info at 1. unfold modify at 1. unfold ret at 1.
  unfold bind at 1. unfold now at 1.
  unfold bind at 1. unfold ScheduleModel.save at 1. unfold modify at 1.
  rewrite continuation_guard_false. unfold ret at 1.
  exists due. eexists. split; [reflexivity |].
  cbn [w_outbox w_escalations w_schedules w_ticks logEntry set_log
       set_outbox set_ticks set_escalations set_nextId set_schedules].
  split; [reflexivity |]. split; [reflexivity |]. split; [reflexivity |].
  split; [| exact Hst].
  unfold ScheduleModel.lookup. cbn [w_schedules set_schedules].
  apply (lookup_saved w scheduleId schedule
           (stampedAt 1 (env_clock env (S (w_ticks w))) schedule));
    [exact Hs | reflexivity].
Qed.

Lemma handleEscalation_level1_acts_witness :
  escalationDue (sentWorld Scenario.alice) 10%nat (Scenario.occurrence "sent")
    Scenario.alice Scenario.twiceDaily
  /\ exists due w',
      EscalationController.handleEscalation
        (Scenario.env Scenario.nineAM true None) 10%nat 1
        (sentWorld Scenario.alice) = (Ok tt, w')
      /\ w_outbox w' = [urgentReminder Scenario.alice due].
Proof.
  assert (Hdue : escalationDue (sentWorld Scenario.alice) 10%nat
                   (Scenario.occurrence "sent") Scenario.alice
                   Scenario.twiceDaily) by (repeat split).
  split; [exact Hdue |].
  destruct (handleEscalation_level1_acts
              (Scenario.env Scenario.nineAM true None)
              (sentWorld Scenario.alice) 10%nat (Scenario.occurrence "sent")
              Scenario.alice Scenario.twiceDaily Hdue
              (fun _ => eq_refl))
    as (due & w' & Hrun & Ho & _).
  exists due, w'. split; [exact Hrun | exact Ho].
Defined.

(** X14. When the transport refuses the urgent reminder the
    handler logs and rethrows, but the escalation record it created
    beforehand stays in the collection while the occurrence is not
    stamped: each retry of the job adds one more pending record for the
    same level. *)
Theorem handleEscalation_failure_leaves_record :
  forall (env : Env) (w : World) (scheduleId : ObjectId)
         (schedule : Schedule) (user : User) (medication : Medication),
    escalationDue w scheduleId schedule user medication ->
    (forall due, env_messagesCreate env (urgentReminder user due) = false) ->
    exists w',
      EscalationController.handleEscalation env scheduleId 1 w
      = (Throw (TransportError "messages.create"), w')
      /\ w_outbox w' = w_outbox w
      /\ w_escalations w'
         = (w_escalations w
            ++ [escalationRecord w schedule user medication 1])%list
      /\ ScheduleModel.lookup scheduleId w' = Some schedule
      /\ exists w'',
          EscalationController.handleEscalation env scheduleId 1 w'
          = (Throw (TransportError "messages.create"), w'')
          /\ w_escalations w''
             = (w_escalations w
                ++ [escalationRecord w schedule user medication 1;
                    escalationRecord w' schedule user medication 1])%list
          /\ w_outbox w'' = w_outbox w.
Proof.
  assert (Hone : forall env w scheduleId schedule user medication,
             escalationDue w scheduleId schedule user medication ->
             (forall due,
                 env_messagesCreate env (urgentReminder user due) = false) ->
             exists w',
               EscalationController.handleEscalation env scheduleId 1 w
               = (Throw (TransportError "messages.create"), w')
               /\ w_outbox w' = w_outbox w
               /\ w_escalations w'
                  = (w_escalations w
                     ++ [escalationRecord w schedule user medication 1])%list
               /\ w_schedules w' = w_schedules w
               /\ w_users w' = w_users w
               /\ w_medications w' = w_medications w).
  { intros env w scheduleId schedule user medication
           (Hs & Hst & Hu & Hm) Hko.
    escalation_prefix Hs Hst Hu Hm 1.
    cbn [Z.eqb Pos.eqb].
    unfold bind at 1.
    unfold EscalationController.sendUrgentReminder.
    unfold bind at 1.
    match goal with
    | |- context [EscalationController.getTimeAgo env ?d ?w1] =>
        destruct (getTimeAgo_run env d w1) as [due Hdue]; rewrite Hdue
    end.
    unfold bind at 1.
    rewrite sendMessage_ko by apply Hko.
    unfold bind, logger.error, modify, throw.
    eexists. split; [reflexivity |]. repeat split. }
  intros env w scheduleId schedule user medication Hdue Hko.
  destruct (Hone env w scheduleId schedule user medication Hdue Hko)
    as (w' & Hrun & Ho & He & Hsch & Hus & Hmed).
  exists w'. split; [exact Hrun |]. split; [exact Ho |].
  split; [exact He |].
  destruct Hdue as (Hs & Hst & Hu & Hm).
  assert (Hs' : ScheduleModel.lookup scheduleId w' = Some schedule).
  { unfold ScheduleModel.lookup in *. rewrite Hsch. exact Hs. }
  split; [exact Hs' |].
  assert (Hdue' : escalationDue w' scheduleId schedule user medication).
  { repeat split; try assumption.
    - unfold UserModel.lookup in *. rewrite Hus. exact Hu.
    - unfold MedicationModel.lookup in *. rewrite Hmed. exact Hm. }
  destruct (Hone env w' scheduleId schedule user medication Hdue' Hko)
    as (w'' & Hrun2 & Ho2 & He2 & _).
  exists w''. split; [exact Hrun2 |].
  split.
  - rewrite He2, He, <- app_assoc. reflexivity.
  - rewrite Ho2. exact Ho.
Qed.

Lemma handleEscalation_failure_leaves_record_witness :
  escalationDue (sentWorld Scenario.alice) 10%nat (Scenario.occurrence "sent")
    Scenario.alice Scenario.twiceDaily
  /\ exists w',
      EscalationController.handleEscalation offlineEnv 10%nat 1
        (sentWorld Scenario.alice)
      = (Throw (TransportError "messages.create"), w')
      /\ List.length (w_escalations w') = 1%nat.
Proof.
  assert (Hdue : escalationDue (sentWorld Scenario.alice) 10%nat
                   (Scenario.occurrence "sent") Scenario.alice
                   Scenario.twiceDaily) by (repeat split).
  split; [exact Hdue |].
  destruct (handleEscalation_failure_leaves_record offlineEnv
              (sentWorld Scenario.alice) 10%nat (Scenario.occurrence "sent")
              Scenario.alice Scenario.twiceDaily Hdue (fun _ => eq_refl))
    as (w' & Hrun & _ & He & _).
  exists w'. split; [exact Hrun |]. rewrite He. reflexivity.
Defined.

(** X15. For an occurrence in status 'sent', a job whose
    level the schema rejects -- any level below 1 or above 5, and level 2,
    whose type 'voice_reminder' is not in the enum -- fails validation
    before anything happens: no record, no notification, no write to the
    occurrence; the error is logged and rethrown.  The handler's own
    'Unknown escalation level' branch is therefore never reached. *)
Theorem handleEscalation_rejects_unschematic_level :
  forall (env : Env) (w : World) (scheduleId : ObjectId)
         (schedule : Schedule) (user : User) (medication : Medication)
         (level : Z),
    escalationDue w scheduleId schedule user medication ->
    ~ actionableLevel level ->
    exists path w',
      EscalationController.handleEscalation env scheduleId level w
      = (Throw (ValidationError path), w')
      /\ untouched w w'
      /\ w_ticks w' = w_ticks w
      /\ logged LError "Escalation error:" w w'.
Proof.
  intros env w scheduleId schedule user medication level
         (Hs & Hst & Hu & Hm) Hbad.
  unfold EscalationController.handleEscalation, try_catch.
  rewrite (bind_ok _ _ _ _ _ (findById_populated_run _ _)).
  rewrite Hs, Hu, Hm, Hst, String.eqb_refl. cbn [negb].
  unfold bind at 1. unfold deref at 1. unfold ret at 1.
  unfold bind at 1. unfold deref at 1. unfold ret at 1.
  unfold bind at 1. unfold EscalationModel.create.
  destruct (negb ((1 <=? level) && (level <=? 5))) eqn:Hrange.
  - unfold throw, bind, logger.error, modify.
    do 2 eexists. split; [reflexivity |]. repeat split.
  - apply negb_false_iff, andb_true_iff in Hrange.
    destruct Hrange as [H1 H5]. apply Z.leb_le in H1, H5.
    assert (Hl : level = 2).
    { unfold actionableLevel in Hbad. lia. }
    subst level.
    change (negb (inEnum escalationTypeEnum
                    (EscalationController.getEscalationType 2))) with true.
    cbv beta iota.
    unfold throw, bind, logger.error, modify.
    do 2 eexists. split; [reflexivity |]. repeat split.
Qed.

Lemma handleEscalation_rejects_unschematic_level_witness :
  escalationDue (sentWorld Scenario.alice) 10%nat (Scenario.occurrence "sent")
    Scenario.alice Scenario.twiceDaily
  /\ ~ actionableLevel 6
  /\ exists path w',
      EscalationController.handleEscalation
        (Scenario.env Scenario.nineAM true None) 10%nat 6
        (sentWorld Scenario.alice)
      = (Throw (ValidationError path), w')
      /\ w_escalations w' = [] /\ w_outbox w' = [].
Proof.
  assert (Hdue : escalationDue (sentWorld Scenario.alice) 10%nat
                   (Scenario.occurrence "sent") Scenario.alice
                   Scenario.twiceDaily) by (repeat split).
  assert (Hbad : ~ actionableLevel 6) by (unfold actionableLevel; lia).
  split; [exact Hdue |]. split; [exact Hbad |].
  destruct (handleEscalation_rejects_unschematic_level
              (Scenario.env Scenario.nineAM true None)
              (sentWorld Scenario.alice) 10%nat (Scenario.occurrence "sent")
              Scenario.alice Scenario.twiceDaily 6 Hdue Hbad)
    as (path & w' & Hrun & Hun & _).
  exists path, w'. split; [exact Hrun |].
  destruct Hun as (_ & _ & _ & _ & He & _ & _ & _ & Ho).
  split; assumption.
Defined.

(** X16. For an occurrence in status 'sent' whose subject or
    medication document no longer exists, the handler fails with a type
    error on the first dereference: nothing is created or sent, the error
    is logged and rethrown. *)
Theorem handleEscalation_dangling_reference :
  forall (env : Env) (w : World) (scheduleId : ObjectId)
         (schedule : Schedule) (level : Z),
    ScheduleModel.lookup scheduleId w = Some schedule ->
    s_status schedule = "sent" ->
    (UserModel.lookup (s_userId schedule) w = None
     \/ MedicationModel.lookup (s_medicationId schedule) w = None) ->
    exists what w',
      EscalationController.handleEscalation env scheduleId level w
      = (Throw (TypeError what), w')
      /\ untouched w w'
      /\ logged LError "Escalation error:" w w'.
Proof.
  intros env w scheduleId schedule level Hs Hst Hdang.
  unfold EscalationController.handleEscalation, try_catch.
  rewrite (bind_ok _ _ _ _ _ (findById_populated_run _ _)).
  rewrite Hs, Hst, String.eqb_refl. cbn [negb].
  destruct (UserModel.lookup (s_userId schedule) w) as [user |].
  - destruct Hdang as [Hu | Hm]; [discriminate |].
    rewrite Hm.
    unfold bind at 1. unfold deref at 1. unfold ret at 1.
    unfold bind at 1. unfold deref at 1. unfold throw at 1.
    unfold bind, logger.error, modify, throw.
    do 2 eexists. split; [reflexivity |]. repeat split.
  - unfold bind at 1. unfold deref at 1. unfold throw at 1.
    unfold bind, logger.error, modify, throw.
    do 2 eexists. split; [reflexivity |]. repeat split.
Qed.


Lemma handleEscalation_dangling_reference_witness :
  (UserModel.lookup (s_userId (Scenario.occurrence "sent")) orphanWorld = None
   \/ MedicationModel.lookup (s_medicationId (Scenario.occurrence "sent"))
        orphanWorld = None)
  /\ exists what w',
      EscalationController.handleEscalation
        (Scenario.env Scenario.nineAM true None) 10%nat 1 orphanWorld
      = (Throw (TypeError what), w')
      /\ w_escalations w' = [].
Proof.
  assert (H : UserModel.lookup (s_userId (Scenario.occurrence "sent"))
                orphanWorld = None
              \/ MedicationModel.lookup
                   (s_medicationId (Scenario.occurrence "sent")) orphanWorld
                 = None) by (left; reflexivity).
  split; [exact H |].
  destruct (handleEscalation_dangling_reference
              (Scenario.env Scenario.nineAM true None) orphanWorld 10%nat
              (Scenario.occurrence "sent") 1 eq_refl eq_refl H)
    as (what & w' & Hrun & Hun & _).
  exists what, w'. split; [exact Hrun |].
  destruct Hun as (_ & _ & _ & _ & He & _). exact He.
Defined.

(** X17. At level 4, when the subject has a caregiver and the
    transport works, the first registered caregiver is alerted, the
    level's record is marked with the caregiver notification (phone,
    relationship, time), and the occurrence ends up carrying both stamps:
    caregiver alerted, and escalation level 4. *)
Theorem handleEscalation_level4_alerts_caregiver :
  forall (env : Env) (w : World) (scheduleId : ObjectId)
         (schedule : Schedule) (user : User) (medication : Medication)
         (caregiver : Caregiver) (others : list Caregiver),
    escalationDue w scheduleId schedule user medication ->
    freshNextId w ->
    u_caregivers user = caregiver :: others ->
    (forall due,
        env_messagesCreate env (caregiverAlert user caregiver due) = true) ->
    exists due w',
      EscalationController.handleEscalation env scheduleId 4 w = (Ok tt, w')
      /\ w_outbox w' = (w_outbox w ++ [caregiverAlert user caregiver due])%list
      /\ w_escalations w'
         = (w_escalations w
            ++ [EscalationModel.with_caregiver
                  {| cb_notified := true;
                     cb_phoneNumber := cg_phoneNumber caregiver;
                     cb_relationship := cg_relationship caregiver;
                     cb_notifiedAt := env_clock env (S (w_ticks w)) |}
                  (escalationRecord w schedule user medication 4)])%list
      /\ ScheduleModel.lookup scheduleId w'
         = Some (caregiverStamped (env_clock env (S (S (w_ticks w))))
                   (env_clock env (S (S (S (w_ticks w))))) schedule).
Proof.
  intros env w scheduleId schedule user medication caregiver others
         (Hs & Hst & Hu & Hm) Hfresh Hcg Hok.
  escalation_prefix Hs Hst Hu Hm 4.
  cbn [Z.eqb Pos.eqb].
  unfold EscalationController.alertCaregiver. rewrite Hcg.
  unfold bind at 1.
  match goal with
  | |- context [EscalationController.getTimeAgo env ?d ?w1] =>
      destruct (getTimeAgo_run env d w1) as [due Hdue]; rewrite Hdue
  end.
  unfold try_catch.
  unfold bind at 1.
  rewrite sendMessage_ok by apply Hok.
  unfold bind at 1. unfold now at 1.
  unfold bind at 1. unfold EscalationModel.save at 1. unfold modify at 1.
  unfold bind at 1. unfold now at 1.
  unfold bind at 1. unfold ScheduleModel.save at 1. unfold modify at 1.
  unfold bind at 1. unfold logger.info at 1. unfold modify at 1.
  unfold ret at 1.
  unfold bind at 1. unfold now at 1.
  unfold bind at 1. unfold ScheduleModel.save at 1. unfold modify at 1.
  rewrite continuation_guard_false. unfold ret at 1.
  exists due. eexists. split; [reflexivity |].
  cbn [w_outbox w_escalations w_schedules w_ticks logEntry set_log
       set_outbox set_ticks set_escalations set_nextId set_schedules].
  split; [reflexivity |].
  split.
  - rewrite map_app. f_equal.
    + rewrite <- (map_id (w_escalations w)) at 2.
      apply map_ext_in. intros e He.
      unfold freshNextId in Hfresh. rewrite Forall_forall in Hfresh.
      specialize (Hfresh e He).
      cbn [e_id EscalationModel.with_caregiver escalationRecord].
      apply Nat.eqb_neq in Hfresh. rewrite Hfresh. reflexivity.
    + cbn [map e_id EscalationModel.with_caregiver escalationRecord].
      rewrite Nat.eqb_refl. reflexivity.
  - unfold ScheduleModel.lookup. cbn [w_schedules set_schedules].
    apply (find_saved _ scheduleId
             (ScheduleModel.with_escalation
                {| es_level := es_level (s_escalation schedule);
                   es_lastEscalatedAt :=
                     es_lastEscalatedAt (s_escalation schedule);
                   es_caregiverAlerted := Some true;
                   es_caregiverAlertedAt :=
                     Some (env_clock env (S (S (w_ticks w)))) |} schedule)
             (caregiverStamped (env_clock env (S (S (w_ticks w))))
                (env_clock env (S (S (S (w_ticks w))))) schedule));
      [| reflexivity].
    apply (find_saved _ scheduleId schedule); [exact Hs | reflexivity].
Qed.

Lemma handleEscalation_level4_alerts_caregiver_witness :
  escalationDue (sentWorld aliceWithCaregiver) 10%nat
    (Scenario.occurrence "sent") aliceWithCaregiver Scenario.twiceDaily
  /\ freshNextId (sentWorld aliceWithCaregiver)
  /\ exists due w',
      EscalationController.handleEscalation
        (Scenario.env Scenario.nineAM true None) 10%nat 4
        (sentWorld aliceWithCaregiver) = (Ok tt, w')
      /\ w_outbox w'
         = [WaMessage "whatsapp:+27820000002"
              (TCaregiverAlert "Alice" due (Some "daughter")) QRCaregiver]
      /\ option_map (fun s => es_caregiverAlerted (s_escalation s))
           (ScheduleModel.lookup 10%nat w') = Some (Some true).
Proof.
  assert (Hdue : escalationDue (sentWorld aliceWithCaregiver) 10%nat
                   (Scenario.occurrence "sent") aliceWithCaregiver
                   Scenario.twiceDaily) by (repeat split).
  assert (Hfresh : freshNextId (sentWorld aliceWithCaregiver))
    by constructor.
  split; [exact Hdue |]. split; [exact Hfresh |].
  destruct (handleEscalation_level4_alerts_caregiver
              (Scenario.env Scenario.nineAM true None)
              (sentWorld aliceWithCaregiver) 10%nat
              (Scenario.occurrence "sent") aliceWithCaregiver
              Scenario.twiceDaily _ _ Hdue Hfresh eq_refl
              (fun _ => eq_refl))
    as (due & w' & Hrun & Ho & _ & Hl).
  exists due, w'. split; [exact Hrun |]. split; [exact Ho |].
  rewrite Hl. reflexivity.
Defined.

(** X18. Level 4 never fails the job: when the subject has no
    caregiver, or when the alert cannot be delivered, the handler still
    returns normally, sends nothing, leaves the caregiver block of the
    level's record empty and stamps the occurrence with level 4 without
    marking a caregiver as alerted. *)
Theorem handleEscalation_level4_without_alert :
  forall (env : Env) (w : World) (scheduleId : ObjectId)
         (schedule : Schedule) (user : User) (medication : Medication),
    escalationDue w scheduleId schedule user medication ->
    (u_caregivers user = []
     \/ forall msg, env_messagesCreate env msg = false) ->
    exists t w',
      EscalationController.handleEscalation env scheduleId 4 w = (Ok tt, w')
      /\ w_outbox w' = w_outbox w
      /\ w_escalations w'
         = (w_escalations w
            ++ [escalationRecord w schedule user medication 4])%list
      /\ e_caregiver (escalationRecord w schedule user medication 4) = None
      /\ ScheduleModel.lookup scheduleId w' = Some (stampedAt 4 t schedule).
Proof.
  intros env w scheduleId schedule user medication
         (Hs & Hst & Hu & Hm) Hquiet.
  escalation_prefix Hs Hst Hu Hm 4.
  cbn [Z.eqb Pos.eqb].
  unfold EscalationController.alertCaregiver.
  destruct (u_caregivers user) as [| caregiver others] eqn:Hcg.
  - unfold bind at 1. unfold logger.warn at 1. unfold modify at 1.
    unfold ret at 1.
    unfold bind at 1. unfold now at 1.
    unfold bind at 1. unfold ScheduleModel.save at 1. unfold modify at 1.
    rewrite continuation_guard_false. unfold ret at 1.
    do 2 eexists. split; [reflexivity |].
    cbn [w_outbox w_escalations w_schedules w_ticks logEntry set_log
         set_outbox set_ticks set_escalations set_nextId set_schedules].
    repeat split.
    unfold ScheduleModel.lookup. cbn [w_schedules set_schedules].
    apply (find_saved _ scheduleId schedule (stampedAt 4 _ schedule));
      [exact Hs | reflexivity].
  - destruct Hquiet as [Hnil | Hko]; [discriminate |].
    unfold bind at 1.
    match goal with
    | |- context [EscalationController.getTimeAgo env ?d ?w1] =>
        destruct (getTimeAgo_run env d w1) as [due Hdue]; rewrite Hdue
    end.
    unfold try_catch.
    unfold bind at 1.
    rewrite sendMessage_ko by apply Hko.
    unfold bind at 1. unfold logger.error at 1. unfold modify at 1.
    unfold ret at 1.
    unfold bind at 1. unfold now at 1.
    unfold bind at 1. unfold ScheduleModel.save at 1. unfold modify at 1.
    rewrite continuation_guard_false. unfold ret at 1.
    do 2 eexists. split; [reflexivity |].
    cbn [w_outbox w_escalations w_schedules w_ticks logEntry set_log
         set_outbox set_ticks set_escalations set_nextId set_schedules].
    repeat split.
    unfold ScheduleModel.lookup. cbn [w_schedules set_schedules].
    apply (find_saved _ scheduleId schedule (stampedAt 4 _ schedule));
      [exact Hs | reflexivity].
Qed.

Lemma handleEscalation_level4_without_alert_witness :
  escalationDue (sentWorld aliceWithCaregiver) 10%nat
    (Scenario.occurrence "sent") aliceWithCaregiver Scenario.twiceDaily
  /\ (u_caregivers aliceWithCaregiver = []
      \/ forall msg, env_messagesCreate offlineEnv msg = false)
  /\ exists t w',
      EscalationController.handleEscalation offlineEnv 10%nat 4
        (sentWorld aliceWithCaregiver) = (Ok tt, w')
      /\ w_outbox w' = []
      /\ ScheduleModel.lookup 10%nat w'
         = Some (stampedAt 4 t (Scenario.occurrence "sent")).
Proof.
  assert (Hdue : escalationDue (sentWorld aliceWithCaregiver) 10%nat
                   (Scenario.occurrence "sent") aliceWithCaregiver
                   Scenario.twiceDaily) by (repeat split).
  assert (Hq : u_caregivers aliceWithCaregiver = []
               \/ forall msg, env_messagesCreate offlineEnv msg = false)
    by (right; intros msg; reflexivity).
  split; [exact Hdue |]. split; [exact Hq |].
  destruct (handleEscalation_level4_without_alert offlineEnv
              (sentWorld aliceWithCaregiver) 10%nat
              (Scenario.occurrence "sent") aliceWithCaregiver
              Scenario.twiceDaily Hdue Hq)
    as (t & w' & Hrun & Ho & _ & _ & Hl).
  exists t, w'. split; [exact Hrun |]. split; [exact Ho | exact Hl].
Defined.

(** X19. At level 5 the critical alert goes to the subject exactly
    when the subject is affiliated to a clinic; a subject without clinic
    receives nothing.  In both cases the 'clinic' record is created and
    the occurrence is stamped with level 5. *)
Theorem handleEscalation_level5_alert_needs_clinic :
  forall (env : Env) (w : World) (scheduleId : ObjectId)
         (schedule : Schedule) (user : User) (medication : Medication),
    escalationDue w scheduleId schedule user medication ->
    env_messagesCreate env (criticalAlert user medication) = true ->
    exists w',
      EscalationController.handleEscalation env scheduleId 5 w = (Ok tt, w')
      /\ w_outbox w'
         = (w_outbox w
            ++ match sub_clinicId (u_subscription user) with
               | Some _ => [criticalAlert user medication]
               | None => []
               end)%list
      /\ w_escalations w'
         = (w_escalations w
            ++ [escalationRecord w schedule user medication 5])%list
      /\ e_type (escalationRecord w schedule user medication 5) = "clinic"
      /\ ScheduleModel.lookup scheduleId w'
         = Some (stampedAt 5 (env_clock env (w_ticks w)) schedule).
Proof.
  intros env w scheduleId schedule user medication
         (Hs & Hst & Hu & Hm) Hok.
  escalation_prefix Hs Hst Hu Hm 5.
  cbn [Z.eqb Pos.eqb].
  unfold bind at 1.
  unfold EscalationController.alertClinic.
  destruct (sub_clinicId (u_subscription user)) as [clinic |].
  - unfold bind at 1. unfold logger.info at 1. unfold modify at 1.
    rewrite sendMessage_ok by apply Hok.
    unfold ret at 1.
    unfold bind at 1. unfold now at 1.
    unfold bind at 1. unfold ScheduleModel.save at 1. unfold modify at 1.
    rewrite continuation_guard_false. unfold ret at 1.
    eexists. split; [reflexivity |].
    cbn [w_outbox w_escalations w_schedules w_ticks logEntry set_log
         set_outbox set_ticks set_escalations set_nextId set_schedules].
    repeat split.
    unfold ScheduleModel.lookup. cbn [w_schedules set_schedules].
    apply (find_saved _ scheduleId schedule (stampedAt 5 _ schedule));
      [exact Hs | reflexivity].
  - unfold logger.warn at 1. unfold modify at 1. unfold ret at 1.
    unfold bind at 1. unfold now at 1.
    unfold bind at 1. unfold ScheduleModel.save at 1. unfold modify at 1.
    rewrite continuation_guard_false. unfold ret at 1.
    eexists. split; [reflexivity |].
    cbn [w_outbox w_escalations w_schedules w_ticks logEntry set_log
         set_outbox set_ticks set_escalations set_nextId set_schedules].
    rewrite app_nil_r. repeat split.
    unfold ScheduleModel.lookup. cbn [w_schedules set_schedules].
    apply (find_saved _ scheduleId schedule (stampedAt 5 _ schedule));
      [exact Hs | reflexivity].
Qed.

Lemma handleEscalation_level5_alert_needs_clinic_witness :
  escalationDue (sentWorld aliceAtClinic) 10%nat
    (Scenario.occurrence "sent") aliceAtClinic Scenario.twiceDaily
  /\ exists w',
      EscalationController.handleEscalation
        (Scenario.env Scenario.nineAM true None) 10%nat 5
        (sentWorld aliceAtClinic) = (Ok tt, w')
      /\ w_outbox w'
         = [WaMessage "whatsapp:+27820000001" (TCriticalAlert false) QRNone].
Proof.
  assert (Hdue : escalationDue (sentWorld aliceAtClinic) 10%nat
                   (Scenario.occurrence "sent") aliceAtClinic
                   Scenario.twiceDaily) by (repeat split).
  split; [exact Hdue |].
  destruct (handleEscalation_level5_alert_needs_clinic
              (Scenario.env Scenario.nineAM true None)
              (sentWorld aliceAtClinic) 10%nat (Scenario.occurrence "sent")
              aliceAtClinic Scenario.twiceDaily Hdue eq_refl)
    as (w' & Hrun & Ho & _).
  exists w'. split; [exact Hrun | exact Ho].
Defined.

(** X20. When the voice call of level 3 cannot be placed
    (no caller number configured, or Twilio refuses the call) and the
    subject has voice reminders switched off, the chain of fallbacks ends
    in the urgent text of level 1: that message, and no call, is what
    goes out, and the failure does not fail the job. *)
Theorem makeVoiceCall_falls_back_to_text :
  forall (env : Env) (w : World) (user : User) (medication : Medication)
         (schedule : Schedule),
    (env_TWILIO_WHATSAPP_NUMBER env = None
     \/ forall args, env_callsCreate env args = None) ->
    us_voiceReminders (u_settings user) = false ->
    (forall due, env_messagesCreate env (urgentReminder user due) = true) ->
    exists due w',
      EscalationController.makeVoiceCall env user medication schedule w
      = (Ok tt, w')
      /\ w_outbox w' = (w_outbox w ++ [urgentReminder user due])%list
      /\ logged LInfo "Urgent reminder sent"
           (logEntry LInfo "WhatsApp message sent"
              (logEntry LError "Voice call failed:" w)) w'.
Proof.
  intros env w user medication schedule Hfail Hvoice Hok.
  rewrite (makeVoiceCall_falls_back env w user medication schedule Hfail).
  unfold EscalationController.sendVoiceReminder. rewrite Hvoice.
  cbn [negb].
  unfold EscalationController.sendUrgentReminder.
  unfold bind at 1.
  match goal with
  | |- context [EscalationController.getTimeAgo env ?d ?w1] =>
      destruct (getTimeAgo_run env d w1) as [due Hdue]; rewrite Hdue
  end.
  unfold bind at 1.
  rewrite sendMessage_ok by apply Hok.
  unfold logger.info, modify.
  exists due. eexists. split; [reflexivity |].
  split; reflexivity.
Qed.


Lemma makeVoiceCall_falls_back_to_text_witness :
  (env_TWILIO_WHATSAPP_NUMBER noCallsEnv = None
   \/ forall args, env_callsCreate noCallsEnv args = None)
  /\ exists due w',
      EscalationController.makeVoiceCall noCallsEnv Scenario.alice
        Scenario.twiceDaily (Scenario.occurrence "sent")
        (sentWorld Scenario.alice) = (Ok tt, w')
      /\ w_outbox w' = [urgentReminder Scenario.alice due].
Proof.
  assert (Hfail : env_TWILIO_WHATSAPP_NUMBER noCallsEnv = None
                  \/ forall args, env_callsCreate noCallsEnv args = None)
    by (right; intros args; reflexivity).
  split; [exact Hfail |].
  destruct (makeVoiceCall_falls_back_to_text noCallsEnv
              (sentWorld Scenario.alice) Scenario.alice Scenario.twiceDaily
              (Scenario.occurrence "sent") Hfail eq_refl (fun _ => eq_refl))
    as (due & w' & Hrun & Ho & _).
  exists due, w'. split; [exact Hrun | exact Ho].
Defined.

(** ** Snoozing and rescheduling *)





(** ** Pausing and resuming *)

Lemma same_id_same_doc (l : list Schedule) (a b : Schedule) :
  NoDup (map s_id l) -> In a l -> In b l -> s_id a = s_id b -> a = b.
Proof.
  induction l as [| x l IH]; intros Hnd Ha Hb Hid; [contradiction |].
  cbn in Hnd. inversion Hnd as [| ? ? Hnot Hnd']; subst.
  destruct Ha as [Ha | Ha]; destruct Hb as [Hb | Hb].
  - congruence.
  - subst x. exfalso. apply Hnot. rewrite Hid. apply in_map. exact Hb.
  - subst x. exfalso. apply Hnot. rewrite <- Hid. apply in_map. exact Ha.
  - apply IH; assumption.
Qed.

Lemma existsb_filter_id (p : Schedule -> bool) (l : list Schedule)
  (s : Schedule) :
  NoDup (map s_id l) -> In s l ->
  existsb (fun x => Nat.eqb (s_id x) (s_id s)) (filter p l) = p s.
Proof.
  intros Hnd Hin.
  destruct (p s) eqn:Hp.
  - apply existsb_exists. exists s. split.
    + apply filter_In. split; assumption.
    + apply Nat.eqb_refl.
  - apply not_true_is_false. intros Hex.
    apply existsb_exists in Hex. destruct Hex as (x & Hx & Hid).
    apply filter_In in Hx. destruct Hx as [Hxin Hpx].
    apply Nat.eqb_eq in Hid.
    rewrite (same_id_same_doc l x s Hnd Hxin Hin Hid) in Hpx. congruence.
Qed.

Lemma addReminder_frame env scheduleId scheduledTime isSnoozed w :
  exists r w' jobs,
    ReminderQueue.addReminder env scheduleId scheduledTime isSnoozed w
    = (Ok r, w')
    /\ w_schedules w' = w_schedules w
    /\ w_outbox w' = w_outbox w
    /\ w_escalationJobs w' = w_escalationJobs w
    /\ w_reminderJobs w' = (w_reminderJobs w ++ jobs)%list
    /\ Forall (fun j => job_data j
                        = {| rd_scheduleId := scheduleId;
                             rd_isSnoozed := isSnoozed;
                             rd_scheduledTime := scheduledTime |}) jobs.
Proof.
  unfold ReminderQueue.addReminder, bind, now, Bull_add, logger.warn,
    logger.info, modify, ret.
  destruct (scheduledTime - env_clock env (w_ticks w) <? 0).
  - exists None. eexists. exists []. split; [reflexivity |].
    cbn. rewrite app_nil_r. repeat split. constructor.
  - eexists. eexists. eexists. split; [reflexivity |].
    cbn. repeat split. constructor; [reflexivity | constructor].
Qed.

Lemma resume_loop env (todo : list Schedule) :
  forall w,
    uniqueIds w ->
    NoDup (map s_id todo) ->
    (forall x, In x todo -> In x (w_schedules w)) ->
    exists w' jobs,
      forEach todo
        (fun schedule =>
           ScheduleModel.save (ScheduleModel.with_status "pending" schedule) ;;;
           (_ <- ReminderQueue.addReminder env
                   (s_id (ScheduleModel.with_status "pending" schedule))
                   (s_scheduledTime
                      (ScheduleModel.with_status "pending" schedule)) false ;;
            ret tt)) w = (Ok tt, w')
      /\ w_schedules w'
         = map (fun s =>
                  if existsb (fun x => Nat.eqb (s_id x) (s_id s)) todo
                  then ScheduleModel.with_status "pending" s else s)
               (w_schedules w)
      /\ w_outbox w' = w_outbox w
      /\ w_escalationJobs w' = w_escalationJobs w
      /\ w_reminderJobs w' = (w_reminderJobs w ++ jobs)%list
      /\ Forall (fun j =>
                   exists x, In x todo
                     /\ job_data j
                        = {| rd_scheduleId := s_id x; rd_isSnoozed := false;
                             rd_scheduledTime := s_scheduledTime x |}) jobs.
Proof.
  induction todo as [| x todo IH]; intros w Huniq Hnd Hsub.
  - exists w, []. cbn. rewrite app_nil_r, map_id. repeat split. constructor.
  - cbn [forEach].
    unfold bind at 1. unfold bind at 1.
    unfold ScheduleModel.save at 1. unfold modify at 1.
    set (w1 := set_schedules _ w).
    destruct (addReminder_frame env
                (s_id (ScheduleModel.with_status "pending" x))
                (s_scheduledTime (ScheduleModel.with_status "pending" x))
                false w1)
      as (r & w2 & jobs1 & Hrun1 & Hs1 & Ho1 & He1 & Hj1 & Hd1).
    rewrite (bind_ok _ _ _ _ _ Hrun1). unfold ret at 1.
    cbn in Hnd. inversion Hnd as [| ? ? Hnotin Hnd']; subst.
    assert (Hg : w_schedules w2
                 = map (fun s => if Nat.eqb (s_id s) (s_id x)
                                 then ScheduleModel.with_status "pending" s
                                 else s) (w_schedules w)).
    { rewrite Hs1. unfold w1. cbn [w_schedules set_schedules].
      apply map_ext_in. intros s Hs.
      cbn [s_id ScheduleModel.with_status].
      destruct (Nat.eqb (s_id s) (s_id x)) eqn:Hid; [| reflexivity].
      apply Nat.eqb_eq in Hid.
      rewrite (same_id_same_doc (w_schedules w) s x Huniq Hs
                 (Hsub x (or_introl eq_refl)) Hid).
      reflexivity. }
    assert (Hids : map s_id (w_schedules w2) = map s_id (w_schedules w)).
    { rewrite Hg, map_map. apply map_ext. intros s.
      destruct (Nat.eqb (s_id s) (s_id x)); reflexivity. }
    assert (Huniq2 : uniqueIds w2).
    { unfold uniqueIds. rewrite Hids. exact Huniq. }
    assert (Hsub2 : forall y, In y todo -> In y (w_schedules w2)).
    { intros y Hy. rewrite Hg.
      apply in_map_iff. exists y. split.
      - destruct (Nat.eqb (s_id y) (s_id x)) eqn:Hid; [| reflexivity].
        apply Nat.eqb_eq in Hid. exfalso. apply Hnotin.
        rewrite <- Hid. apply in_map. exact Hy.
      - apply Hsub. right. exact Hy. }
    destruct (IH w2 Huniq2 Hnd' Hsub2)
      as (w' & jobs2 & Hrun2 & Hs2 & Ho2 & He2 & Hj2 & Hd2).
    exists w', (jobs1 ++ jobs2)%list.
    split; [exact Hrun2 |].
    split; [| split; [| split; [| split]]].
    + rewrite Hs2, Hg, map_map. apply map_ext_in. intros s Hs.
      cbn [existsb].
      rewrite (Nat.eqb_sym (s_id x) (s_id s)).
      destruct (Nat.eqb (s_id s) (s_id x)) eqn:Hid; cbn [orb].
      * cbn [s_id ScheduleModel.with_status].
        assert (Hno : existsb (fun x0 => Nat.eqb (s_id x0) (s_id s)) todo
                      = false).
        { apply not_true_is_false. intros Hex.
          apply existsb_exists in Hex. destruct Hex as (y & Hy & Hyid).
          apply Nat.eqb_eq in Hyid, Hid. apply Hnotin.
          rewrite <- Hid, <- Hyid. apply in_map. exact Hy. }
        rewrite Hno. reflexivity.
      * reflexivity.
    + rewrite Ho2, Ho1. reflexivity.
    + rewrite He2, He1. reflexivity.
    + rewrite Hj2, Hj1, app_assoc. reflexivity.
    + apply Forall_app. split.
      * eapply Forall_impl; [| exact Hd1].
        intros j Hj. exists x. split; [left; reflexivity | exact Hj].
      * eapply Forall_impl; [| exact Hd2].
        intros j (y & Hy & Hj). exists y. split; [right; exact Hy | exact Hj].
Qed.

Lemma resumeMedicationSchedules_run :
  forall (env : Env) (w : World) (medicationId : ObjectId),
    uniqueIds w ->
    let t := env_clock env (w_ticks w) in
    exists w' jobs,
      SchedulerService.resumeMedicationSchedules env medicationId w
      = (Ok (List.length (filter (resumable medicationId t) (w_schedules w))),
         w')
      /\ w_schedules w'
         = map (fun s => if resumable medicationId t s
                         then ScheduleModel.with_status "pending" s else s)
               (w_schedules w)
      /\ w_reminderJobs w' = (w_reminderJobs w ++ jobs)%list
      /\ Forall (fun j =>
                   exists s, In s (w_schedules w)
                     /\ resumable medicationId t s = true
                     /\ job_data j
                        = {| rd_scheduleId := s_id s; rd_isSnoozed := false;
                             rd_scheduledTime := s_scheduledTime s |}) jobs
      /\ w_outbox w' = w_outbox w.
Proof.
  intros env w medicationId Huniq t.
  unfold SchedulerService.resumeMedicationSchedules, try_catch.
  unfold bind at 1. unfold MedicationModel.findById at 1. unfold gets at 1.
  unfold bind at 1. unfold now at 1. fold t.
  unfold bind at 1. unfold ScheduleModel.find_from at 1. unfold gets at 1.
  cbn [w_schedules set_ticks].
  change (fun s => Nat.eqb (s_medicationId s) medicationId
                   && String.eqb (s_status s) "paused"
                   && (t <=? s_scheduledTime s))
    with (resumable medicationId t).
  set (todo := filter (resumable medicationId t) (w_schedules w)).
  assert (Hnd : NoDup (map s_id todo)).
  { unfold todo. unfold uniqueIds in Huniq.
    clear - Huniq. induction (w_schedules w) as [| x l IH]; cbn.
    - constructor.
    - cbn in Huniq. inversion Huniq as [| ? ? Hnot Hnd']; subst.
      destruct (resumable medicationId t x); cbn; [| apply IH; exact Hnd'].
      constructor; [| apply IH; exact Hnd'].
      intros Hin. apply Hnot. apply in_map_iff in Hin.
      destruct Hin as (y & Hy & Hyin). apply filter_In in Hyin.
      rewrite <- Hy. apply in_map. apply Hyin. }
  assert (Hsub : forall x, In x todo
                           -> In x (w_schedules (set_ticks (S (w_ticks w)) w))).
  { intros x Hx. unfold todo in Hx. apply filter_In in Hx. apply Hx. }
  destruct (resume_loop env todo (set_ticks (S (w_ticks w)) w) Huniq Hnd Hsub)
    as (w' & jobs & Hrun & Hs & Ho & He & Hj & Hd).
  unfold bind at 1.
  match goal with
  | |- context [forEach todo ?body ?w0] =>
      change (forEach todo body w0) with
        (forEach todo
           (fun schedule =>
              ScheduleModel.save
                (ScheduleModel.with_status "pending" schedule) ;;;
              (_ <- ReminderQueue.addReminder env
                      (s_id (ScheduleModel.with_status "pending" schedule))
                      (s_scheduledTime
                         (ScheduleModel.with_status "pending" schedule))
                      false ;;
               ret tt)) w0)
  end.
  rewrite Hrun.
  unfold bind, logger.info, modify, ret.
  exists (logEntry LInfo "Medication schedules resumed" w'), jobs.
  split; [reflexivity |].
  cbn [w_schedules w_reminderJobs w_outbox logEntry set_log].
  split; [| split; [exact Hj | split; [| exact Ho]]].
  - rewrite Hs. cbn [w_schedules set_ticks].
    apply map_ext_in. intros s Hin.
    unfold todo. rewrite (existsb_filter_id _ _ _ Huniq Hin). reflexivity.
  - eapply Forall_impl; [| exact Hd].
    intros j (x & Hx & Hjd). unfold todo in Hx. apply filter_In in Hx.
    exists x. split; [apply Hx |]. split; [apply Hx | exact Hjd].
Qed.

(** X23. Resuming a medication turns into 'pending' exactly its
    paused occurrences that are due now or later and leaves every other
    occurrence as it is -- occurrences that became past while paused stay
    paused.  The returned count is the number of resumed occurrences, and
    every reminder job added is a regular (not snoozed) reminder for one
    of them at its due time. *)
Theorem resumeMedicationSchedules_resumes_future :
  forall (env : Env) (w : World) (medicationId : ObjectId),
    uniqueIds w ->
    let t := env_clock env (w_ticks w) in
    exists w' jobs,
      SchedulerService.resumeMedicationSchedules env medicationId w
      = (Ok (List.length (filter (resumable medicationId t) (w_schedules w))),
         w')
      /\ w_schedules w'
         = map (fun s => if resumable medicationId t s
                         then ScheduleModel.with_status "pending" s else s)
               (w_schedules w)
      /\ w_reminderJobs w' = (w_reminderJobs w ++ jobs)%list
      /\ Forall (fun j =>
                   exists s, In s (w_schedules w)
                     /\ resumable medicationId t s = true
                     /\ job_data j
                        = {| rd_scheduleId := s_id s; rd_isSnoozed := false;
                             rd_scheduledTime := s_scheduledTime s |}) jobs
      /\ w_outbox w' = w_outbox w.
Proof.
  intros env w medicationId Huniq.
  exact (resumeMedicationSchedules_run env w medicationId Huniq).
Qed.


Lemma pausedWorld_uniqueIds : uniqueIds pausedWorld.
Proof.
  unfold uniqueIds. cbn.
  constructor; [intros [H | []]; discriminate |].
  constructor; [intros [] | constructor].
Defined.

Lemma resumeMedicationSchedules_resumes_future_witness :
  uniqueIds pausedWorld
  /\ exists w' jobs,
      SchedulerService.resumeMedicationSchedules
        (Scenario.env Scenario.nineAM true None) 2%nat pausedWorld
      = (Ok 1%nat, w')
      /\ map s_status (w_schedules w') = ["paused"; "pending"]
      /\ w_reminderJobs w' = ([] ++ jobs)%list.
Proof.
  split; [exact pausedWorld_uniqueIds |].
  destruct (resumeMedicationSchedules_resumes_future
              (Scenario.env Scenario.nineAM true None) pausedWorld 2%nat
              pausedWorld_uniqueIds)
    as (w' & jobs & Hrun & Hs & Hj & _).
  exists w', jobs. split; [exact Hrun |].
  split; [rewrite Hs; reflexivity | exact Hj].
Defined.

Lemma pause_run medicationId w :
  SchedulerService.pauseMedicationSchedules medicationId w
  = (Ok (List.length (filter (pausable medicationId) (w_schedules w))),
     logEntry LInfo "Medication schedules paused"
       (logEntry LInfo "Removing reminders by medication ID"
          (set_schedules
             (map (fun s => if pausable medicationId s
                            then ScheduleModel.with_status "paused" s else s)
                  (w_schedules w)) w))).
Proof. reflexivity. Qed.

Lemma pausable_after_pause medicationId (l : list Schedule) :
  filter (pausable medicationId)
    (map (fun s => if pausable medicationId s
                   then ScheduleModel.with_status "paused" s else s) l)
  = [].
Proof.
  induction l as [| s l IH]; cbn; [reflexivity |].
  destruct (pausable medicationId s) eqn:Hp.
  - unfold pausable at 1. cbn [s_status s_medicationId
                                 ScheduleModel.with_status].
    rewrite andb_false_r. exact IH.
  - rewrite Hp. exact IH.
Qed.

Lemma map_unpausable medicationId (l : list Schedule) :
  filter (pausable medicationId) l = [] ->
  map (fun s => if pausable medicationId s
                then ScheduleModel.with_status "paused" s else s) l = l.
Proof.
  induction l as [| s l IH]; cbn; [reflexivity |].
  destruct (pausable medicationId s); [discriminate |].
  intros H. rewrite (IH H). reflexivity.
Qed.

(** X24. Pausing a medication turns exactly its pending occurrences
    into paused ones and reports how many there were; occurrences of
    other medications and occurrences in any other status are not
    touched.  Pausing again finds nothing left to pause: it reports zero
    and changes no document. *)
Theorem pauseMedicationSchedules_idempotent :
  forall (w : World) (medicationId : ObjectId),
    exists w',
      SchedulerService.pauseMedicationSchedules medicationId w
      = (Ok (List.length (filter (pausable medicationId) (w_schedules w))),
         w')
      /\ w_schedules w'
         = map (fun s => if pausable medicationId s
                         then ScheduleModel.with_status "paused" s else s)
               (w_schedules w)
      /\ w_outbox w' = w_outbox w
      /\ exists w'',
          SchedulerService.pauseMedicationSchedules medicationId w'
          = (Ok O, w'')
          /\ w_schedules w'' = w_schedules w'.
Proof.
  intros w medicationId.
  rewrite pause_run. eexists. split; [reflexivity |].
  cbn [w_schedules w_outbox logEntry set_log set_schedules].
  split; [reflexivity |]. split; [reflexivity |].
  rewrite pause_run.
  cbn [w_schedules logEntry set_log set_schedules].
  rewrite pausable_after_pause.
  eexists. split; [reflexivity |].
  cbn [w_schedules logEntry set_log set_schedules].
  apply map_unpausable. apply pausable_after_pause.
Qed.




(** ** Provenance of expanded occurrences *)

Section Provenance.
Context (env : Env) (medication : Medication) (timezone : string).


Lemma adds_nil P w1 w2 :
  w_schedules w2 = w_schedules w1 -> w_nextId w2 = w_nextId w1 ->
  w_reminderJobs w2 = w_reminderJobs w1 -> w_outbox w2 = w_outbox w1 ->
  w_escalationJobs w2 = w_escalationJobs w1 -> w_users w2 = w_users w1 ->
  adds P w1 w2 [].
Proof.
  intros Hs Hn Hr Ho He Hu. unfold adds. cbn.
  rewrite Hs, Hn, Hr, Ho, He, Hu, app_nil_r, Nat.add_0_r.
  repeat split; auto.
  exists []. rewrite app_nil_r. split; [reflexivity | constructor].
Qed.

Lemma adds_weaken (P Q : Schedule -> Prop) w1 w2 added :
  (forall s, P s -> Q s) -> adds P w1 w2 added -> adds Q w1 w2 added.
Proof.
  intros HPQ (Hs & Hn & Hi & Hf & Hj & Hrest).
  repeat split; try assumption; try apply Hrest.
  eapply Forall_impl; [| exact Hf]. exact HPQ.
Qed.

Lemma adds_trans P w1 w2 w3 a1 a2 :
  adds P w1 w2 a1 -> adds P w2 w3 a2 -> adds P w1 w3 (a1 ++ a2).
Proof.
  intros (Hs1 & Hn1 & Hi1 & Hf1 & (j1 & Hj1 & Hd1) & Ho1 & He1 & Hu1)
         (Hs2 & Hn2 & Hi2 & Hf2 & (j2 & Hj2 & Hd2) & Ho2 & He2 & Hu2).
  unfold adds. rewrite length_app.
  split; [rewrite Hs2, Hs1, app_assoc; reflexivity |].
  split; [rewrite Hn2, Hn1; lia |].
  split; [rewrite map_app, Hi1, Hi2, Hn1, seq_app; reflexivity |].
  split; [apply Forall_app; split; assumption |].
  split.
  - exists (j1 ++ j2)%list. split.
    + rewrite Hj2, Hj1, app_assoc. reflexivity.
    + apply Forall_app. split.
      * eapply Forall_impl; [| exact Hd1].
        intros j (s & Hin & Hd). exists s. split; [| exact Hd].
        apply in_or_app. left. exact Hin.
      * eapply Forall_impl; [| exact Hd2].
        intros j (s & Hin & Hd). exists s. split; [| exact Hd].
        apply in_or_app. right. exact Hin.
  - split; [congruence |]. split; congruence.
Qed.

Lemma slotStep_adds day timeSlot acc w1 :
  exists w2 added,
    SchedulerService.slotStep env medication timezone day timeSlot acc w1
    = (Ok (acc ++ added)%list, w2)
    /\ adds (slotOccurrence env medication timezone day timeSlot)
            w1 w2 added.
Proof.
  unfold SchedulerService.slotStep.
  destruct (SchedulerService.getScheduledTime env day (ts_time timeSlot)
              timezone) as [st |] eqn:Hst.
  - unfold bind at 1. unfold now at 1.
    destruct (env_clock env (w_ticks w1) <? st).
    + unfold ScheduleModel.create.
      change (inEnum scheduleStatusEnum "pending") with true.
      cbv beta iota.
      unfold ReminderQueue.addReminder, bind, freshId, modify, now, ret,
        logger.warn, logger.info, Bull_add.
      cbn [w_ticks set_ticks set_nextId set_schedules w_nextId
           w_schedules w_reminderJobs w_log logEntry set_log].
      destruct (st - env_clock env (S (w_ticks w1)) <? 0).
      * do 2 eexists. split; [reflexivity |].
        unfold adds; cbn.
        split; [reflexivity |]. split; [lia |]. split; [reflexivity |].
        split; [constructor; [| constructor]; repeat split; exact Hst |].
        split; [| repeat split].
        exists []. rewrite app_nil_r. split; [reflexivity | constructor].
      * do 2 eexists. split; [reflexivity |].
        unfold adds; cbn.
        split; [reflexivity |]. split; [lia |]. split; [reflexivity |].
        split; [constructor; [| constructor]; repeat split; exact Hst |].
        split; [| repeat split].
        eexists. split; [reflexivity |].
        constructor; [| constructor].
        eexists. split; [left; reflexivity | reflexivity].
    + exists (set_ticks (S (w_ticks w1)) w1), [].
      rewrite app_nil_r. split; [reflexivity |].
      apply adds_nil; reflexivity.
  - unfold bind, now, ret.
    exists (set_ticks (S (w_ticks w1)) w1), [].
    rewrite app_nil_r. split; [reflexivity |].
    apply adds_nil; reflexivity.
Qed.

Lemma slotLoop_adds day slots :
  forall acc w1,
    exists w2 added,
      SchedulerService.slotLoop env medication timezone day slots acc w1
      = (Ok (acc ++ added)%list, w2)
      /\ adds (fun s => exists slot,
                   In slot slots
                   /\ slotOccurrence env medication timezone day slot s)
              w1 w2 added.
Proof.
  induction slots as [| timeSlot rest IH]; intros acc w1.
  - exists w1, []. rewrite app_nil_r. split; [reflexivity |].
    apply adds_nil; reflexivity.
  - cbn [SchedulerService.slotLoop].
    destruct (slotStep_adds day timeSlot acc w1) as (w2 & a1 & Hrun1 & Ha1).
    rewrite (bind_ok _ _ _ _ _ Hrun1).
    destruct (IH (acc ++ a1)%list w2) as (w3 & a2 & Hrun2 & Ha2).
    rewrite Hrun2.
    exists w3, (a1 ++ a2)%list. rewrite app_assoc.
    split; [reflexivity |].
    eapply adds_trans.
    + eapply adds_weaken; [| exact Ha1].
      intros s Hs. exists timeSlot. split; [left; reflexivity | exact Hs].
    + eapply adds_weaken; [| exact Ha2].
      intros s (slot & Hin & Hs). exists slot.
      split; [right; exact Hin | exact Hs].
Qed.

Lemma dayLoop_adds endDate :
  forall fuel currentDate acc w1,
    (SchedulerService.daysToWalk currentDate endDate <= fuel)%nat ->
    exists w2 added,
      SchedulerService.dayLoop env fuel medication timezone endDate
        currentDate acc w1 = (Ok (acc ++ added)%list, w2)
      /\ adds (expandedFrom env medication timezone currentDate endDate)
              w1 w2 added.
Proof.
  induction fuel as [| fuel IH]; intros currentDate acc w1 Hfuel.
  - cbn [SchedulerService.dayLoop].
    destruct (SchedulerService.notAfter currentDate endDate) eqn:Hna.
    + destruct endDate as [e |]; [| discriminate].
      cbn in Hna. apply Z.leb_le in Hna.
      rewrite (daysToWalk_step _ _ Hna) in Hfuel. lia.
    + exists w1, []. rewrite app_nil_r. split; [reflexivity |].
      apply adds_nil; reflexivity.
  - cbn [SchedulerService.dayLoop].
    destruct (SchedulerService.notAfter currentDate endDate) eqn:Hna.
    + assert (Hday : exists w1' a1,
                 (if SchedulerService.shouldScheduleToday env medication
                       currentDate
                  then SchedulerService.slotLoop env medication timezone
                         currentDate (ms_times (m_schedule medication)) acc
                  else ret acc) w1 = (Ok (acc ++ a1)%list, w1')
                 /\ adds (expandedFrom env medication timezone currentDate
                            endDate) w1 w1' a1).
      { destruct (SchedulerService.shouldScheduleToday env medication
                    currentDate) eqn:Hshould.
        - destruct (slotLoop_adds currentDate
                      (ms_times (m_schedule medication)) acc w1)
            as (w1' & a1 & Hr1 & Ha1).
          exists w1', a1. split; [exact Hr1 |].
          eapply adds_weaken; [| exact Ha1].
          intros s (slot & Hin & Hs). exists O, slot.
          cbn [Z.of_nat]. rewrite Z.mul_0_l, Z.add_0_r.
          repeat split; try assumption; apply Hs.
        - exists w1, []. rewrite app_nil_r. split; [reflexivity |].
          apply adds_nil; reflexivity. }
      destruct Hday as (w1' & a1 & Hr1 & Ha1).
      rewrite (bind_ok _ _ _ _ _ Hr1).
      assert (Hfuel' : (SchedulerService.daysToWalk
                          (DateLocal.nextDay currentDate) endDate
                        <= fuel)%nat).
      { destruct endDate as [e |]; [| cbn; lia].
        cbn in Hna. apply Z.leb_le in Hna.
        rewrite (daysToWalk_step _ _ Hna) in Hfuel. lia. }
      destruct (IH (DateLocal.nextDay currentDate) (acc ++ a1)%list w1'
                  Hfuel') as (w2 & a2 & Hr2 & Ha2).
      rewrite Hr2.
      exists w2, (a1 ++ a2)%list. rewrite app_assoc.
      split; [reflexivity |].
      eapply adds_trans; [exact Ha1 |].
      eapply adds_weaken; [| exact Ha2].
      intros s (k & slot & Hn & Hsh & Hin & Hs).
      exists (S k), slot.
      replace (currentDate + Z.of_nat (S k) * DAY)
        with (DateLocal.nextDay currentDate + Z.of_nat k * DAY)
        by (unfold DateLocal.nextDay; lia).
      repeat split; try assumption; apply Hs.
    + exists w1, []. rewrite app_nil_r. split; [reflexivity |].
      apply adds_nil; reflexivity.
Qed.

End Provenance.

Lemma createSchedules_run env w medication user :
  env_globalUser env = true ->
  UserModel.lookup (m_userId medication) w = Some user ->
  exists l w',
    SchedulerService.createSchedules env medication w = (Ok l, w')
    /\ adds (expandedFrom env medication
               (JS.or_else (u_timezone user) "UTC")
               (walkStart env w medication) (walkEnd env w medication))
            w w' l.
Proof.
  intros Hglobal Huser.
  unfold SchedulerService.createSchedules, try_catch.
  unfold bind at 1. rewrite Hglobal.
  unfold UserModel.findById, gets. rewrite Huser.
  unfold bind at 1. unfold deref, ret at 1.
  unfold bind at 1.
  assert (Hstart : exists w1,
             match ms_startDate (m_schedule medication) with
             | Some d => ret d
             | None => now env
             end w = (Ok (walkStart env w medication), w1)
             /\ adds (expandedFrom env medication
                        (JS.or_else (u_timezone user) "UTC")
                        (walkStart env w medication)
                        (walkEnd env w medication)) w w1 []).
  { unfold walkStart.
    destruct (ms_startDate (m_schedule medication)) as [d |].
    - exists w. split; [reflexivity | apply adds_nil; reflexivity].
    - exists (set_ticks (S (w_ticks w)) w).
      split; [reflexivity | apply adds_nil; reflexivity]. }
  destruct Hstart as (w1 & Hrun0 & Ha0).
  rewrite Hrun0.
  change (match ms_endDate (m_schedule medication) with
          | Some e => Some e
          | None =>
              match ms_duration (m_schedule medication) with
              | Some duration =>
                  Some (walkStart env w medication
                        + duration * 24 * 60 * 60 * 1000)
              | None => None
              end
          end) with (walkEnd env w medication).
  unfold bind at 1.
  destruct (dayLoop_adds env medication (JS.or_else (u_timezone user) "UTC")
              (walkEnd env w medication)
              (SchedulerService.daysToWalk (walkStart env w medication)
                 (walkEnd env w medication))
              (walkStart env w medication) [] w1 (le_n _))
    as (w2 & added & Hrun & Ha).
  rewrite Hrun. cbn [app].
  exists added, (logEntry LInfo "Schedules created" w2).
  split; [reflexivity |].
  pose proof (adds_trans _ _ _ _ _ _ Ha0 Ha) as Hall. cbn [app] in Hall.
  destruct Hall as (Hs & Hn & Hi & Hf & Hj & Ho & He & Hu).
  repeat split; assumption.
Qed.

(** X26. When the patient's [User] document exists (and the
    [User] model is in scope), expansion returns normally; the
    occurrences it returns are exactly the documents it appended to the
    collection, under consecutive fresh ids; each one is pending,
    belongs to the medication and its patient, carries the slot's dose
    with the medication's form (or ['unit']) as unit, and is due at the
    slot's clock time on a day of the walk that is not after the end
    date and that the frequency rule accepts; and every reminder job
    added is the job of one of these occurrences, for its due time. *)
Theorem createSchedules_provenance :
  forall (env : Env) (w : World) (medication : Medication) (user : User),
    env_globalUser env = true ->
    UserModel.lookup (m_userId medication) w = Some user ->
    exists l w',
      SchedulerService.createSchedules env medication w = (Ok l, w')
      /\ w_schedules w' = (w_schedules w ++ l)%list
      /\ map s_id l = seq (w_nextId w) (List.length l)
      /\ Forall (expandedFrom env medication
                   (JS.or_else (u_timezone user) "UTC")
                   (walkStart env w medication) (walkEnd env w medication))
                l
      /\ (exists jobs,
             w_reminderJobs w' = (w_reminderJobs w ++ jobs)%list
             /\ Forall (fun j =>
                          exists s, In s l
                            /\ job_data j
                               = {| rd_scheduleId := s_id s;
                                    rd_isSnoozed := false;
                                    rd_scheduledTime := s_scheduledTime s |})
                       jobs)
      /\ w_outbox w' = w_outbox w.
Proof.
  intros env w medication user Hglobal Huser.
  destruct (createSchedules_run env w medication user Hglobal Huser)
    as (l & w' & Hrun & Hs & Hn & Hi & Hf & Hj & Ho & _).
  exists l, w'. repeat split; assumption.
Qed.

Lemma createSchedules_provenance_witness :
  env_globalUser (Scenario.env Scenario.day0 true None) = true
  /\ UserModel.lookup (m_userId Scenario.twiceDaily)
       (Scenario.world Scenario.alice [] []) = Some Scenario.alice
  /\ exists l w',
      SchedulerService.createSchedules (Scenario.env Scenario.day0 true None)
        Scenario.twiceDaily (Scenario.world Scenario.alice [] [])
      = (Ok l, w')
      /\ w_schedules w' = l
      /\ map s_id l = seq 100 (List.length l).
Proof.
  split; [reflexivity |]. split; [reflexivity |].
  destruct (createSchedules_provenance
              (Scenario.env Scenario.day0 true None)
              (Scenario.world Scenario.alice [] []) Scenario.twiceDaily
              Scenario.alice eq_refl eq_refl)
    as (l & w' & Hrun & Hs & Hi & _).
  exists l, w'. repeat split; assumption.
Defined.

Lemma getScheduledTime_same_day env day slot timezone (st : Date) :
  wellFormedSlot slot ->
  SchedulerService.getScheduledTime env day (ts_time slot) timezone
  = Some st ->
  DateLocal.dayNumber (env_tzOffset env) st
  = DateLocal.dayNumber (env_tzOffset env) day.
Proof.
  intros (h & m & t & Hh & Ht & Hm & Hhr & Hmr).
  unfold SchedulerService.getScheduledTime,
    SchedulerService.moment_tz_toDate, DateLocal.setHours.
  rewrite Hh, Ht, Hm. intros Hst. inversion Hst; subst st; clear Hst.
  unfold DateLocal.dayNumber at 1. unfold DateLocal.localMs at 1.
  replace (DateLocal.dayNumber (env_tzOffset env) day * DAY + h * HOUR
           + m * MINUTE - env_tzOffset env + env_tzOffset env)
    with ((h * HOUR + m * MINUTE)
          + DateLocal.dayNumber (env_tzOffset env) day * DAY) by lia.
  rewrite Z.div_add by discriminate.
  rewrite Z.div_small; [lia |].
  unfold DAY, HOUR, MINUTE. lia.
Qed.

(** X27. When the patient's [User] document exists (and the
    [User] model is in scope) and every slot carries a well-formed time
    of day, a weekly medication gets occurrences only on the local
    weekdays it lists, and a monthly one only on its day of the
    month. *)
Theorem createSchedules_calendar_days :
  forall (env : Env) (w : World) (medication : Medication) (user : User),
    env_globalUser env = true ->
    UserModel.lookup (m_userId medication) w = Some user ->
    Forall wellFormedSlot (ms_times (m_schedule medication)) ->
    exists l w',
      SchedulerService.createSchedules env medication w = (Ok l, w')
      /\ (ms_frequency (m_schedule medication) = "weekly" ->
          Forall (fun s =>
                    In (DateLocal.getDay (env_tzOffset env)
                          (s_scheduledTime s))
                       (ms_daysOfWeek (m_schedule medication))) l)
      /\ (ms_frequency (m_schedule medication) = "monthly" ->
          Forall (fun s =>
                    ms_dayOfMonth (m_schedule medication)
                    = Some (DateLocal.getDate (env_tzOffset env)
                              (s_scheduledTime s))) l).
Proof.
  intros env w medication user Hglobal Huser Hwf.
  destruct (createSchedules_run env w medication user Hglobal Huser)
    as (l & w' & Hrun & _ & _ & _ & Hf & _).
  exists l, w'. split; [exact Hrun |].
  rewrite Forall_forall in Hwf.
  split; intros Hfreq; (eapply Forall_impl; [| exact Hf]);
    intros s (k & slot & _ & Hshould & Hin & Hst & _);
    pose proof (getScheduledTime_same_day env _ slot _ _ (Hwf slot Hin) Hst)
      as Hday;
    unfold SchedulerService.shouldScheduleToday in Hshould;
    rewrite Hfreq in Hshould; cbn [String.eqb Ascii.eqb Bool.eqb] in Hshould.
  - apply existsb_exists in Hshould. destruct Hshould as (d & Hd & Heq).
    apply Z.eqb_eq in Heq. subst d.
    unfold DateLocal.getDay in *. rewrite Hday. exact Hd.
  - destruct (ms_dayOfMonth (m_schedule medication)) as [d |];
      [| discriminate].
    apply Z.eqb_eq in Hshould. subst d.
    unfold DateLocal.getDate in *. rewrite Hday. reflexivity.
Qed.

Lemma mondayWednesday_wellFormed :
  Forall wellFormedSlot (ms_times (m_schedule mondayWednesday)).
Proof.
  constructor; [| constructor; [| constructor]].
  - exists 8, 0, "00". repeat split; try reflexivity; lia.
  - exists 20, 0, "00". repeat split; try reflexivity; lia.
Defined.

Lemma createSchedules_calendar_days_witness :
  env_globalUser (Scenario.env Scenario.day0 true None) = true
  /\ UserModel.lookup (m_userId mondayWednesday)
       (Scenario.world Scenario.alice [] []) = Some Scenario.alice
  /\ Forall wellFormedSlot (ms_times (m_schedule mondayWednesday))
  /\ exists l w',
      SchedulerService.createSchedules (Scenario.env Scenario.day0 true None)
        mondayWednesday (Scenario.world Scenario.alice [] [])
      = (Ok l, w')
      /\ Forall (fun s => In (DateLocal.getDay 0 (s_scheduledTime s)) [1; 3])
                l.
Proof.
  split; [reflexivity |]. split; [reflexivity |].
  split; [exact mondayWednesday_wellFormed |].
  destruct (createSchedules_calendar_days
              (Scenario.env Scenario.day0 true None)
              (Scenario.world Scenario.alice [] []) mondayWednesday
              Scenario.alice eq_refl eq_refl mondayWednesday_wellFormed)
    as (l & w' & Hrun & Hweekly & _).
  exists l, w'. split; [exact Hrun |]. exact (Hweekly eq_refl).
Defined.

(** X28. When the patient's [User] document exists (and the
    [User] model is in scope), a schedule definition with neither an
    end date nor a duration, with no slot, with a frequency other than
    daily, weekly or monthly, weekly without weekdays or monthly
    without a day of the month is expanded to nothing, and without an
    error: the call returns the empty list, and no occurrence is stored
    and no reminder queued. *)
Theorem createSchedules_barren :
  forall (env : Env) (w : World) (medication : Medication) (user : User),
    env_globalUser env = true ->
    UserModel.lookup (m_userId medication) w = Some user ->
    barren medication ->
    exists w',
      SchedulerService.createSchedules env medication w = (Ok [], w')
      /\ w_schedules w' = w_schedules w
      /\ w_reminderJobs w' = w_reminderJobs w
      /\ w_outbox w' = w_outbox w.
Proof.
  intros env w medication user Hglobal Huser Hbarren.
  destruct (createSchedules_run env w medication user Hglobal Huser)
    as (l & w' & Hrun & Hs & _ & _ & Hf & (jobs & Hj & Hjobs) & Ho & _).
  assert (Hnil : l = []).
  { destruct l as [| s l']; [reflexivity | exfalso].
    inversion Hf as [| ? ? (k & slot & Hna & Hshould & Hin & _) _]; subst.
    unfold barren in Hbarren; cbv zeta in Hbarren.
    destruct Hbarren as [(He & Hd) | [Ht | [(Hd & Hw & Hm) | [(Hw & Hd)
                        | (Hm & Hd)]]]].
    - unfold walkEnd in Hna. rewrite He, Hd in Hna. discriminate.
    - rewrite Ht in Hin. exact Hin.
    - unfold SchedulerService.shouldScheduleToday in Hshould.
      apply String.eqb_neq in Hd, Hw, Hm.
      rewrite Hd, Hw, Hm in Hshould. discriminate.
    - unfold SchedulerService.shouldScheduleToday in Hshould.
      rewrite Hw, Hd in Hshould. discriminate.
    - unfold SchedulerService.shouldScheduleToday in Hshould.
      rewrite Hm, Hd in Hshould. discriminate. }
  subst l.
  assert (Hjnil : jobs = []).
  { destruct jobs as [| j jobs']; [reflexivity | exfalso].
    inversion Hjobs as [| ? ? (s & Hin & _) _]. exact Hin. }
  subst jobs. rewrite app_nil_r in Hs, Hj.
  exists w'. repeat split; assumption.
Qed.

Lemma createSchedules_barren_witness :
  env_globalUser (Scenario.env Scenario.day0 true None) = true
  /\ UserModel.lookup (m_userId openEnded)
       (Scenario.world Scenario.alice [] []) = Some Scenario.alice
  /\ barren openEnded
  /\ exists w',
      SchedulerService.createSchedules (Scenario.env Scenario.day0 true None)
        openEnded (Scenario.world Scenario.alice [] [])
      = (Ok [], w')
      /\ w_schedules w' = []
      /\ w_reminderJobs w' = [].
Proof.
  split; [reflexivity |]. split; [reflexivity |].
  assert (Hb : barren openEnded) by (left; split; reflexivity).
  split; [exact Hb |].
  destruct (createSchedules_barren
              (Scenario.env Scenario.day0 true None)
              (Scenario.world Scenario.alice [] []) openEnded
              Scenario.alice eq_refl eq_refl Hb)
    as (w' & Hrun & Hs & Hj & _).
  exists w'. repeat split; assumption.
Defined.

(** ** Bulk expansion *)

Lemma bulkLoop_run env medications :
  forall acc w,
    env_globalUser env = true ->
    (forall medication, In medication medications ->
       UserModel.lookup (m_userId medication) w <> None) ->
    exists l w',
      SchedulerService.bulkLoop env medications acc w
      = (Ok (acc ++ l)%list, w')
      /\ adds (occurrenceOf medications) w w' l.
Proof.
  induction medications as [| medication rest IH];
    intros acc w Hglobal Husers.
  - exists [], w. rewrite app_nil_r. split; [reflexivity |].
    apply adds_nil; reflexivity.
  - cbn [SchedulerService.bulkLoop].
    destruct (UserModel.lookup (m_userId medication) w) as [user |] eqn:Hu;
      [| exfalso; exact (Husers medication (or_introl eq_refl) Hu)].
    destruct (createSchedules_run env w medication user Hglobal Hu)
      as (l1 & w1 & Hrun1 & Ha1).
    rewrite (bind_ok _ _ _ _ _ Hrun1).
    assert (Husers1 : forall m, In m rest ->
                        UserModel.lookup (m_userId m) w1 <> None).
    { intros m Hin. unfold UserModel.lookup.
      replace (w_users w1) with (w_users w) by (symmetry; apply Ha1).
      apply (Husers m). right. exact Hin. }
    destruct (IH (acc ++ l1)%list w1 Hglobal Husers1)
      as (l2 & w2 & Hrun2 & Ha2).
    rewrite Hrun2. exists (l1 ++ l2)%list, w2. rewrite app_assoc.
    split; [reflexivity |].
    eapply adds_trans.
    + eapply adds_weaken; [| exact Ha1].
      intros s (k & slot & _ & _ & _ & _ & Hsu & Hsm & _ & Hst & _).
      exists medication. repeat split; try assumption. left. reflexivity.
    + eapply adds_weaken; [| exact Ha2].
      intros s (m & Hin & Hrest). exists m.
      split; [right; exact Hin | exact Hrest].
Qed.

Lemma bulkLoop_app env before rest :
  forall acc w,
    SchedulerService.bulkLoop env (before ++ rest) acc w
    = match SchedulerService.bulkLoop env before acc w with
      | (Ok l, w1) => SchedulerService.bulkLoop env rest l w1
      | (Throw e, w1) => (Throw e, w1)
      end.
Proof.
  induction before as [| medication before IH]; intros acc w.
  - reflexivity.
  - cbn [app SchedulerService.bulkLoop]. unfold bind.
    destruct (SchedulerService.createSchedules env medication w)
      as ([l | e] & w1).
    + apply IH.
    + reflexivity.
Qed.

Lemma createSchedules_no_user env w medication :
  env_globalUser env = true ->
  UserModel.lookup (m_userId medication) w = None ->
  SchedulerService.createSchedules env medication w
  = (Throw (TypeError "user.timezone"),
     logEntry LError "Error creating schedules:" w).
Proof.
  intros Hglobal Hu.
  unfold SchedulerService.createSchedules, try_catch.
  unfold bind at 1. rewrite Hglobal.
  unfold UserModel.findById, gets. rewrite Hu.
  reflexivity.
Qed.

(** X29. When every medication's patient exists (and the [User]
    model is in scope), bulk expansion returns normally; the
    occurrences it returns are the documents appended to the
    collection, under consecutive fresh ids (so no two share an id);
    each one is a pending occurrence of one of the medications, for
    that medication's own patient whatever the [userId] argument. *)
Theorem bulkCreateSchedules_all :
  forall (env : Env) (w : World) (userId : ObjectId)
         (medications : list Medication),
    env_globalUser env = true ->
    (forall medication, In medication medications ->
       UserModel.lookup (m_userId medication) w <> None) ->
    exists l w',
      SchedulerService.bulkCreateSchedules env userId medications w
      = (Ok l, w')
      /\ w_schedules w' = (w_schedules w ++ l)%list
      /\ map s_id l = seq (w_nextId w) (List.length l)
      /\ NoDup (map s_id l)
      /\ Forall (occurrenceOf medications) l.
Proof.
  intros env w userId medications Hglobal Husers.
  destruct (bulkLoop_run env medications [] w Hglobal Husers)
    as (l & w1 & Hrun & Hs & _ & Hi & Hf & _).
  unfold SchedulerService.bulkCreateSchedules.
  rewrite (bind_ok _ _ _ _ _ Hrun). cbn [app].
  exists l, (logEntry LInfo "Bulk schedules created" w1).
  split; [reflexivity |]. split; [exact Hs |]. split; [exact Hi |].
  split; [rewrite Hi; apply seq_NoDup | exact Hf].
Qed.

Lemma bulkCreateSchedules_all_witness :
  env_globalUser (Scenario.env Scenario.day0 true None) = true
  /\ (forall medication,
         In medication [Scenario.twiceDaily; mondayWednesday] ->
         UserModel.lookup (m_userId medication)
           (Scenario.world Scenario.alice [] []) <> None)
  /\ exists l w',
      SchedulerService.bulkCreateSchedules
        (Scenario.env Scenario.day0 true None) 9%nat
        [Scenario.twiceDaily; mondayWednesday]
        (Scenario.world Scenario.alice [] [])
      = (Ok l, w')
      /\ w_schedules w' = l
      /\ NoDup (map s_id l).
Proof.
  assert (Hu : forall medication,
             In medication [Scenario.twiceDaily; mondayWednesday] ->
             UserModel.lookup (m_userId medication)
               (Scenario.world Scenario.alice [] []) <> None).
  { intros medication [H | [H | []]]; subst medication; discriminate. }
  split; [reflexivity |]. split; [exact Hu |].
  destruct (bulkCreateSchedules_all
              (Scenario.env Scenario.day0 true None)
              (Scenario.world Scenario.alice [] []) 9%nat
              [Scenario.twiceDaily; mondayWednesday] eq_refl Hu)
    as (l & w' & Hrun & Hs & _ & Hnd & _).
  exists l, w'. repeat split; assumption.
Defined.

(** X30. Bulk expansion is not all-or-nothing: when a
    medication's patient has no [User] document (the [User] model
    being in scope), the call throws at that medication, the
    medications after it are not expanded, and the occurrences and
    reminder jobs already created for the medications before it stay
    stored and queued. *)
Theorem bulkCreateSchedules_stops_at_missing_user :
  forall (env : Env) (w : World) (userId : ObjectId)
         (before rest : list Medication) (stray : Medication),
    env_globalUser env = true ->
    (forall medication, In medication before ->
       UserModel.lookup (m_userId medication) w <> None) ->
    UserModel.lookup (m_userId stray) w = None ->
    exists l w1 w',
      SchedulerService.bulkCreateSchedules env userId before w
      = (Ok l, logEntry LInfo "Bulk schedules created" w1)
      /\ SchedulerService.bulkCreateSchedules env userId
           (before ++ stray :: rest) w
         = (Throw (TypeError "user.timezone"), w')
      /\ w_schedules w' = (w_schedules w ++ l)%list
      /\ w_schedules w' = w_schedules w1
      /\ w_reminderJobs w' = w_reminderJobs w1.
Proof.
  intros env w userId before rest stray Hglobal Husers Hstray.
  destruct (bulkLoop_run env before [] w Hglobal Husers)
    as (l & w1 & Hrun & Hs & _ & _ & _ & _ & _ & _ & Hu).
  cbn [app] in Hrun.
  exists l, w1, (logEntry LError "Error creating schedules:" w1).
  unfold SchedulerService.bulkCreateSchedules.
  split; [rewrite (bind_ok _ _ _ _ _ Hrun); reflexivity |].
  split.
  - unfold bind at 1. rewrite bulkLoop_app, Hrun.
    cbn [SchedulerService.bulkLoop]. unfold bind at 1.
    rewrite createSchedules_no_user;
      [reflexivity | exact Hglobal |].
    unfold UserModel.lookup. rewrite Hu. exact Hstray.
  - cbn. repeat split. exact Hs.
Qed.

Lemma bulkCreateSchedules_stops_at_missing_user_witness :
  env_globalUser (Scenario.env Scenario.day0 true None) = true
  /\ (forall medication, In medication [Scenario.twiceDaily] ->
        UserModel.lookup (m_userId medication)
          (Scenario.world Scenario.alice [] []) <> None)
  /\ UserModel.lookup (m_userId strayMedication)
       (Scenario.world Scenario.alice [] []) = None
  /\ exists l w1 w',
      SchedulerService.bulkCreateSchedules
        (Scenario.env Scenario.day0 true None) 1%nat [Scenario.twiceDaily]
        (Scenario.world Scenario.alice [] [])
      = (Ok l, logEntry LInfo "Bulk schedules created" w1)
      /\ SchedulerService.bulkCreateSchedules
           (Scenario.env Scenario.day0 true None) 1%nat
           [Scenario.twiceDaily; strayMedication; mondayWednesday]
           (Scenario.world Scenario.alice [] [])
         = (Throw (TypeError "user.timezone"), w')
      /\ w_schedules w' = l.
Proof.
  assert (Hu : forall medication, In medication [Scenario.twiceDaily] ->
             UserModel.lookup (m_userId medication)
               (Scenario.world Scenario.alice [] []) <> None).
  { intros medication [H | []]; subst medication; discriminate. }
  split; [reflexivity |]. split; [exact Hu |]. split; [reflexivity |].
  destruct (bulkCreateSchedules_stops_at_missing_user
              (Scenario.env Scenario.day0 true None)
              (Scenario.world Scenario.alice [] []) 1%nat
              [Scenario.twiceDaily] [mondayWednesday] strayMedication
              eq_refl Hu eq_refl)
    as (l & w1 & w' & Hok & Hthrow & Hs & _).
  exists l, w1, w'. repeat split; assumption.
Defined.
